(** * json-webhook-server: the storage layer, the aggregation queries, the
    ingestion handler and the pages, embedded in Rocq.

    [db_manager.py] (class [DbManager]) and the routes of [app.py] are
    translated function by function.  The SQLite engine, the clock, the UUID
    generator and Python's [json] module are outside the repository: the
    engine is modelled by list operations on three tables, the clock and the
    UUID draw are explicit arguments, and the JSON codec is an interface
    ([JsonCodec]) with one concrete instance. *)

From Stdlib Require Import ZArith List String Ascii Bool Lia Permutation Sorted.
Import ListNotations.

Local Open Scope string_scope.
Local Open Scope Z_scope.
Local Open Scope list_scope.

(* ================================================================== *)
(** ** Text: Python [str] and SQLite TEXT values *)
(* ================================================================== *)

Module Text.

(** [s.rstrip(c)]: drop every trailing occurrence of the character. *)
Fixpoint rstrip (c : ascii) (s : string) : string :=
  match s with
  | EmptyString => EmptyString
  | String a s' =>
      match rstrip c s' with
      | EmptyString => if Ascii.eqb a c then EmptyString else String a EmptyString
      | t => String a t
      end
  end.

(** SQLite compares TEXT with the BINARY collation: byte by byte, a proper
    prefix being smaller. *)
Definition text_le (a b : string) : bool := String.leb a b.
Definition text_ge (a b : string) : bool := String.leb b a.

Definition is_digit (c : ascii) : bool :=
  let n := Z.of_N (N_of_ascii c) in (48 <=? n) && (n <=? 57).

Definition digit_char (d : Z) : ascii := ascii_of_N (Z.to_N (48 + d)).

Definition digit_value (c : ascii) : Z := Z.of_N (N_of_ascii c) - 48.

(** [zero_pad w n]: the [w] low decimal digits of [n], most significant
    first: Python's ["%0wd"] and SQLite's ["%0wd"] for [0 <= n < 10^w]. *)
Fixpoint zero_pad (w : nat) (n : Z) : string :=
  match w with
  | O => EmptyString
  | S w' => String (digit_char ((n / 10 ^ Z.of_nat w') mod 10)) (zero_pad w' n)
  end.

(** Read exactly [w] decimal digits, as SQLite's [getDigits] does. *)
Fixpoint get_digits (w : nat) (acc : Z) (s : string) : option (Z * string) :=
  match w with
  | O => Some (acc, s)
  | S w' =>
      match s with
      | String c s' =>
          if is_digit c then get_digits w' (acc * 10 + digit_value c) s' else None
      | EmptyString => None
      end
  end.

(** Skip a run of decimal digits; the number skipped is returned too. *)
Fixpoint skip_digits (s : string) : nat * string :=
  match s with
  | String c s' =>
      if is_digit c then let '(n, r) := skip_digits s' in (S n, r) else (O, s)
  | EmptyString => (O, s)
  end.

(** Expect one given character. *)
Definition expect (c : ascii) (s : string) : option string :=
  match s with
  | String a s' => if Ascii.eqb a c then Some s' else None
  | EmptyString => None
  end.

End Text.

(* ================================================================== *)
(** ** The clock: Python [datetime] values in UTC *)
(* ================================================================== *)

Module Clock.

(** A reading of [datetime.now(timezone.utc)]: the fields of a Python
    [datetime] object. *)
Record datetime : Type := mk_datetime {
  year : Z; month : Z; day : Z;
  hour : Z; minute : Z; second : Z; microsecond : Z
}.

Definition is_leap (y : Z) : bool :=
  ((y mod 4 =? 0) && negb (y mod 100 =? 0)) || (y mod 400 =? 0).

Definition days_in_month (y m : Z) : Z :=
  if m =? 2 then (if is_leap y then 29 else 28)
  else if (m =? 4) || (m =? 6) || (m =? 9) || (m =? 11) then 30
  else 31.

(** The values Python's [datetime] can hold (MINYEAR = 1, MAXYEAR = 9999). *)
Definition valid (t : datetime) : Prop :=
  1 <= year t <= 9999 /\ 1 <= month t <= 12 /\
  1 <= day t <= days_in_month (year t) (month t) /\
  0 <= hour t < 24 /\ 0 <= minute t < 60 /\ 0 <= second t < 60 /\
  0 <= microsecond t < 1000000.

Definition validb (t : datetime) : bool :=
  (1 <=? year t) && (year t <=? 9999) && (1 <=? month t) && (month t <=? 12) &&
  (1 <=? day t) && (day t <=? days_in_month (year t) (month t)) &&
  (0 <=? hour t) && (hour t <? 24) && (0 <=? minute t) && (minute t <? 60) &&
  (0 <=? second t) && (second t <? 60) &&
  (0 <=? microsecond t) && (microsecond t <? 1000000).

(** Chronological order of two UTC readings: field by field. *)
Definition fields (t : datetime) : list Z :=
  [year t; month t; day t; hour t; minute t; second t; microsecond t].

Fixpoint lex_le (a b : list Z) : bool :=
  match a, b with
  | [], _ => true
  | _ :: _, [] => false
  | x :: a', y :: b' => (x <? y) || ((x =? y) && lex_le a' b')
  end.

Definition le (a b : datetime) : bool := lex_le (fields a) (fields b).

(** ["YYYY-MM-DD"]. *)
Definition format_date (y m d : Z) : string :=
  (Text.zero_pad 4 y ++ "-" ++ Text.zero_pad 2 m ++ "-" ++ Text.zero_pad 2 d)%string.

(** ["HH:MM:SS"]. *)
Definition format_time (h mi s : Z) : string :=
  (Text.zero_pad 2 h ++ ":" ++ Text.zero_pad 2 mi ++ ":" ++ Text.zero_pad 2 s)%string.

(** [t.isoformat()] for an aware UTC datetime:
    ["YYYY-MM-DDTHH:MM:SS.ffffff+00:00"], the fraction being left out when
    [microsecond] is 0. *)
Definition isoformat (t : datetime) : string :=
  (format_date (year t) (month t) (day t) ++ "T" ++
   format_time (hour t) (minute t) (second t) ++
   (if (microsecond t =? 0)%Z then "" else "." ++ Text.zero_pad 6 (microsecond t)) ++
   "+00:00")%string.

(** Days since 1970-01-01 of a proleptic Gregorian date, and back. *)
Definition days_from_civil (y m d : Z) : Z :=
  let y' := if m <=? 2 then y - 1 else y in
  let era := y' / 400 in
  let yoe := y' - era * 400 in
  let mp := (m + 9) mod 12 in
  let doy := (153 * mp + 2) / 5 + d - 1 in
  let doe := yoe * 365 + yoe / 4 - yoe / 100 + doy in
  era * 146097 + doe - 719468.

Definition civil_from_days (z : Z) : Z * Z * Z :=
  let z' := z + 719468 in
  let era := z' / 146097 in
  let doe := z' - era * 146097 in
  let yoe := (doe - doe / 1460 + doe / 36524 - doe / 146096) / 365 in
  let doy := doe - (365 * yoe + yoe / 4 - yoe / 100) in
  let mp := (5 * doy + 2) / 153 in
  let d := doy - (153 * mp + 2) / 5 + 1 in
  let m := if mp <? 10 then mp + 3 else mp - 9 in
  let y := yoe + era * 400 in
  ((if m <=? 2 then y + 1 else y), m, d).

End Clock.

(* ================================================================== *)
(** ** Python's [json] module, as an interface *)
(* ================================================================== *)

(** [json] is the type of the Python objects that [json.loads] returns;
    [loads] yields [None] where Python raises [json.JSONDecodeError].
    The one law is the one the export relies on: a value that was parsed
    from some text is parsed again from its own serialisation. *)
Class JsonCodec : Type := {
  json : Type;
  loads : string -> option json;
  dumps : json -> string;
  loads_dumps : forall text v, loads text = Some v -> loads (dumps v) = Some v
}.

(* ================================================================== *)
(** ** Exceptions and the state-and-exception monad *)
(* ================================================================== *)

Inductive exn : Type :=
| IntegrityError (msg : string)      (* sqlite3.IntegrityError *)
| OperationalError (msg : string)    (* sqlite3.OperationalError *)
| BadRequest (description : string)  (* werkzeug.exceptions.BadRequest *)
| JSONDecodeError                    (* json.JSONDecodeError *)
| ZeroDivisionError
| NotFound (description : string).   (* abort(404, ...) *)

Inductive result (A : Type) : Type :=
| Ok (a : A)
| Raise (e : exn).
Arguments Ok {A} a.
Arguments Raise {A} e.

(** A computation over a state [S] that may raise: what it changed before
    raising stays changed, as for a Python method that mutates [self.db]. *)
Definition M (S A : Type) : Type := S -> result A * S.

Definition ret {S A} (a : A) : M S A := fun s => (Ok a, s).
Definition raise {S A} (e : exn) : M S A := fun s => (Raise e, s).
Definition bind {S A B} (m : M S A) (k : A -> M S B) : M S B :=
  fun s => match m s with
           | (Ok a, s') => k a s'
           | (Raise e, s') => (Raise e, s')
           end.
(** [try: m except Exception as e: h e]. *)
Definition try_except {S A} (m : M S A) (h : exn -> M S A) : M S A :=
  fun s => match m s with
           | (Ok a, s') => (Ok a, s')
           | (Raise e, s') => h e s'
           end.
Definition get_state {S} : M S S := fun s => (Ok s, s).
Definition modify {S} (f : S -> S) : M S unit := fun s => (Ok tt, f s).

Declare Scope monad_scope.
Delimit Scope monad_scope with monad.
Notation "x <- m ;; k" := (bind m (fun x => k))
  (at level 61, m at next level, right associativity) : monad_scope.
Notation "' pat <- m ;; k" := (bind m (fun x => match x with pat => k end))
  (at level 61, pat pattern, m at next level, right associativity) : monad_scope.
Notation "m ;;; k" := (bind m (fun _ => k))
  (at level 61, right associativity) : monad_scope.
Local Open Scope monad_scope.

(* ================================================================== *)
(** ** The schema of [init_db] *)
(* ================================================================== *)

(** A row of [webhooks]. [success_count] and [failure_count] are
    [INTEGER NOT NULL DEFAULT 0], [last_payload_at] is nullable. *)
Module Webhook.
Record row : Type := mk {
  id : string;
  url : string;
  created_at : string;
  success_count : Z;
  failure_count : Z;
  last_payload_at : option string
}.
End Webhook.

(** A row of [webhook_payloads]. *)
Module WebhookPayload.
Record row : Type := mk {
  id : Z;
  webhook_id : string;
  timestamp : string;
  payload : string
}.
End WebhookPayload.

(** A row of [webhook_failures]. *)
Module WebhookFailure.
Record row : Type := mk {
  id : Z;
  webhook_id : string;
  timestamp : string
}.
End WebhookFailure.

(** The database file: the three tables in rowid order, and the
    [sqlite_sequence] counters of the two AUTOINCREMENT keys. *)
Record Database : Type := mk_database {
  webhooks : list Webhook.row;
  webhook_payloads : list WebhookPayload.row;
  webhook_failures : list WebhookFailure.row;
  seq_payloads : Z;
  seq_failures : Z
}.

Definition empty_database : Database := mk_database [] [] [] 0 0.

(** A [sqlite3.Connection]: the committed file, the connection's own view of
    it (the committed state and the open transaction's changes), and the
    [PRAGMA foreign_keys] switch. *)
Record Connection : Type := mk_connection {
  foreign_keys : bool;
  committed : Database;
  current : Database
}.

(** The three tables, as the names the query builders interpolate. *)
Inductive table : Type := t_webhooks | t_webhook_payloads | t_webhook_failures.

(** The TEXT columns that hold a time. *)
Inductive column : Type := c_created_at | c_timestamp | c_last_payload_at.

(* ================================================================== *)
(** ** SQLite: functions and clauses the queries use *)
(* ================================================================== *)

Module Sqlite.

Definition is_space (c : ascii) : bool :=
  let n := N_of_ascii c in
  (N.eqb n 32) || ((N.leb 9 n) && (N.leb n 13)).

Fixpoint skip_spaces (s : string) : string :=
  match s with
  | String c s' => if is_space c then skip_spaces s' else s
  | EmptyString => s
  end.

Fixpoint skip_spaces_or_T (s : string) : string :=
  match s with
  | String c s' =>
      if is_space c || Ascii.eqb c "T" then skip_spaces_or_T s' else s
  | EmptyString => s
  end.

Definition in_range (lo hi v : Z) : bool := (lo <=? v) && (v <=? hi).

(** ["YYYY-MM-DD"] at the head of the text. *)
Definition parse_ymd (s : string) : option (Z * Z * Z * string) :=
  match Text.get_digits 4 0 s with
  | Some (y, s1) =>
    match Text.expect "-" s1 with
    | Some s2 =>
      match Text.get_digits 2 0 s2 with
      | Some (m, s3) =>
        match Text.expect "-" s3 with
        | Some s4 =>
          match Text.get_digits 2 0 s4 with
          | Some (d, s5) =>
              if in_range 0 9999 y && in_range 1 12 m && in_range 1 31 d
              then Some (y, m, d, s5) else None
          | None => None
          end
        | None => None
        end
      | None => None
      end
    | None => None
    end
  | None => None
  end.

(** A UTC offset at the end of the text: nothing, ["Z"], or ["+HH:MM"] /
    ["-HH:MM"]; the result is the offset in minutes. *)
Definition parse_timezone (s : string) : option Z :=
  match skip_spaces s with
  | EmptyString => Some 0
  | String c s1 =>
      if Ascii.eqb c "Z" || Ascii.eqb c "z" then
        match skip_spaces s1 with EmptyString => Some 0 | _ => None end
      else if Ascii.eqb c "+" || Ascii.eqb c "-" then
        match Text.get_digits 2 0 s1 with
        | Some (h, s2) =>
          match Text.expect ":" s2 with
          | Some s3 =>
            match Text.get_digits 2 0 s3 with
            | Some (m, s4) =>
                if in_range 0 14 h && in_range 0 59 m then
                  match skip_spaces s4 with
                  | EmptyString =>
                      Some ((if Ascii.eqb c "-" then -1 else 1) * (m + h * 60))
                  | _ => None
                  end
                else None
            | None => None
            end
          | None => None
          end
        | None => None
        end
      else None
  end.

(** ["HH:MM"], ["HH:MM:SS"] or ["HH:MM:SS.FFF"], then the UTC offset; the
    result is the offset in minutes. *)
Definition parse_hms (s : string) : option Z :=
  match Text.get_digits 2 0 s with
  | Some (h, s1) =>
    match Text.expect ":" s1 with
    | Some s2 =>
      match Text.get_digits 2 0 s2 with
      | Some (m, s3) =>
          if in_range 0 24 h && in_range 0 59 m then
            match Text.expect ":" s3 with
            | Some s4 =>
              match Text.get_digits 2 0 s4 with
              | Some (sec, s5) =>
                  if in_range 0 59 sec then
                    match s5 with
                    | String "."%char s6 =>
                        match Text.skip_digits s6 with
                        | (O, _) => parse_timezone s5
                        | (_, s7) => parse_timezone s7
                        end
                    | _ => parse_timezone s5
                    end
                  else None
              | None => None
              end
            | None => parse_timezone s3
            end
          else None
      | None => None
      end
    | None => None
    end
  | None => None
  end.

(** [date(X)] of a TEXT value of the form
    ["YYYY-MM-DD"], ["YYYY-MM-DD HH:MM..."] or ["YYYY-MM-DDTHH:MM..."],
    whose UTC offset, when it has one, is zero: the date as written.
    [None] is SQL NULL.  The other forms that SQLite reads (a time alone,
    a Julian day number, ["now"], a signed year, a non-zero offset) are
    never stored by the application and are NULL in this model. *)
Definition date (x : string) : option string :=
  match parse_ymd x with
  | Some (y, m, d, rest) =>
      match skip_spaces_or_T rest with
      | EmptyString => Some (Clock.format_date y m d)
      | rest' =>
          match parse_hms rest' with
          | Some 0 => Some (Clock.format_date y m d)
          | _ => None
          end
      end
  | None => None
  end.

(** A date as SQLite prints it: the year with a sign when it is before
    year 0. *)
Definition format_signed_date (y m d : Z) : string :=
  if y <? 0 then String "-" (Clock.format_date (- y) m d) else Clock.format_date y m d.

(** The milliseconds from noon of -4713-11-24, where Julian day numbers
    start, to a reading shifted by [shift] days; SQLite's clock counts
    whole milliseconds. *)
Definition julian_milliseconds (now : Clock.datetime) (shift : Z) : Z :=
  (Clock.days_from_civil (Clock.year now) (Clock.month now) (Clock.day now) + shift)
    * 86400000
  + ((Clock.hour now * 60 + Clock.minute now) * 60 + Clock.second now) * 1000
  + Clock.microsecond now / 1000
  + 210866760000000.

(** [date('now', '-N days')] with [N] interpolated from a Python int: for
    a negative [N] the modifier reads ["--N days"], which SQLite rejects,
    and the value is NULL; so it is when the shift leads before the first
    Julian day. *)
Definition date_now_minus_days (now : Clock.datetime) (days : Z) : option string :=
  if days <? 0 then None
  else if julian_milliseconds now (- days) <? 0 then None
  else
    let z := Clock.days_from_civil (Clock.year now) (Clock.month now) (Clock.day now) - days in
    let '(y, m, d) := Clock.civil_from_days z in
    Some (format_signed_date y m d).

(** [datetime('now', '-24 hours')]: ["YYYY-MM-DD HH:MM:SS"], one day
    back, the fraction of the second dropped. *)
Definition datetime_now_minus_24_hours (now : Clock.datetime) : string :=
  let z := Clock.days_from_civil (Clock.year now) (Clock.month now) (Clock.day now) - 1 in
  let '(y, m, d) := Clock.civil_from_days z in
  (format_signed_date y m d ++ " " ++
   Clock.format_time (Clock.hour now) (Clock.minute now) (Clock.second now))%string.

(** [ORDER BY]: SQLite's sorter keeps rows with equal keys in scan order;
    a stable insertion sort, [before a b] telling that [a] may stand
    before [b]. *)
Fixpoint insert_sorted {A} (before : A -> A -> bool) (x : A) (l : list A) : list A :=
  match l with
  | [] => [x]
  | y :: l' => if before x y then x :: y :: l' else y :: insert_sorted before x l'
  end.

Definition order_by {A} (before : A -> A -> bool) (l : list A) : list A :=
  fold_right (insert_sorted before) [] l.

Definition asc {A} (key : A -> string) (a b : A) : bool := Text.text_le (key a) (key b).
Definition desc {A} (key : A -> string) (a b : A) : bool := Text.text_ge (key a) (key b).

(** [LIMIT n OFFSET k]: a negative limit is no limit, a negative offset
    is no offset. *)
Definition limit_offset {A} (n k : Z) (l : list A) : list A :=
  let l' := skipn (Z.to_nat k) l in
  if n <? 0 then l' else firstn (Z.to_nat n) l'.

(** [COUNT(id)] over rows whose key is never NULL. *)
Definition count {A} (l : list A) : Z := Z.of_nat (List.length l).

(** [GROUP BY key] with [COUNT(id)], on keys already in order: one pair
    per run of equal keys. *)
Fixpoint group_count (keys : list string) : list (string * Z) :=
  match keys with
  | [] => []
  | k :: keys' =>
      match group_count keys' with
      | (k', n) :: groups => if String.eqb k k' then (k, n + 1) :: groups
                             else (k, 1) :: (k', n) :: groups
      | [] => [(k, 1)]
      end
  end.

End Sqlite.

(* ================================================================== *)
(** ** The SQL statements of [db_manager.py], on a connection *)
(* ================================================================== *)

Module Sql.

Definition set_current (c : Connection) (db : Database) : Connection :=
  mk_connection (foreign_keys c) (committed c) db.

(** [self.db.commit()]. *)
Definition commit : M Connection unit :=
  modify (fun c => mk_connection (foreign_keys c) (current c) (current c)).

(** A SELECT: it reads the connection's own view. *)
Definition select {A} (q : Database -> A) : M Connection A :=
  fun c => (Ok (q (current c)), c).

Definition is_webhook (webhook_id : string) (w : Webhook.row) : bool :=
  String.eqb (Webhook.id w) webhook_id.

Definition payload_of (webhook_id : string) (p : WebhookPayload.row) : bool :=
  String.eqb (WebhookPayload.webhook_id p) webhook_id.

Definition failure_of (webhook_id : string) (f : WebhookFailure.row) : bool :=
  String.eqb (WebhookFailure.webhook_id f) webhook_id.

Definition has_webhook (db : Database) (webhook_id : string) : bool :=
  existsb (is_webhook webhook_id) (webhooks db).

(** [INSERT INTO webhooks (id, url, created_at) VALUES (?, ?, ?)]: [id] is
    the primary key; the two counters take their default 0 and
    [last_payload_at] is NULL. *)
Definition insert_webhook (id url created_at : string) : M Connection unit :=
  fun c =>
    let db := current c in
    if has_webhook db id
    then (Raise (IntegrityError "UNIQUE constraint failed: webhooks.id"), c)
    else (Ok tt,
          set_current c
            (mk_database (webhooks db ++ [Webhook.mk id url created_at 0 0 None])
               (webhook_payloads db) (webhook_failures db)
               (seq_payloads db) (seq_failures db))).

(** [INSERT INTO webhook_payloads (webhook_id, timestamp, payload)
    VALUES (?, ?, ?)]: the key is the next AUTOINCREMENT value, returned
    as [cursor.lastrowid]; with foreign keys on, the parent must exist. *)
Definition insert_payload (webhook_id timestamp payload : string) : M Connection Z :=
  fun c =>
    let db := current c in
    if foreign_keys c && negb (has_webhook db webhook_id)
    then (Raise (IntegrityError "FOREIGN KEY constraint failed"), c)
    else
      let new_id := seq_payloads db + 1 in
      (Ok new_id,
       set_current c
         (mk_database (webhooks db)
            (webhook_payloads db ++ [WebhookPayload.mk new_id webhook_id timestamp payload])
            (webhook_failures db) new_id (seq_failures db))).

(** [INSERT INTO webhook_failures (webhook_id, timestamp) VALUES (?, ?)]. *)
Definition insert_failure (webhook_id timestamp : string) : M Connection Z :=
  fun c =>
    let db := current c in
    if foreign_keys c && negb (has_webhook db webhook_id)
    then (Raise (IntegrityError "FOREIGN KEY constraint failed"), c)
    else
      let new_id := seq_failures db + 1 in
      (Ok new_id,
       set_current c
         (mk_database (webhooks db) (webhook_payloads db)
            (webhook_failures db ++ [WebhookFailure.mk new_id webhook_id timestamp])
            (seq_payloads db) new_id)).

Definition update_webhooks (f : Webhook.row -> Webhook.row) (webhook_id : string)
  : M Connection unit :=
  modify (fun c =>
    let db := current c in
    set_current c
      (mk_database
         (map (fun w => if is_webhook webhook_id w then f w else w) (webhooks db))
         (webhook_payloads db) (webhook_failures db)
         (seq_payloads db) (seq_failures db))).

(** [UPDATE webhooks SET success_count = success_count + 1,
    last_payload_at = ? WHERE id = ?]. *)
Definition update_success (timestamp webhook_id : string) : M Connection unit :=
  update_webhooks
    (fun w => Webhook.mk (Webhook.id w) (Webhook.url w) (Webhook.created_at w)
                (Webhook.success_count w + 1) (Webhook.failure_count w)
                (Some timestamp))
    webhook_id.

(** [UPDATE webhooks SET failure_count = failure_count + 1 WHERE id = ?]. *)
Definition update_failure (webhook_id : string) : M Connection unit :=
  update_webhooks
    (fun w => Webhook.mk (Webhook.id w) (Webhook.url w) (Webhook.created_at w)
                (Webhook.success_count w) (Webhook.failure_count w + 1)
                (Webhook.last_payload_at w))
    webhook_id.

(** [DELETE FROM webhooks WHERE id = ?]: with foreign keys on, the rows of
    the two child tables that reference the deleted row go with it
    ([ON DELETE CASCADE]); with foreign keys off they stay. *)
Definition delete_from_webhooks (webhook_id : string) : M Connection unit :=
  modify (fun c =>
    let db := current c in
    let keep {A} (owned : A -> bool) (rows : list A) : list A :=
      if foreign_keys c && has_webhook db webhook_id
      then filter (fun r => negb (owned r)) rows else rows in
    set_current c
      (mk_database
         (filter (fun w => negb (is_webhook webhook_id w)) (webhooks db))
         (keep (payload_of webhook_id) (webhook_payloads db))
         (keep (failure_of webhook_id) (webhook_failures db))
         (seq_payloads db) (seq_failures db))).

(** The values of a time column of a table, in scan order; [None] when the
    table has no column of that name (SQLite: "no such column"). *)
Definition column_values (db : Database) (t : table) (c : column)
  : option (list (option string)) :=
  match t, c with
  | t_webhooks, c_created_at =>
      Some (map (fun w => Some (Webhook.created_at w)) (webhooks db))
  | t_webhooks, c_last_payload_at =>
      Some (map Webhook.last_payload_at (webhooks db))
  | t_webhook_payloads, c_timestamp =>
      Some (map (fun p => Some (WebhookPayload.timestamp p)) (webhook_payloads db))
  | t_webhook_failures, c_timestamp =>
      Some (map (fun f => Some (WebhookFailure.timestamp f)) (webhook_failures db))
  | _, _ => None
  end.

Definition column_name (c : column) : string :=
  match c with
  | c_created_at => "created_at"
  | c_timestamp => "timestamp"
  | c_last_payload_at => "last_payload_at"
  end.

Definition select_column (t : table) (c : column) : M Connection (list (option string)) :=
  fun conn =>
    match column_values (current conn) t c with
    | Some vs => (Ok vs, conn)
    | None => (Raise (OperationalError ("no such column: " ++ column_name c)), conn)
    end.

End Sql.

(* ================================================================== *)
(** ** [db_manager.py]: class [DbManager] *)
(* ================================================================== *)

Module DbManager.

Import Sql.

(** What the two paginated listings return. *)
Record page_of (A : Type) : Type := mk_page {
  rows : list A;
  total_pages : Z;
  current_page : Z
}.
Arguments mk_page {A}.
Arguments rows {A}.
Arguments total_pages {A}.
Arguments current_page {A}.

(** [math.ceil(a / b)] on two ints, taken exactly. *)
Definition ceil_div (a b : Z) : M Connection Z :=
  if b =? 0 then raise ZeroDivisionError else ret (- ((- a) / b)).

Definition get_total_webhook_count : M Connection Z :=
  select (fun db => Sqlite.count (webhooks db)).

(** [SELECT COUNT(id) FROM {table}
     WHERE timestamp >= datetime('now', '-24 hours')]. *)
Definition get_stats_today (now : Clock.datetime) (t : table) : M Connection Z :=
  timestamps <- select_column t c_timestamp ;;
  let cutoff := Sqlite.datetime_now_minus_24_hours now in
  ret (Sqlite.count
         (filter (fun ts => match ts with
                            | Some s => Text.text_ge s cutoff
                            | None => false
                            end) timestamps)).

(** [SELECT date({date_column}) as {date_alias}, COUNT(id) as count
     FROM {table} WHERE date({date_column}) >= date('now', '-{days} days')
     GROUP BY {date_alias} ORDER BY {date_alias} ASC]; each row dict is
    a pair (date, count).  [date_alias] only names the first key of the
    dict (["event_date"] or ["creation_date"], no column of any table). *)
Definition get_daily_counts (now : Clock.datetime) (t : table) (date_column : column)
    (days : Z) : M Connection (list (string * Z)) :=
  values <- select_column t date_column ;;
  let cutoff := Sqlite.date_now_minus_days now days in
  let in_window (v : option string) : list string :=
    match v with
    | Some s =>
        match Sqlite.date s, cutoff with
        | Some d, Some c => if Text.text_ge d c then [d] else []
        | _, _ => []
        end
    | None => []
    end in
  ret (Sqlite.group_count
         (Sqlite.order_by (Sqlite.asc (fun d => d)) (flat_map in_window values))).

Definition get_all_webhooks_paginated (page per_page : Z)
  : M Connection (page_of Webhook.row) :=
  total_webhooks <- select (fun db => Sqlite.count (webhooks db)) ;;
  total_pages <- ceil_div total_webhooks per_page ;;
  let offset := (page - 1) * per_page in
  webhooks_list <- select (fun db =>
    Sqlite.limit_offset per_page offset
      (Sqlite.order_by (Sqlite.desc Webhook.created_at) (webhooks db))) ;;
  ret (mk_page webhooks_list total_pages page).

Definition create_webhook (uuid4 : string) (now : Clock.datetime) (host_url : string)
  : M Connection (string * string) :=
  let webhook_id := uuid4 in
  let full_url := (Text.rstrip "/" host_url ++ "/webhook/" ++ webhook_id)%string in
  let created_at := Clock.isoformat now in
  insert_webhook webhook_id full_url created_at ;;;
  commit ;;;
  ret (webhook_id, full_url).

(** [SELECT * FROM webhooks WHERE id = ?], [fetchone()]. *)
Definition get_webhook (webhook_id : string) : M Connection (option Webhook.row) :=
  select (fun db => find (is_webhook webhook_id) (webhooks db)).

Definition record_successful_payload `{JsonCodec} (now : Clock.datetime)
    (webhook_id : string) (data : json) : M Connection (Z * string) :=
  let timestamp := Clock.isoformat now in
  new_payload_id <- insert_payload webhook_id timestamp (dumps data) ;;
  update_success timestamp webhook_id ;;;
  commit ;;;
  ret (new_payload_id, timestamp).

Definition record_failed_payload (now : Clock.datetime) (webhook_id : string)
  : M Connection unit :=
  let timestamp := Clock.isoformat now in
  update_failure webhook_id ;;;
  insert_failure webhook_id timestamp ;;;
  commit.

Definition payloads_of (webhook_id : string) (db : Database) : list WebhookPayload.row :=
  filter (payload_of webhook_id) (webhook_payloads db).

Definition failures_of (webhook_id : string) (db : Database) : list WebhookFailure.row :=
  filter (failure_of webhook_id) (webhook_failures db).

(** [SELECT id, timestamp, payload ... WHERE webhook_id = ?
     ORDER BY timestamp DESC LIMIT ? OFFSET ?]. *)
Definition get_payloads_for_webhook_paginated (webhook_id : string) (page per_page : Z)
  : M Connection (page_of (Z * string * string)) :=
  total_payloads <- select (fun db => Sqlite.count (payloads_of webhook_id db)) ;;
  total_pages <- ceil_div total_payloads per_page ;;
  let offset := (page - 1) * per_page in
  payloads_data <- select (fun db =>
    map (fun p => (WebhookPayload.id p, WebhookPayload.timestamp p, WebhookPayload.payload p))
      (Sqlite.limit_offset per_page offset
         (Sqlite.order_by (Sqlite.desc WebhookPayload.timestamp)
            (payloads_of webhook_id db)))) ;;
  ret (mk_page payloads_data total_pages page).

(** [SELECT timestamp, payload ... WHERE webhook_id = ?
     ORDER BY timestamp DESC]. *)
Definition get_all_payloads_for_webhook (webhook_id : string)
  : M Connection (list (string * string)) :=
  select (fun db =>
    map (fun p => (WebhookPayload.timestamp p, WebhookPayload.payload p))
      (Sqlite.order_by (Sqlite.desc WebhookPayload.timestamp)
         (payloads_of webhook_id db))).

Definition delete_webhook (webhook_id : string) : M Connection unit :=
  delete_from_webhooks webhook_id ;;;
  commit.

(** [SELECT payload FROM webhook_payloads WHERE id = ?], [fetchone()]. *)
Definition get_single_payload (payload_id : Z) : M Connection (option string) :=
  select (fun db =>
    option_map WebhookPayload.payload
      (find (fun p => WebhookPayload.id p =? payload_id) (webhook_payloads db))).

End DbManager.

(* ================================================================== *)
(** ** [app.py]: the request context and the routes *)
(* ================================================================== *)

Module App.

(** The dict that [webhook] emits to the room of the endpoint. *)
Record payload_data : Type := mk_payload_data {
  pd_id : Z;
  pd_timestamp : string;
  pd_payload : string
}.

(** One [socketio.emit(event, data, room=...)]. *)
Record emission : Type := mk_emission {
  event : string;
  data : payload_data;
  room : string
}.

(** What a request works on: [g.db], and what it has emitted so far. *)
Record Ctx : Type := mk_ctx {
  g_db : Connection;
  emitted : list emission
}.

(** What a route returns. *)
Inductive content `{JsonCodec} : Type :=
| Received (timestamp : string)       (* {"status": "received", "timestamp": ...} *)
| Error (message : string)            (* {"error": ...} *)
| Redirect (endpoint : string) (flashed : option string)
| Download (filename : string) (parsed_data : list (string * json))
| WebhookPage (webhook : Webhook.row) (page : DbManager.page_of (Z * string * string))
| Aborted (description : string).
Arguments Received {_} timestamp.
Arguments Error {_} message.
Arguments Redirect {_} endpoint flashed.
Arguments Download {_} filename parsed_data.
Arguments WebhookPage {_} webhook page.
Arguments Aborted {_} description.

Record reply `{JsonCodec} : Type := mk_reply {
  status : Z;
  body : content
}.
Arguments mk_reply {_} status body.
Arguments status {_} r.
Arguments body {_} r.

Definition PAYLOADS_PER_PAGE : Z := 20.

(** [get_db()]: a new connection to the database file, foreign keys on. *)
Definition get_db (file : Database) : Connection := mk_connection true file file.

(** [close_db()]: closing drops what was not committed. *)
Definition close_db (c : Connection) : Database := committed c.

(** [init_db()]: the three tables are created where the file has none. *)
Definition init_db (file : option Database) : Database :=
  match file with
  | Some db => db
  | None => empty_database
  end.

(** A [DbManager(get_db())] call inside a request. *)
Definition db_manager {A} (m : M Connection A) : M Ctx A :=
  fun ctx => let '(r, c) := m (g_db ctx) in (r, mk_ctx c (emitted ctx)).

(** [socketio.emit]: fire and forget. *)
Definition socketio_emit (event : string) (data : payload_data) (room : string)
  : M Ctx unit :=
  modify (fun ctx => mk_ctx (g_db ctx) (emitted ctx ++ [mk_emission event data room])).

(** [str(e)]. *)
Definition str (e : exn) : string :=
  match e with
  | IntegrityError msg => msg
  | OperationalError msg => msg
  | BadRequest description => "400 Bad Request: " ++ description
  | JSONDecodeError => "Expecting value"
  | ZeroDivisionError => "division by zero"
  | NotFound description => "404 Not Found: " ++ description
  end.

(** [request.get_json(force=True)]: the body is parsed whatever its
    content type; a body that is not JSON raises [BadRequest]. *)
Definition get_json `{JsonCodec} (request_body : string) : M Ctx json :=
  match loads request_body with
  | Some data => ret data
  | None => raise (BadRequest
      "The browser (or proxy) sent a request that this server could not understand.")
  end.

Definition not_found_description (webhook_id : string) : string :=
  "Webhook ID " ++ webhook_id ++ " not found.".

Definition get_webhook_or_404 (webhook_id : string) : M Ctx Webhook.row :=
  webhook <- db_manager (DbManager.get_webhook webhook_id) ;;
  match webhook with
  | None => raise (NotFound (not_found_description webhook_id))
  | Some w => ret w
  end.

(** [POST /generate]; [uuid4] and [now] are the draws of [uuid.uuid4()]
    and of the clock inside [create_webhook]. *)
Definition generate_webhook `{JsonCodec} (uuid4 : string) (now : Clock.datetime)
    (host_url : string) : M Ctx reply :=
  '(webhook_id, full_url) <- db_manager (DbManager.create_webhook uuid4 now host_url) ;;
  ret (mk_reply 302 (Redirect "index" (Some (webhook_id ++ "|" ++ full_url)%string))).

(** [POST /webhook/<webhook_id>]; [now] is the clock as read inside the
    [try] block, [later] as read inside the [except] block. *)
Definition webhook `{JsonCodec} (now later : Clock.datetime)
    (webhook_id request_body : string) : M Ctx reply :=
  found <- db_manager (DbManager.get_webhook webhook_id) ;;
  match found with
  | None => raise (NotFound (not_found_description webhook_id))
  | Some _ =>
      try_except
        (data <- get_json request_body ;;
         '(new_payload_id, timestamp) <-
            db_manager (DbManager.record_successful_payload now webhook_id data) ;;
         let payload_data := mk_payload_data new_payload_id timestamp (dumps data) in
         socketio_emit "new_payload" payload_data webhook_id ;;;
         ret (mk_reply 200 (Received timestamp)))
        (fun e =>
           db_manager (DbManager.record_failed_payload later webhook_id) ;;;
           ret (mk_reply 400 (Error ("Failed to process request: " ++ str e))))
  end.

(** [GET /data/<webhook_id>?page=N]. *)
Definition show_webhook_data `{JsonCodec} (webhook_id : string) (page : Z)
  : M Ctx reply :=
  webhook <- get_webhook_or_404 webhook_id ;;
  let per_page := PAYLOADS_PER_PAGE in
  pagination_data <-
    db_manager (DbManager.get_payloads_for_webhook_paginated webhook_id page per_page) ;;
  ret (mk_reply 200 (WebhookPage webhook pagination_data)).

(** [{"timestamp": row['timestamp'], "payload": json.loads(row['payload'])}
    for row in payloads]. *)
Fixpoint parse_rows `{JsonCodec} (payloads : list (string * string))
  : M Ctx (list (string * json)) :=
  match payloads with
  | [] => ret []
  | (timestamp, payload) :: payloads' =>
      match loads payload with
      | Some v =>
          parsed <- parse_rows payloads' ;;
          ret ((timestamp, v) :: parsed)
      | None => raise JSONDecodeError
      end
  end.

(** [GET /download/<webhook_id>]; the body is
    [json.dumps(parsed_data, indent=2)], kept here as [parsed_data]. *)
Definition download_webhook_data `{JsonCodec} (webhook_id : string) : M Ctx reply :=
  get_webhook_or_404 webhook_id ;;;
  payloads <- db_manager (DbManager.get_all_payloads_for_webhook webhook_id) ;;
  parsed_data <- parse_rows payloads ;;
  ret (mk_reply 200 (Download ("webhook_" ++ webhook_id ++ ".json") parsed_data)).

(** [POST /delete/<webhook_id>]. *)
Definition delete_webhook `{JsonCodec} (webhook_id : string) : M Ctx reply :=
  get_webhook_or_404 webhook_id ;;;
  db_manager (DbManager.delete_webhook webhook_id) ;;;
  ret (mk_reply 302 (Redirect "index" None)).

(** One request from start to teardown: the route runs on a fresh
    connection; [abort(404)] becomes a 404 reply and any other exception
    that leaves the route a 500 reply; the connection is closed. *)
Definition serve `{JsonCodec} (route : M Ctx reply) (file : Database)
  : reply * list emission * Database :=
  match route (mk_ctx (get_db file) []) with
  | (Ok r, ctx) => (r, emitted ctx, close_db (g_db ctx))
  | (Raise (NotFound description), ctx) =>
      (mk_reply 404 (Aborted description), emitted ctx, close_db (g_db ctx))
  | (Raise e, ctx) =>
      (mk_reply 500 (Aborted (str e)), emitted ctx, close_db (g_db ctx))
  end.

End App.

(* ================================================================== *)
(** ** A JSON codec *)
(* ================================================================== *)

(** The fragment of JSON whose numbers are integers and whose strings hold
    code points below 256, written the way [json.dumps] writes and read the
    way [json.loads] reads.  A text that needs more (a fraction or an
    exponent, [NaN], a code point from 256 on) is outside the fragment, and
    is not parsed. *)
Module Json.

#[warnings="-register-all"]
Inductive value : Type :=
| Null
| Bool (b : bool)
| Int (n : Z)
| Str (s : string)
| Array (items : list value)
| Object (members : list (string * value)).

Definition code (c : ascii) : Z := Z.of_N (N_of_ascii c).
Definition chr (n : Z) : ascii := ascii_of_N (Z.to_N n).

Definition quote : ascii := chr 34.
Definition backslash : ascii := chr 92.

(** *** Writing *)

Definition hex_char (d : Z) : ascii :=
  if d <? 10 then chr (48 + d) else chr (87 + d).

(** One character inside a string literal, with [ensure_ascii]. *)
Definition escape (c : ascii) : string :=
  let n := code c in
  if n =? 34 then String backslash (String quote "")
  else if n =? 92 then String backslash (String backslash "")
  else if n =? 10 then String backslash "n"
  else if n =? 13 then String backslash "r"
  else if n =? 9 then String backslash "t"
  else if n =? 8 then String backslash "b"
  else if n =? 12 then String backslash "f"
  else if (n <? 32) || (126 <? n)
       then String backslash
              (String "u" (String "0" (String "0"
                 (String (hex_char (n / 16)) (String (hex_char (n mod 16)) "")))))
  else String c "".

Fixpoint escape_all (s : string) : string :=
  match s with
  | EmptyString => EmptyString
  | String c s' => (escape c ++ escape_all s')%string
  end.

Definition dumps_string (s : string) : string :=
  String quote (escape_all s ++ String quote "").

(** The decimal digits of [n], in front of [acc]. *)
Fixpoint pos_digits (fuel : nat) (n : Z) (acc : string) : string :=
  match fuel with
  | O => acc
  | S fuel' =>
      if n <? 10 then String (Text.digit_char n) acc
      else pos_digits fuel' (n / 10) (String (Text.digit_char (n mod 10)) acc)
  end.

Definition decimal (n : Z) : string :=
  pos_digits (S (Z.to_nat (Z.log2 n))) n "".

Definition dumps_int (n : Z) : string :=
  if n <? 0 then String "-" (decimal (- n)) else decimal n.

Fixpoint dumps_value (v : value) : string :=
  match v with
  | Null => "null"
  | Bool true => "true"
  | Bool false => "false"
  | Int n => dumps_int n
  | Str s => dumps_string s
  | Array items =>
      let fix join (l : list value) : string :=
        match l with
        | [] => "]"
        | [x] => (dumps_value x ++ "]")%string
        | x :: l' => (dumps_value x ++ ", " ++ join l')%string
        end in
      String "[" (join items)
  | Object members =>
      let fix join (l : list (string * value)) : string :=
        match l with
        | [] => "}"
        | [(k, x)] => (dumps_string k ++ ": " ++ dumps_value x ++ "}")%string
        | (k, x) :: l' =>
            (dumps_string k ++ ": " ++ dumps_value x ++ ", " ++ join l')%string
        end in
      String "{" (join members)
  end.

(** *** Reading *)

Definition is_ws (c : ascii) : bool :=
  let n := code c in (n =? 32) || (n =? 9) || (n =? 10) || (n =? 13).

Fixpoint skip_ws (s : string) : string :=
  match s with
  | String c s' => if is_ws c then skip_ws s' else s
  | EmptyString => s
  end.

Definition hex_value (c : ascii) : option Z :=
  let n := code c in
  if (48 <=? n) && (n <=? 57) then Some (n - 48)
  else if (97 <=? n) && (n <=? 102) then Some (n - 87)
  else if (65 <=? n) && (n <=? 70) then Some (n - 55)
  else None.

(** Four hexadecimal digits. *)
Definition parse_hex4 (s : string) : option (Z * string) :=
  match s with
  | String a (String b (String c (String d rest))) =>
      match hex_value a, hex_value b, hex_value c, hex_value d with
      | Some x, Some y, Some z, Some w =>
          Some (((x * 16 + y) * 16 + z) * 16 + w, rest)
      | _, _, _, _ => None
      end
  | _ => None
  end.

(** What follows a backslash. *)
Definition parse_escape (s : string) : option (ascii * string) :=
  match s with
  | String e rest =>
      let n := code e in
      if (n =? 34) || (n =? 92) || (n =? 47) then Some (e, rest)
      else if n =? 98 then Some (chr 8, rest)
      else if n =? 102 then Some (chr 12, rest)
      else if n =? 110 then Some (chr 10, rest)
      else if n =? 114 then Some (chr 13, rest)
      else if n =? 116 then Some (chr 9, rest)
      else if n =? 117 then
        match parse_hex4 rest with
        | Some (v, rest') => if v <? 256 then Some (chr v, rest') else None
        | None => None
        end
      else None
  | EmptyString => None
  end.

(** One step inside a string literal: [Some (None, rest)] at the closing
    quote, [Some (Some c, rest)] for a character. *)
Definition parse_char (s : string) : option (option ascii * string) :=
  match s with
  | String c rest =>
      let n := code c in
      if n =? 34 then Some (None, rest)
      else if n =? 92 then
        match parse_escape rest with
        | Some (c', rest') => Some (Some c', rest')
        | None => None
        end
      else if (n <? 32) || (127 <? n) then None
      else Some (Some c, rest)
  | EmptyString => None
  end.

(** The rest of a string literal, after its opening quote. *)
Fixpoint parse_chars (fuel : nat) (s : string) : option (string * string) :=
  match fuel with
  | O => None
  | S fuel' =>
      match parse_char s with
      | Some (None, rest) => Some (EmptyString, rest)
      | Some (Some c, rest) =>
          match parse_chars fuel' rest with
          | Some (cs, rest') => Some (String c cs, rest')
          | None => None
          end
      | None => None
      end
  end.

Definition parse_string (s : string) : option (string * string) :=
  parse_chars (S (String.length s)) s.

Fixpoint read_digits (acc : Z) (s : string) : Z * string :=
  match s with
  | String c s' =>
      if Text.is_digit c then read_digits (acc * 10 + Text.digit_value c) s'
      else (acc, s)
  | EmptyString => (acc, s)
  end.

(** ["0"], or a digit from 1 to 9 and the digits after it. *)
Definition parse_natural (s : string) : option (Z * string) :=
  match s with
  | String c rest =>
      if Text.is_digit c then
        if code c =? 48 then Some (0, rest) else Some (read_digits 0 s)
      else None
  | EmptyString => None
  end.

Definition parse_number (s : string) : option (Z * string) :=
  match s with
  | String c rest =>
      if code c =? 45 then
        match parse_natural rest with
        | Some (n, rest') => Some (- n, rest')
        | None => None
        end
      else parse_natural s
  | EmptyString => None
  end.

(** A literal word. *)
Fixpoint parse_word (word s : string) : option string :=
  match word with
  | EmptyString => Some s
  | String w word' =>
      match s with
      | String c s' => if Ascii.eqb c w then parse_word word' s' else None
      | EmptyString => None
      end
  end.

(** [m[k] = v] on a dict kept in insertion order. *)
Fixpoint dict_set (k : string) (v : value) (m : list (string * value))
  : list (string * value) :=
  match m with
  | [] => [(k, v)]
  | (k', v') :: m' =>
      if String.eqb k' k then (k, v) :: m' else (k', v') :: dict_set k v m'
  end.

(** [dict(pairs)]. *)
Definition dict (pairs : list (string * value)) : list (string * value) :=
  fold_left (fun m kv => dict_set (fst kv) (snd kv) m) pairs [].

Fixpoint parse_value (fuel : nat) (s : string) : option (value * string) :=
  match fuel with
  | O => None
  | S fuel' =>
      match skip_ws s with
      | String c rest =>
          let n := code c in
          if n =? 91 then
            match skip_ws rest with
            | String c' rest' =>
                if code c' =? 93 then Some (Array [], rest')
                else
                  match parse_elements fuel' rest with
                  | Some (items, rest'') => Some (Array items, rest'')
                  | None => None
                  end
            | EmptyString => None
            end
          else if n =? 123 then
            match skip_ws rest with
            | String c' rest' =>
                if code c' =? 125 then Some (Object [], rest')
                else
                  match parse_members fuel' rest with
                  | Some (pairs, rest'') => Some (Object (dict pairs), rest'')
                  | None => None
                  end
            | EmptyString => None
            end
          else if n =? 34 then
            match parse_string rest with
            | Some (str, rest') => Some (Str str, rest')
            | None => None
            end
          else if n =? 110 then
            match parse_word "ull" rest with
            | Some rest' => Some (Null, rest')
            | None => None
            end
          else if n =? 116 then
            match parse_word "rue" rest with
            | Some rest' => Some (Bool true, rest')
            | None => None
            end
          else if n =? 102 then
            match parse_word "alse" rest with
            | Some rest' => Some (Bool false, rest')
            | None => None
            end
          else
            match parse_number (String c rest) with
            | Some (i, rest') => Some (Int i, rest')
            | None => None
            end
      | EmptyString => None
      end
  end
with parse_elements (fuel : nat) (s : string) : option (list value * string) :=
  match fuel with
  | O => None
  | S fuel' =>
      match parse_value fuel' s with
      | Some (v, rest) =>
          match skip_ws rest with
          | String c rest' =>
              if code c =? 44 then
                match parse_elements fuel' rest' with
                | Some (vs, rest'') => Some (v :: vs, rest'')
                | None => None
                end
              else if code c =? 93 then Some ([v], rest')
              else None
          | EmptyString => None
          end
      | None => None
      end
  end
with parse_members (fuel : nat) (s : string)
  : option (list (string * value) * string) :=
  match fuel with
  | O => None
  | S fuel' =>
      match skip_ws s with
      | String q rest =>
          if code q =? 34 then
            match parse_string rest with
            | Some (k, rest1) =>
                match skip_ws rest1 with
                | String c rest2 =>
                    if code c =? 58 then
                      match parse_value fuel' rest2 with
                      | Some (v, rest3) =>
                          match skip_ws rest3 with
                          | String c' rest4 =>
                              if code c' =? 44 then
                                match parse_members fuel' rest4 with
                                | Some (m, rest5) => Some ((k, v) :: m, rest5)
                                | None => None
                                end
                              else if code c' =? 125 then Some ([(k, v)], rest4)
                              else None
                          | EmptyString => None
                          end
                      | None => None
                      end
                    else None
                | EmptyString => None
                end
            | None => None
            end
          else None
      | EmptyString => None
      end
  end.

(** [json.loads]: one value, and nothing but white space after it. *)
Definition loads (text : string) : option value :=
  match parse_value (2 * String.length text + 2) text with
  | Some (v, rest) =>
      match skip_ws rest with
      | EmptyString => Some v
      | _ => None
      end
  | None => None
  end.

Definition dumps (v : value) : string := dumps_value v.

(** *** What the round trip is stated with *)

(** The elements of an array, written after the opening bracket. *)
Fixpoint dumps_elements (l : list value) : string :=
  match l with
  | [] => "]"
  | [x] => dumps_value x ++ "]"
  | x :: l' => dumps_value x ++ ", " ++ dumps_elements l'
  end.

(** The members of an object, written after the opening brace. *)
Fixpoint dumps_members (l : list (string * value)) : string :=
  match l with
  | [] => "}"
  | [(k, x)] => dumps_string k ++ ": " ++ dumps_value x ++ "}"
  | (k, x) :: l' => dumps_string k ++ ": " ++ dumps_value x ++ ", " ++ dumps_members l'
  end.

(** The number of values in a value. *)
Fixpoint size (v : value) : nat :=
  match v with
  | Array items => S (fold_right (fun x n => S (size x + n)) O items)
  | Object members => S (fold_right (fun kx n => S (size (snd kx) + n)) O members)
  | _ => 1
  end.

Definition size_elements (l : list value) : nat :=
  fold_right (fun x n => S (size x + n)) O l.

Definition size_members (l : list (string * value)) : nat :=
  fold_right (fun kx n => S (size (snd kx) + n)) O l.

(** No key occurs twice in an object, at any depth: what [dict] builds. *)
Fixpoint well_formed (v : value) : Prop :=
  match v with
  | Array items => fold_right (fun x p => well_formed x /\ p) True items
  | Object members =>
      NoDup (map fst members) /\
      fold_right (fun kx p => well_formed (snd kx) /\ p) True members
  | _ => True
  end.

(** The first character of a written value is not white space and closes
    nothing. *)
Definition opens (c : ascii) : Prop :=
  is_ws c = false /\ code c <> 93 /\ code c <> 125.

(** What may follow a number: not a digit. *)
Definition stops (rest : string) : Prop :=
  match rest with
  | String c _ => Text.is_digit c = false
  | EmptyString => True
  end.

(** Reading a written value needs no more fuel than the value has parts. *)
Definition reads_back (v : value) : Prop :=
  well_formed v ->
  forall (fuel : nat) (s rest : string),
    (size v <= fuel)%nat -> stops rest ->
    skip_ws s = (dumps_value v ++ rest)%string ->
    parse_value fuel s = Some (v, rest).

End Json.

(* ================================================================== *)
(** ** The JSON fragment, written with [indent=2] *)
(* ================================================================== *)

(** [json.dumps(v, indent=2)]: an empty array or object is written closed;
    any other one has each item on a line of its own, two spaces deeper
    than the line that opens it, with [","] between the items and [": "]
    after a key. *)
Module Pretty.

Import Json.

Fixpoint spaces (n : nat) : string :=
  match n with
  | O => EmptyString
  | S n' => String " " (spaces n')
  end.

(** ['\n' + ' ' * (2 * level)]. *)
Definition newline_indent (level : nat) : string :=
  String (chr 10) (spaces (2 * level)).

Fixpoint indent_value (level : nat) (v : value) : string :=
  match v with
  | Null => "null"
  | Bool true => "true"
  | Bool false => "false"
  | Int n => dumps_int n
  | Str s => dumps_string s
  | Array items =>
      let fix join (l : list value) : string :=
        match l with
        | [] => (newline_indent level ++ "]")%string
        | x :: l' =>
            ("," ++ newline_indent (S level) ++ indent_value (S level) x ++ join l')%string
        end in
      match items with
      | [] => "[]"
      | x :: l =>
          ("[" ++ newline_indent (S level) ++ indent_value (S level) x ++ join l)%string
      end
  | Object members =>
      let fix join (l : list (string * value)) : string :=
        match l with
        | [] => (newline_indent level ++ "}")%string
        | (k, x) :: l' =>
            ("," ++ newline_indent (S level) ++ dumps_string k ++ ": " ++
             indent_value (S level) x ++ join l')%string
        end in
      match members with
      | [] => "{}"
      | (k, x) :: l =>
          ("{" ++ newline_indent (S level) ++ dumps_string k ++ ": " ++
           indent_value (S level) x ++ join l)%string
      end
  end.

Definition dumps_indent (v : value) : string := indent_value 0 v.

(** *** What the round trip is stated with *)

(** What follows the first element of an array. *)
Definition more_elements (level : nat) : list value -> string :=
  fix join (l : list value) : string :=
    match l with
    | [] => (newline_indent level ++ "]")%string
    | x :: l' =>
        ("," ++ newline_indent (S level) ++ indent_value (S level) x ++ join l')%string
    end.

(** What follows the first member of an object. *)
Definition more_members (level : nat) : list (string * value) -> string :=
  fix join (l : list (string * value)) : string :=
    match l with
    | [] => (newline_indent level ++ "}")%string
    | (k, x) :: l' =>
        ("," ++ newline_indent (S level) ++ dumps_string k ++ ": " ++
         indent_value (S level) x ++ join l')%string
    end.

(** Reading an indented value needs no more fuel than the value has
    parts, whatever the depth it was written at. *)
Definition indent_reads_back (v : value) : Prop :=
  well_formed v ->
  forall (level fuel : nat) (s rest : string),
    (size v <= fuel)%nat -> stops rest ->
    skip_ws s = (indent_value level v ++ rest)%string ->
    parse_value fuel s = Some (v, rest).

End Pretty.

(* ================================================================== *)
(** ** [json.dumps(..., indent=2)], as an interface *)
(* ================================================================== *)

(** The two downloads and the template filter write with [indent=2];
    the law is the one of [JsonCodec], for the indented text. *)
Class JsonPretty `{JsonCodec} : Type := {
  dumps_indent : json -> string;
  loads_dumps_indent :
    forall text v, loads text = Some v -> loads (dumps_indent v) = Some v
}.

(* ================================================================== *)
(** ** [app.py]: the pages that only read, and the template filter *)
(* ================================================================== *)

Module Views.

Import Sql.

(** One row of the dashboard's daily table. *)
Record daily_stat : Type := mk_daily_stat {
  date : string;
  created : Z;
  succeeded : Z;
  failed : Z
}.

(** What [index] hands to its template. *)
Record dashboard : Type := mk_dashboard {
  total_webhooks : Z;
  success_today : Z;
  failures_today : Z;
  daily_stats : list daily_stat;
  chart_creation_data : list (string * Z);
  chart_success_data : list (string * Z);
  chart_failure_data : list (string * Z)
}.

(** A [Response] sent as a file. *)
Record attachment : Type := mk_attachment {
  filename : string;
  mimetype : string;
  text : string
}.

(** [sorted(l)] on strings: ascending by code point. *)
Definition sorted (l : list string) : list string :=
  Sqlite.order_by Text.text_le l.

(** [list(set(l))]: each item once; [sorted] then fixes the order. *)
Definition set_of (l : list string) : list string := nodup string_dec l.

(** [next((item['count'] for item in chart if item[key] == date), 0)]. *)
Definition next_count (chart : list (string * Z)) (date : string) : Z :=
  match find (fun item => String.eqb (fst item) date) chart with
  | Some item => snd item
  | None => 0
  end.

(** The daily table of [index]: one row per date of the three charts. *)
Definition daily_table (chart_creation_data chart_success_data chart_failure_data
    : list (string * Z)) : list daily_stat :=
  let all_dates :=
    sorted (set_of (map fst chart_creation_data ++ map fst chart_success_data ++
                    map fst chart_failure_data)) in
  map (fun date =>
         mk_daily_stat date
           (next_count chart_creation_data date)
           (next_count chart_success_data date)
           (next_count chart_failure_data date))
      all_dates.

(** [GET /]; the five readings are the clock as each of the five
    statements that ask for ['now'] sees it. *)
Definition index (now1 now2 now3 now4 now5 : Clock.datetime) : M App.Ctx dashboard :=
  total_webhooks <- App.db_manager DbManager.get_total_webhook_count ;;
  success_today <- App.db_manager (DbManager.get_stats_today now1 t_webhook_payloads) ;;
  failures_today <- App.db_manager (DbManager.get_stats_today now2 t_webhook_failures) ;;
  chart_creation_data <-
    App.db_manager (DbManager.get_daily_counts now3 t_webhooks c_created_at 7) ;;
  chart_success_data <-
    App.db_manager (DbManager.get_daily_counts now4 t_webhook_payloads c_timestamp 7) ;;
  chart_failure_data <-
    App.db_manager (DbManager.get_daily_counts now5 t_webhook_failures c_timestamp 7) ;;
  let daily_stats :=
    daily_table chart_creation_data chart_success_data chart_failure_data in
  ret (mk_dashboard total_webhooks success_today failures_today daily_stats
         chart_creation_data chart_success_data chart_failure_data).

(** [GET /webhooks?page=N]; [page] is what
    [request.args.get('page', 1, type=int)] returned. *)
Definition list_all_webhooks (page : Z) : M App.Ctx (DbManager.page_of Webhook.row) :=
  let per_page := App.PAYLOADS_PER_PAGE in
  App.db_manager (DbManager.get_all_webhooks_paginated page per_page).

(** [str(n)] of an int. *)
Definition str_int (n : Z) : string := Json.dumps_int n.

(** [GET /download/payload/<int:payload_id>]. *)
Definition download_single_payload `{JsonPretty} (payload_id : Z)
  : M App.Ctx attachment :=
  payload <- App.db_manager (DbManager.get_single_payload payload_id) ;;
  match payload with
  | None => raise (NotFound "Payload not found.")
  | Some stored =>
      match loads stored with
      | Some v =>
          ret (mk_attachment ("payload_" ++ str_int payload_id ++ ".json")
                 "application/json" (dumps_indent v))
      | None => raise JSONDecodeError
      end
  end.

(** The template filter [pretty_json]. *)
Definition pretty_json_filter `{JsonPretty} (value : string) : string :=
  match loads value with
  | Some v => dumps_indent v
  | None => value
  end.

(** A page request from start to teardown: what the view returned or
    raised, what was emitted, and the file once the connection is closed. *)
Definition render {A} (view : M App.Ctx A) (file : Database)
  : result A * list App.emission * Database :=
  let '(r, ctx) := view (App.mk_ctx (App.get_db file) []) in
  (r, App.emitted ctx, App.close_db (App.g_db ctx)).

End Views.

(* ================================================================== *)
(** ** The vocabulary of the statements *)
(* ================================================================== *)

Section Vocabulary.

Context `{JsonCodec}.
Import Sql.

(** The database after [record_successful_payload] on an existing
    endpoint. *)
Definition after_success (db : Database) (timestamp webhook_id payload : string)
  : Database :=
  mk_database
    (map (fun w => if is_webhook webhook_id w
                   then Webhook.mk (Webhook.id w) (Webhook.url w) (Webhook.created_at w)
                          (Webhook.success_count w + 1) (Webhook.failure_count w)
                          (Some timestamp)
                   else w) (webhooks db))
    (webhook_payloads db ++
       [WebhookPayload.mk (seq_payloads db + 1) webhook_id timestamp payload])
    (webhook_failures db) (seq_payloads db + 1) (seq_failures db).

(** The database after [record_failed_payload] on an existing endpoint. *)
Definition after_failure (db : Database) (timestamp webhook_id : string) : Database :=
  mk_database
    (map (fun w => if is_webhook webhook_id w
                   then Webhook.mk (Webhook.id w) (Webhook.url w) (Webhook.created_at w)
                          (Webhook.success_count w) (Webhook.failure_count w + 1)
                          (Webhook.last_payload_at w)
                   else w) (webhooks db))
    (webhook_payloads db)
    (webhook_failures db ++
       [WebhookFailure.mk (seq_failures db + 1) webhook_id timestamp])
    (seq_payloads db) (seq_failures db + 1).

(** The success path has run: one row owned by the endpoint was added to
    [webhook_payloads] and the endpoint's [success_count] grew by 1. *)
Definition payload_recorded (webhook_id : string) (w : Webhook.row)
    (file file' : Database) : Prop :=
  (exists p, webhook_payloads file' = webhook_payloads file ++ [p] /\
             WebhookPayload.webhook_id p = webhook_id) /\
  exists w', find (is_webhook webhook_id) (webhooks file') = Some w' /\
             Webhook.success_count w' = Webhook.success_count w + 1.

(** The failure path has run: one row owned by the endpoint was added to
    [webhook_failures] and the endpoint's [failure_count] grew by 1. *)
Definition failure_recorded (webhook_id : string) (w : Webhook.row)
    (file file' : Database) : Prop :=
  (exists f, webhook_failures file' = webhook_failures file ++ [f] /\
             WebhookFailure.webhook_id f = webhook_id) /\
  exists w', find (is_webhook webhook_id) (webhooks file') = Some w' /\
             Webhook.failure_count w' = Webhook.failure_count w + 1.

(** The requests that write; the other routes only read. *)
Inductive request : Type :=
| Generate (uuid4 : string) (now : Clock.datetime) (host_url : string)
| Ingest (now later : Clock.datetime) (webhook_id request_body : string)
| Delete (webhook_id : string).

Definition route (r : request) : M App.Ctx App.reply :=
  match r with
  | Generate uuid4 now host_url => App.generate_webhook uuid4 now host_url
  | Ingest now later webhook_id request_body =>
      App.webhook now later webhook_id request_body
  | Delete webhook_id => App.delete_webhook webhook_id
  end.

(** The database file after one request. *)
Definition handle (file : Database) (r : request) : Database :=
  snd (App.serve (route r) file).

(** The database file after a run of requests on a new file. *)
Definition run (requests : list request) : Database :=
  fold_left handle requests (App.init_db None).

(** [items] are stored one after the other by [record_successful_payload],
    each on a connection of its own; [None] if one of them raises. *)
Fixpoint ingest_all (webhook_id : string) (items : list (Clock.datetime * json))
    (file : Database) : option Database :=
  match items with
  | [] => Some file
  | (now, data) :: items' =>
      match DbManager.record_successful_payload now webhook_id data (App.get_db file) with
      | (Ok _, c) => ingest_all webhook_id items' (App.close_db c)
      | (Raise _, _) => None
      end
  end.

(** Every endpoint's counters are the numbers of rows it owns, and every
    record row has its endpoint. *)
Definition consistent (db : Database) : Prop :=
  (forall w, In w (webhooks db) ->
     Webhook.success_count w = Sqlite.count (DbManager.payloads_of (Webhook.id w) db) /\
     Webhook.failure_count w = Sqlite.count (DbManager.failures_of (Webhook.id w) db)) /\
  (forall p, In p (webhook_payloads db) ->
     has_webhook db (WebhookPayload.webhook_id p) = true) /\
  (forall f, In f (webhook_failures db) ->
     has_webhook db (WebhookFailure.webhook_id f) = true).

(** [a] sorts strictly before [b]. *)
Definition text_lt (a b : string) : Prop := String.leb a b = true /\ a <> b.

(** How often a key occurs. *)
Definition occurrences (k : string) (keys : list string) : Z :=
  Sqlite.count (filter (String.eqb k) keys).

(** The calendar date of a reading, as text: [t.date().isoformat()]. *)
Definition date_of (t : Clock.datetime) : string :=
  Clock.format_date (Clock.year t) (Clock.month t) (Clock.day t).

(** The window of [get_daily_counts]: the calendar dates from [days] days
    before today's date on. *)
Definition within_days (now : Clock.datetime) (days : Z) (d : string) : bool :=
  match Sqlite.date_now_minus_days now days with
  | Some cutoff => Text.text_ge d cutoff
  | None => false
  end.

(** Two lists of numbers compared item by item, the first difference
    deciding: the order of [Clock.lex_le], as a comparison. *)
Fixpoint lex_compare (a b : list Z) : comparison :=
  match a, b with
  | [], [] => Eq
  | [], _ :: _ => Lt
  | _ :: _, [] => Gt
  | x :: a', y :: b' =>
      match x ?= y with
      | Eq => lex_compare a' b'
      | r => r
      end
  end.

(** An ingestion that was accepted: the endpoint, the clock reading and the
    value that [get_json] returned. *)
Record ingestion : Type := mk_ingestion {
  endpoint : string;
  received : Clock.datetime;
  value : json
}.

(** The accepted ingestions whose endpoint still exists, after one more
    request on [file]. *)
Definition record (file : Database) (log : list ingestion) (r : request)
  : list ingestion :=
  match r with
  | Generate _ _ _ => log
  | Ingest now _ webhook_id request_body =>
      if has_webhook file webhook_id then
        match loads request_body with
        | Some data => log ++ [mk_ingestion webhook_id now data]
        | None => log
        end
      else log
  | Delete webhook_id =>
      if has_webhook file webhook_id
      then filter (fun i => negb (String.eqb (endpoint i) webhook_id)) log
      else log
  end.

(** The file and the accepted ingestions after a run of requests. *)
Fixpoint history (requests : list request) (file : Database) (log : list ingestion)
  : Database * list ingestion :=
  match requests with
  | [] => (file, log)
  | r :: requests' => history requests' (handle file r) (record file log r)
  end.

(** What was ingested for an endpoint, oldest request first. *)
Definition ingested (requests : list request) (webhook_id : string) : list ingestion :=
  filter (fun i => String.eqb (endpoint i) webhook_id)
    (snd (history requests (App.init_db None) [])).

(** The three stored columns of a payload row, and of an ingestion. *)
Definition stored_as (p : WebhookPayload.row) : string * string * string :=
  (WebhookPayload.webhook_id p, WebhookPayload.timestamp p, WebhookPayload.payload p).

Definition stores (i : ingestion) : string * string * string :=
  (endpoint i, Clock.isoformat (received i), dumps (value i)).

(** The entry of the export for an ingestion. *)
Definition exported (i : ingestion) : string * json :=
  (Clock.isoformat (received i), value i).

Definition log_matches (file : Database) (log : list ingestion) : Prop :=
  map stored_as (webhook_payloads file) = map stores log /\
  Forall (fun i => exists text, loads text = Some (value i)) log.

(** Newest first, as ORDER BY timestamp DESC sees it. *)
Definition newer_text (a b : ingestion) : bool :=
  Text.text_ge (Clock.isoformat (received a)) (Clock.isoformat (received b)).

(** The microseconds from 1970-01-01T00:00:00 to a reading. *)
Definition microseconds (t : Clock.datetime) : Z :=
  (((Clock.days_from_civil (Clock.year t) (Clock.month t) (Clock.day t) * 24
     + Clock.hour t) * 60 + Clock.minute t) * 60 + Clock.second t) * 1000000
  + Clock.microsecond t.

(** [stored] lies more than 24 hours before [now]. *)
Definition older_than_24_hours (stored now : Clock.datetime) : Prop :=
  24 * 3600 * 1000000 < microseconds now - microseconds stored.

(** The calendar day of [x] is before the day before that of [now]. *)
Definition before_yesterday (now x : Clock.datetime) : bool :=
  let '(y, m, d) :=
    Clock.civil_from_days
      (Clock.days_from_civil (Clock.year now) (Clock.month now) (Clock.day now) - 1) in
  negb (Clock.lex_le [y; m; d] [Clock.year x; Clock.month x; Clock.day x]).

(** The calendar day of [x] is before that of [y]. *)
Definition day_before (x y : Clock.datetime) : Prop :=
  lex_compare [Clock.year x; Clock.month x; Clock.day x]
              [Clock.year y; Clock.month y; Clock.day y] = Lt.

End Vocabulary.

(* ================================================================== *)
(** ** Sample data *)
(* ================================================================== *)

Module Sample.

Definition morning : Clock.datetime := Clock.mk_datetime 2024 1 1 0 0 0 0.
Definition noon : Clock.datetime := Clock.mk_datetime 2024 1 2 12 0 0 0.
Definition afternoon : Clock.datetime := Clock.mk_datetime 2024 1 2 12 0 0 250000.
Definition evening : Clock.datetime := Clock.mk_datetime 2024 1 2 18 30 0 0.

Definition host_url : string := "http://localhost:5000/".

Definition first_id : string := "0b9e6a52-7d3c-4f1e-9a57-3c1d2e4f5a6b".
Definition second_id : string := "c4f0d1a8-2b6e-4c39-8e71-9f0a1b2c3d4e".

(** One endpoint, as [create_webhook] stores it. *)
Definition endpoint : Webhook.row :=
  Webhook.mk first_id "http://localhost:5000/webhook/0b9e6a52-7d3c-4f1e-9a57-3c1d2e4f5a6b"
    (Clock.isoformat morning) 0 0 None.

Definition one_endpoint : Database := mk_database [endpoint] [] [] 0 0.

(** The endpoint after two payloads and one failure. *)
Definition busy_endpoint : Webhook.row :=
  Webhook.mk first_id "http://localhost:5000/webhook/0b9e6a52-7d3c-4f1e-9a57-3c1d2e4f5a6b"
    (Clock.isoformat morning) 2 1 (Some (Clock.isoformat evening)).

(** Two endpoints, each with a payload row and a failure row. *)
Definition two_endpoints : Database :=
  mk_database
    [Webhook.mk first_id "http://localhost:5000/webhook/0b9e6a52-7d3c-4f1e-9a57-3c1d2e4f5a6b"
       (Clock.isoformat morning) 1 1 (Some (Clock.isoformat noon));
     Webhook.mk second_id "http://localhost:5000/webhook/c4f0d1a8-2b6e-4c39-8e71-9f0a1b2c3d4e"
       (Clock.isoformat morning) 1 1 (Some (Clock.isoformat evening))]
    [WebhookPayload.mk 1 first_id (Clock.isoformat noon) "[1, 2]";
     WebhookPayload.mk 2 second_id (Clock.isoformat evening) "null"]
    [WebhookFailure.mk 1 second_id (Clock.isoformat noon);
     WebhookFailure.mk 2 first_id (Clock.isoformat afternoon)]
    2 2.

(** An endpoint with 45 payload rows. *)
Definition forty_five : Database :=
  mk_database [endpoint]
    (map (fun i => WebhookPayload.mk (Z.of_nat i) first_id (Clock.isoformat noon) "{}")
       (seq 1 45))
    [] 45 0.

(** A payload row written a day and a half before [noon]. *)
Definition old_row : Database :=
  mk_database [endpoint]
    [WebhookPayload.mk 1 first_id (Clock.isoformat morning) "{}"] [] 1 0.

Definition readings : list Clock.datetime := [morning; noon; afternoon].

(** Payload rows written at [readings]. *)
Definition three_rows : Database :=
  mk_database [endpoint]
    [WebhookPayload.mk 1 first_id (Clock.isoformat morning) "{}";
     WebhookPayload.mk 2 first_id (Clock.isoformat noon) "[1, 2]";
     WebhookPayload.mk 3 first_id (Clock.isoformat afternoon) "null"]
    [] 3 0.

End Sample.

(* ================================================================== *)
(** ** More vocabulary: pages, totals, the latest payload *)
(* ================================================================== *)

Section Reading.

Context `{JsonCodec}.
Import Sql.

(** The rows of a page that was returned; none when the call raised. *)
Definition page_rows {A} (r : result (DbManager.page_of A) * Connection) : list A :=
  match r with
  | (Ok pg, _) => DbManager.rows pg
  | (Raise _, _) => []
  end.

(** The page numbers 1, 2, ..., [n]. *)
Definition pages_upto (n : Z) : list Z := map Z.of_nat (seq 1 (Z.to_nat n)).

(** The sum of the counts of a chart. *)
Definition sum_counts (chart : list (string * Z)) : Z :=
  fold_right Z.add 0 (map snd chart).

(** The timestamp of the payload row that an endpoint got last. *)
Definition latest_timestamp (webhook_id : string) (db : Database) : option string :=
  last (map (fun p => Some (WebhookPayload.timestamp p))
          (DbManager.payloads_of webhook_id db)) None.

(** A computation that leaves its state as it found it, whether it returns
    or raises. *)
Definition reads_only {S A} (m : M S A) : Prop := forall s, snd (m s) = s.

(** A request that was served without a change of the file and without an
    emission. *)
Definition untouched {A} (served : A * list App.emission * Database)
    (file : Database) : Prop :=
  snd (fst served) = [] /\ snd served = file.

(** The event that tells of a payload row, for the room of its endpoint. *)
Definition event_of (p : WebhookPayload.row) : App.emission :=
  App.mk_emission "new_payload"
    (App.mk_payload_data (WebhookPayload.id p) (WebhookPayload.timestamp p)
       (WebhookPayload.payload p))
    (WebhookPayload.webhook_id p).

(** What the primary keys keep: no two endpoints share an identifier; the
    AUTOINCREMENT keys of the two record tables ascend in rowid order and
    none is above the counter of its table. *)
Definition well_keyed (db : Database) : Prop :=
  NoDup (map Webhook.id (webhooks db)) /\
  StronglySorted Z.lt (map WebhookPayload.id (webhook_payloads db)) /\
  Forall (fun p => WebhookPayload.id p <= seq_payloads db) (webhook_payloads db) /\
  StronglySorted Z.lt (map WebhookFailure.id (webhook_failures db)) /\
  Forall (fun f => WebhookFailure.id f <= seq_failures db) (webhook_failures db).

(** Every endpoint's [last_payload_at] is the timestamp of the payload row
    it got last, and NULL when it has none. *)
Definition last_payload_kept (db : Database) : Prop :=
  forall w, In w (webhooks db) ->
    Webhook.last_payload_at w = latest_timestamp (Webhook.id w) db.

(** An endpoint row as [POST /generate] stamped it: its [created_at] is
    [isoformat] of the valid clock reading [now]. *)
Definition created_on (w : Webhook.row) (now : Clock.datetime) : Prop :=
  Clock.valid now /\ Webhook.created_at w = Clock.isoformat now.

(** [k] slashes. *)
Fixpoint slashes (k : nat) : string :=
  match k with
  | O => EmptyString
  | S k' => String "/" (slashes k')
  end.

(** A stored value whose [date()] is not NULL and lies in the window of
    [get_daily_counts]. *)
Definition dated_within (now : Clock.datetime) (days : Z) (v : option string) : bool :=
  match v with
  | Some s =>
      match Sqlite.date s with
      | Some d => within_days now days d
      | None => false
      end
  | None => false
  end.

(** A stored value whose [date()] is [d]. *)
Definition dated (d : string) (v : option string) : bool :=
  match v with
  | Some s =>
      match Sqlite.date s with
      | Some d' => String.eqb d d'
      | None => false
      end
  | None => false
  end.

(** The sum of a column of the dashboard's daily table. *)
Definition column_sum (column : Views.daily_stat -> Z) (table : list Views.daily_stat)
  : Z :=
  fold_right Z.add 0 (map column table).

(** The day number of the calendar date of a reading: the days from
    1970-01-01 to it. *)
Definition day_number (t : Clock.datetime) : Z :=
  Clock.days_from_civil (Clock.year t) (Clock.month t) (Clock.day t).

(** A value of a time column as the application writes it: NULL, or
    [isoformat] of a reading. *)
Definition stamp_text (stamp : option Clock.datetime) : option string :=
  option_map Clock.isoformat stamp.

(** The reading of a stamp, when it has one, is a value of [datetime]. *)
Definition valid_stamp (stamp : option Clock.datetime) : Prop :=
  match stamp with
  | Some x => Clock.valid x
  | None => True
  end.

(** A stamp that is not NULL and whose calendar date is [d]. *)
Definition stamped_on (d : string) (stamp : option Clock.datetime) : bool :=
  match stamp with
  | Some x => String.eqb d (date_of x)
  | None => false
  end.

(** A stamp that is not NULL and whose calendar date is not before the
    cutoff of the query, [date('now', '-N days')]. *)
Definition stamped_since (now : Clock.datetime) (days : Z)
    (stamp : option Clock.datetime) : bool :=
  match stamp with
  | Some x => within_days now days (date_of x)
  | None => false
  end.

End Reading.

(* ================================================================== *)
(** ** A sample run *)
(* ================================================================== *)

Module Scenario.

(** Two endpoints are generated; the first gets a JSON body and a body
    that is not JSON, the second a JSON body. *)
Definition session : list request :=
  [Generate Sample.first_id Sample.morning Sample.host_url;
   Generate Sample.second_id Sample.morning Sample.host_url;
   Ingest Sample.noon Sample.afternoon Sample.first_id "[1, 2]";
   Ingest Sample.evening Sample.evening Sample.first_id "not json";
   Ingest Sample.evening Sample.evening Sample.second_id " null "].

(** The rows that the session leaves. *)
Definition first_endpoint : Webhook.row :=
  Webhook.mk Sample.first_id
    "http://localhost:5000/webhook/0b9e6a52-7d3c-4f1e-9a57-3c1d2e4f5a6b"
    (Clock.isoformat Sample.morning) 1 1 (Some (Clock.isoformat Sample.noon)).

Definition second_endpoint : Webhook.row :=
  Webhook.mk Sample.second_id
    "http://localhost:5000/webhook/c4f0d1a8-2b6e-4c39-8e71-9f0a1b2c3d4e"
    (Clock.isoformat Sample.morning) 1 0 (Some (Clock.isoformat Sample.evening)).

Definition first_payload : WebhookPayload.row :=
  WebhookPayload.mk 1 Sample.first_id (Clock.isoformat Sample.noon) "[1, 2]".

Definition second_payload : WebhookPayload.row :=
  WebhookPayload.mk 2 Sample.second_id (Clock.isoformat Sample.evening) "null".

Definition after_session : Database :=
  mk_database [first_endpoint; second_endpoint] [first_payload; second_payload]
    [WebhookFailure.mk 1 Sample.first_id (Clock.isoformat Sample.evening)] 2 1.

(** One endpoint that gets a payload at the first second of each of the
    eight days from 2024-01-01 to 2024-01-08, read at the last second of
    2024-01-08. *)
Definition midnight (day : Z) : Clock.datetime := Clock.mk_datetime 2024 1 day 0 0 0 0.

Definition late : Clock.datetime := Clock.mk_datetime 2024 1 8 23 59 59 0.

Definition eight_days : list request :=
  Generate Sample.first_id (midnight 1) Sample.host_url ::
  map (fun i => Ingest (midnight (Z.of_nat i)) (midnight (Z.of_nat i)) Sample.first_id "{}")
    (seq 1 8).

(** Two endpoints, of which only the first has got a payload. *)
Definition one_quiet : list request :=
  [Generate Sample.first_id Sample.morning Sample.host_url;
   Generate Sample.second_id Sample.morning Sample.host_url;
   Ingest Sample.noon Sample.noon Sample.first_id "[1, 2]"].

End Scenario.

(* ================================================================== *)
(** ** Lemmas on the tables *)
(* ================================================================== *)

Section TableFacts.

Import Sql.

Lemma find_has_webhook (l : list Webhook.row) (webhook_id : string) (w : Webhook.row) :
  find (is_webhook webhook_id) l = Some w ->
  existsb (is_webhook webhook_id) l = true.
Proof.
  induction l as [|a l IH]; simpl; [discriminate|].
  destruct (is_webhook webhook_id a); auto.
Qed.

Lemma find_none_has_webhook (l : list Webhook.row) (webhook_id : string) :
  find (is_webhook webhook_id) l = None ->
  existsb (is_webhook webhook_id) l = false.
Proof.
  induction l as [|a l IH]; simpl; [reflexivity|].
  destruct (is_webhook webhook_id a); [discriminate|auto].
Qed.

Lemma find_is_webhook (l : list Webhook.row) (webhook_id : string) (w : Webhook.row) :
  find (is_webhook webhook_id) l = Some w -> Webhook.id w = webhook_id.
Proof.
  intro Hf. apply find_some in Hf. destruct Hf as [_ Hf].
  now apply String.eqb_eq in Hf.
Qed.

(** An UPDATE whose WHERE clause matches no row changes nothing. *)
Lemma update_no_match (f : Webhook.row -> Webhook.row) (l : list Webhook.row)
    (webhook_id : string) :
  find (is_webhook webhook_id) l = None ->
  map (fun w => if is_webhook webhook_id w then f w else w) l = l.
Proof.
  induction l as [|a l IH]; simpl; [reflexivity|].
  destruct (is_webhook webhook_id a); [discriminate|].
  intro Hf. now rewrite IH.
Qed.

(** After an UPDATE that keeps the key, the row found under the key is the
    updated one. *)
Lemma find_update (f : Webhook.row -> Webhook.row) (l : list Webhook.row)
    (webhook_id : string) (w : Webhook.row) :
  (forall r, Webhook.id (f r) = Webhook.id r) ->
  find (is_webhook webhook_id) l = Some w ->
  find (is_webhook webhook_id)
    (map (fun r => if is_webhook webhook_id r then f r else r) l) = Some (f w).
Proof.
  intros Hid. induction l as [|a l IH]; simpl; [discriminate|].
  destruct (is_webhook webhook_id a) eqn:Ha.
  - intros [= ->]. simpl. unfold is_webhook in *. rewrite Hid, Ha. reflexivity.
  - intro Hf. simpl. rewrite Ha. auto.
Qed.

(** Rows under another key are not touched by the UPDATE. *)
Lemma find_update_other (f : Webhook.row -> Webhook.row) (l : list Webhook.row)
    (webhook_id other : string) :
  (forall r, Webhook.id (f r) = Webhook.id r) ->
  other <> webhook_id ->
  find (is_webhook other)
    (map (fun r => if is_webhook webhook_id r then f r else r) l) =
  find (is_webhook other) l.
Proof.
  intros Hid Hne. induction l as [|a l IH]; simpl; [reflexivity|].
  destruct (is_webhook webhook_id a) eqn:Ha.
  - unfold is_webhook in *. rewrite Hid.
    apply String.eqb_eq in Ha. rewrite Ha.
    destruct (String.eqb_spec webhook_id other) as [->|_]; [contradiction|exact IH].
  - destruct (is_webhook other a); [reflexivity|exact IH].
Qed.

Lemma database_eta (db : Database) :
  mk_database (webhooks db) (webhook_payloads db) (webhook_failures db)
    (seq_payloads db) (seq_failures db) = db.
Proof. now destruct db. Qed.

End TableFacts.

(* ================================================================== *)
(** ** What each write of [DbManager] does to a connection *)
(* ================================================================== *)

Section Writes.

Context `{JsonCodec}.
Import Sql.

Lemma has_webhook_update (f : Webhook.row -> Webhook.row) (l : list Webhook.row)
    (webhook_id other : string) :
  (forall r, Webhook.id (f r) = Webhook.id r) ->
  existsb (is_webhook other)
    (map (fun r => if is_webhook webhook_id r then f r else r) l) =
  existsb (is_webhook other) l.
Proof.
  intros Hid. induction l as [|a l IH]; simpl; [reflexivity|].
  rewrite IH. f_equal.
  destruct (is_webhook webhook_id a); [|reflexivity].
  unfold is_webhook. now rewrite Hid.
Qed.

Lemma record_successful_payload_existing (c : Connection) (now : Clock.datetime)
    (webhook_id : string) (data : json) :
  has_webhook (current c) webhook_id = true ->
  DbManager.record_successful_payload now webhook_id data c =
    (Ok (seq_payloads (current c) + 1, Clock.isoformat now),
     let db := after_success (current c) (Clock.isoformat now) webhook_id (dumps data) in
     mk_connection (foreign_keys c) db db).
Proof.
  intro Hhas.
  unfold DbManager.record_successful_payload, bind, insert_payload.
  rewrite Hhas, andb_false_r. reflexivity.
Qed.

Lemma record_failed_payload_existing (c : Connection) (now : Clock.datetime)
    (webhook_id : string) :
  has_webhook (current c) webhook_id = true ->
  DbManager.record_failed_payload now webhook_id c =
    (Ok tt,
     let db := after_failure (current c) (Clock.isoformat now) webhook_id in
     mk_connection (foreign_keys c) db db).
Proof.
  intro Hhas.
  unfold DbManager.record_failed_payload, bind, update_failure, update_webhooks,
    modify, insert_failure, has_webhook in *.
  cbn [current foreign_keys set_current webhooks].
  rewrite has_webhook_update by reflexivity.
  rewrite Hhas, andb_false_r. reflexivity.
Qed.

Lemma record_failed_payload_missing (c : Connection) (now : Clock.datetime)
    (webhook_id : string) :
  foreign_keys c = true ->
  find (is_webhook webhook_id) (webhooks (current c)) = None ->
  DbManager.record_failed_payload now webhook_id c =
    (Raise (IntegrityError "FOREIGN KEY constraint failed"), c).
Proof.
  intros Hfk Hnone.
  unfold DbManager.record_failed_payload, bind, update_failure, update_webhooks,
    modify, insert_failure, has_webhook.
  cbn [current foreign_keys set_current webhooks].
  rewrite update_no_match by assumption.
  rewrite (find_none_has_webhook _ _ Hnone), Hfk. cbn.
  rewrite database_eta. now destruct c.
Qed.

End Writes.

(* ================================================================== *)
(** ** The ingestion route *)
(* ================================================================== *)

Section Ingestion.

Context `{JsonCodec}.
Import Sql.

(** The two ways [POST /webhook/<id>] can end on an existing endpoint. *)
Lemma webhook_existing (file : Database) (now later : Clock.datetime)
    (webhook_id request_body : string) (w : Webhook.row) :
  find (is_webhook webhook_id) (webhooks file) = Some w ->
  App.serve (App.webhook now later webhook_id request_body) file =
    match loads request_body with
    | Some data =>
        (App.mk_reply 200 (App.Received (Clock.isoformat now)),
         [App.mk_emission "new_payload"
            (App.mk_payload_data (seq_payloads file + 1) (Clock.isoformat now) (dumps data))
            webhook_id],
         after_success file (Clock.isoformat now) webhook_id (dumps data))
    | None =>
        (App.mk_reply 400
           (App.Error ("Failed to process request: " ++
              App.str (BadRequest
                "The browser (or proxy) sent a request that this server could not understand."))),
         [],
         after_failure file (Clock.isoformat later) webhook_id)
    end.
Proof.
  intro Hfind.
  pose proof (find_has_webhook _ _ _ Hfind) as Hhas.
  unfold App.serve, App.webhook, bind, App.db_manager at 1, DbManager.get_webhook, select.
  cbn [App.g_db App.get_db current App.emitted]. rewrite Hfind.
  unfold try_except, bind, App.get_json.
  destruct (loads request_body) as [data|].
  - unfold ret at 1. unfold App.db_manager. cbn [App.g_db].
    rewrite record_successful_payload_existing by exact Hhas.
    reflexivity.
  - unfold raise at 1. unfold App.db_manager. cbn [App.g_db].
    rewrite record_failed_payload_existing by exact Hhas.
    reflexivity.
Qed.

(** An unknown endpoint: 404, and nothing is written or emitted. *)
Lemma webhook_unknown (file : Database) (now later : Clock.datetime)
    (webhook_id request_body : string) :
  find (is_webhook webhook_id) (webhooks file) = None ->
  App.serve (App.webhook now later webhook_id request_body) file =
    (App.mk_reply 404 (App.Aborted (App.not_found_description webhook_id)), [], file).
Proof.
  intro Hfind.
  unfold App.serve, App.webhook, bind, App.db_manager, DbManager.get_webhook, select.
  cbn [App.g_db App.get_db current App.emitted]. rewrite Hfind. reflexivity.
Qed.

(** C1. On an existing endpoint, a request whose body is not JSON is
    answered with status 400 and an error message; the endpoint's
    [failure_count] grows by exactly 1 and its [success_count] stays; one
    row, owned by the endpoint, is added to [webhook_failures]; the table
    [webhook_payloads] is as before. *)
Theorem bad_body_is_one_failure (file : Database) (now later : Clock.datetime)
    (webhook_id request_body : string) (w : Webhook.row) :
  find (is_webhook webhook_id) (webhooks file) = Some w ->
  loads request_body = None ->
  exists (message : string) (out : list App.emission) (file' : Database)
         (w' : Webhook.row) (f : WebhookFailure.row),
    App.serve (App.webhook now later webhook_id request_body) file =
      (App.mk_reply 400 (App.Error message), out, file') /\
    find (is_webhook webhook_id) (webhooks file') = Some w' /\
    Webhook.failure_count w' = Webhook.failure_count w + 1 /\
    Webhook.success_count w' = Webhook.success_count w /\
    webhook_failures file' = webhook_failures file ++ [f] /\
    WebhookFailure.webhook_id f = webhook_id /\
    webhook_payloads file' = webhook_payloads file.
Proof.
  intros Hfind Hbad.
  rewrite (webhook_existing _ now later _ request_body _ Hfind), Hbad.
  do 5 eexists. split; [reflexivity|].
  cbn [after_failure webhooks webhook_failures webhook_payloads].
  split; [apply find_update; [reflexivity|exact Hfind]|].
  cbn. auto.
Qed.

Lemma not_grown {A} (l : list A) (x : A) : l <> l ++ [x].
Proof.
  intro Heq. apply (f_equal (@List.length A)) in Heq.
  rewrite length_app in Heq. simpl in Heq. lia.
Qed.

(** C2. A request to an existing endpoint runs the success path or the
    failure path, never both and never neither: either one row goes into
    [webhook_payloads] and [success_count] grows by 1 while
    [webhook_failures] and [failure_count] stay, or one row goes into
    [webhook_failures] and [failure_count] grows by 1 while
    [webhook_payloads] and [success_count] stay; the two counters never
    grow together. *)
Theorem exactly_one_path (file : Database) (now later : Clock.datetime)
    (webhook_id request_body : string) (w : Webhook.row) :
  find (is_webhook webhook_id) (webhooks file) = Some w ->
  exists (r : App.reply) (out : list App.emission) (file' : Database)
         (w' : Webhook.row),
    App.serve (App.webhook now later webhook_id request_body) file = (r, out, file') /\
    find (is_webhook webhook_id) (webhooks file') = Some w' /\
    ((App.status r = 200 /\
      payload_recorded webhook_id w file file' /\
      ~ failure_recorded webhook_id w file file' /\
      webhook_failures file' = webhook_failures file /\
      Webhook.failure_count w' = Webhook.failure_count w) \/
     (App.status r = 400 /\
      failure_recorded webhook_id w file file' /\
      ~ payload_recorded webhook_id w file file' /\
      webhook_payloads file' = webhook_payloads file /\
      Webhook.success_count w' = Webhook.success_count w)) /\
    ~ (Webhook.success_count w' = Webhook.success_count w + 1 /\
       Webhook.failure_count w' = Webhook.failure_count w + 1).
Proof.
  intros Hfind.
  rewrite (webhook_existing _ now later _ request_body _ Hfind).
  destruct (loads request_body) as [data|]; do 4 eexists;
    (split; [reflexivity|]);
    (split; [cbn [after_success after_failure webhooks];
             apply find_update; [reflexivity|exact Hfind]|]).
  - split; [left|cbn; lia].
    split; [reflexivity|]. split; [|split; [|split; reflexivity]].
    + split; [eexists; split; reflexivity|].
      eexists. split; [apply find_update; [reflexivity|exact Hfind]|reflexivity].
    + intros [[f [Hf _]] _]. exact (not_grown _ _ Hf).
  - split; [right|cbn; lia].
    split; [reflexivity|]. split; [|split; [|split; reflexivity]].
    + split; [eexists; split; reflexivity|].
      eexists. split; [apply find_update; [reflexivity|exact Hfind]|reflexivity].
    + intros [[p [Hp _]] _]. exact (not_grown _ _ Hp).
Qed.

(** C10. On a connection with foreign keys on (as [get_db] opens it),
    [record_failed_payload] of an identifier that [webhooks] does not hold
    raises [IntegrityError] from the INSERT; the connection is left as it
    was, so nothing is committed then or when it is closed: the counters
    and both record tables are unchanged. *)
Theorem record_failed_payload_unknown_id (c : Connection) (now : Clock.datetime)
    (webhook_id : string) :
  foreign_keys c = true ->
  find (is_webhook webhook_id) (webhooks (current c)) = None ->
  exists c' : Connection,
    DbManager.record_failed_payload now webhook_id c =
      (Raise (IntegrityError "FOREIGN KEY constraint failed"), c') /\
    committed c' = committed c /\
    current c' = current c /\
    App.close_db c' = App.close_db c.
Proof.
  intros Hfk Hnone.
  rewrite record_failed_payload_missing by assumption.
  eexists. repeat split.
Qed.

End Ingestion.

(* ================================================================== *)
(** ** ORDER BY, LIMIT and OFFSET *)
(* ================================================================== *)

Section Ordering.

Context {A : Type} (before : A -> A -> bool).

Lemma insert_sorted_perm (x : A) (l : list A) :
  Permutation (Sqlite.insert_sorted before x l) (x :: l).
Proof.
  induction l as [|y l IH]; simpl; [reflexivity|].
  destruct (before x y); [reflexivity|].
  rewrite perm_swap. now apply perm_skip.
Qed.

(** ORDER BY returns the rows it was given, each once. *)
Lemma order_by_perm (l : list A) : Permutation (Sqlite.order_by before l) l.
Proof.
  induction l as [|x l IH]; simpl; [reflexivity|].
  rewrite insert_sorted_perm. now apply perm_skip.
Qed.

Lemma order_by_length (l : list A) :
  List.length (Sqlite.order_by before l) = List.length l.
Proof. apply Permutation_length, order_by_perm. Qed.

Hypothesis before_total : forall a b, before a b = false -> before b a = true.
Hypothesis before_trans :
  forall a b c, before a b = true -> before b c = true -> before a c = true.

Lemma insert_sorted_sorted (x : A) (l : list A) :
  StronglySorted (fun a b => before a b = true) l ->
  StronglySorted (fun a b => before a b = true) (Sqlite.insert_sorted before x l).
Proof.
  induction 1 as [|y l Hs IH Hall]; simpl.
  - constructor; constructor.
  - destruct (before x y) eqn:Hxy.
    + constructor; [constructor; assumption|].
      constructor; [exact Hxy|].
      eapply Forall_impl; [|exact Hall].
      intros z Hz. exact (before_trans _ _ _ Hxy Hz).
    + constructor; [exact IH|].
      assert (Hp : Permutation (x :: l) (Sqlite.insert_sorted before x l))
        by (symmetry; apply insert_sorted_perm).
      apply (Permutation_Forall Hp).
      constructor; [apply before_total, Hxy|exact Hall].
Qed.

(** ORDER BY returns its rows in order: each row may stand before every
    later one. *)
Lemma order_by_sorted (l : list A) :
  StronglySorted (fun a b => before a b = true) (Sqlite.order_by before l).
Proof.
  induction l as [|x l IH]; simpl; [constructor|].
  now apply insert_sorted_sorted.
Qed.

End Ordering.

Section Limit.

Context {A : Type}.

Lemma limit_offset_length (n k : Z) (l : list A) :
  0 <= n -> 0 <= k ->
  Z.of_nat (List.length (Sqlite.limit_offset n k l)) =
  Z.min n (Z.max 0 (Z.of_nat (List.length l) - k)).
Proof.
  intros Hn Hk. unfold Sqlite.limit_offset.
  destruct (Z.ltb_spec n 0) as [Hlt|_]; [lia|].
  rewrite length_firstn, length_skipn. lia.
Qed.

End Limit.

(* ================================================================== *)
(** ** Creating, deleting and listing *)
(* ================================================================== *)

Section Endpoints.

Import Sql.

Lemma find_app_new (l : list Webhook.row) (webhook_id : string) (w : Webhook.row) :
  find (is_webhook webhook_id) l = None ->
  Webhook.id w = webhook_id ->
  find (is_webhook webhook_id) (l ++ [w]) = Some w.
Proof.
  intros Hnone Hid. induction l as [|a l IH]; simpl in *.
  - unfold is_webhook. rewrite Hid, String.eqb_refl. reflexivity.
  - destruct (is_webhook webhook_id a); [discriminate|auto].
Qed.

(** C5, as the code has it. For a draw [uuid4] that [webhooks] does not
    hold yet, [create_webhook(host_url)] returns [uuid4] and the URL
    [host_url.rstrip('/') + "/webhook/" + uuid4], and commits; the row
    that [get_webhook(uuid4)] then returns, on the same connection and on
    a new one, has this identifier and URL, both counters 0 and no
    last-payload time. *)
Theorem create_webhook_then_get (c : Connection) (uuid4 : string)
    (now : Clock.datetime) (host_url : string) :
  find (is_webhook uuid4) (webhooks (current c)) = None ->
  exists (c' : Connection),
    let full_url := (Text.rstrip "/" host_url ++ "/webhook/" ++ uuid4)%string in
    let stored := Webhook.mk uuid4 full_url (Clock.isoformat now) 0 0 None in
    DbManager.create_webhook uuid4 now host_url c = (Ok (uuid4, full_url), c') /\
    committed c' = current c' /\
    DbManager.get_webhook uuid4 c' = (Ok (Some stored), c') /\
    DbManager.get_webhook uuid4 (App.get_db (App.close_db c')) =
      (Ok (Some stored), App.get_db (App.close_db c')).
Proof.
  intro Hfresh.
  unfold DbManager.create_webhook, bind, insert_webhook, has_webhook.
  rewrite (find_none_has_webhook _ _ Hfresh).
  eexists. cbn zeta. split; [reflexivity|].
  split; [reflexivity|].
  unfold DbManager.get_webhook, select.
  cbn [current committed webhooks App.get_db App.close_db set_current].
  rewrite (find_app_new _ _ (Webhook.mk uuid4 _ _ 0 0 None) Hfresh eq_refl).
  split; reflexivity.
Qed.

(** A draw that is already a key is refused by the primary key, and
    nothing is stored: an identifier that [create_webhook] returns is
    always a new one. *)
Lemma create_webhook_collision (c : Connection) (uuid4 : string)
    (now : Clock.datetime) (host_url : string) (w : Webhook.row) :
  find (is_webhook uuid4) (webhooks (current c)) = Some w ->
  DbManager.create_webhook uuid4 now host_url c =
    (Raise (IntegrityError "UNIQUE constraint failed: webhooks.id"), c).
Proof.
  intro Hfound.
  unfold DbManager.create_webhook, bind, insert_webhook, has_webhook.
  now rewrite (find_has_webhook _ _ _ Hfound).
Qed.

(** Where [host_url] does not end in a slash the URL is the plain
    concatenation. *)
Lemma rstrip_no_slash (s : string) (a : ascii) :
  a <> "/"%char -> Text.rstrip "/" (s ++ String a "") = (s ++ String a "")%string.
Proof.
  intro Ha. induction s as [|b s IH]; simpl.
  - destruct (Ascii.eqb_spec a "/"%char); [contradiction|reflexivity].
  - simpl in IH. rewrite IH.
    destruct (s ++ String a "")%string eqn:Hs; [|reflexivity].
    destruct s; discriminate.
Qed.

Lemma filter_filter_neg {B} (f g : B -> bool) (l : list B) :
  (forall x, f x = true -> g x = false) ->
  filter f (filter (fun x => negb (g x)) l) = filter f l.
Proof.
  intro Hfg. induction l as [|x l IH]; simpl; [reflexivity|].
  destruct (g x) eqn:Hg; simpl.
  - destruct (f x) eqn:Hf; [|exact IH].
    rewrite (Hfg x Hf) in Hg. discriminate.
  - now rewrite IH.
Qed.

Lemma filter_neg_self {B} (f : B -> bool) (l : list B) :
  filter f (filter (fun x => negb (f x)) l) = [].
Proof.
  induction l as [|x l IH]; simpl; [reflexivity|].
  destruct (f x) eqn:Hf; simpl; [exact IH|]. now rewrite Hf.
Qed.

Lemma find_filter_neg_self (l : list Webhook.row) (webhook_id : string) :
  find (is_webhook webhook_id)
    (filter (fun w => negb (is_webhook webhook_id w)) l) = None.
Proof.
  induction l as [|x l IH]; simpl; [reflexivity|].
  destruct (is_webhook webhook_id x) eqn:Hx; simpl; [exact IH|]. now rewrite Hx.
Qed.

Lemma find_filter_neg_other (l : list Webhook.row) (webhook_id other : string) :
  other <> webhook_id ->
  find (is_webhook other)
    (filter (fun w => negb (is_webhook webhook_id w)) l) =
  find (is_webhook other) l.
Proof.
  intro Hne. induction l as [|x l IH]; simpl; [reflexivity|].
  destruct (is_webhook webhook_id x) eqn:Hx; simpl.
  - destruct (is_webhook other x) eqn:Ho; [|exact IH].
    unfold is_webhook in *. apply String.eqb_eq in Hx, Ho. congruence.
  - now rewrite IH.
Qed.

Lemma eqb_other (a b x : string) :
  a <> b -> String.eqb x a = true -> String.eqb x b = false.
Proof.
  intros Hne Ha. apply String.eqb_eq in Ha. subst x.
  now apply String.eqb_neq.
Qed.

(** C6. On a connection opened by [get_db], [delete_webhook] of an
    existing endpoint commits the removal of the endpoint's row and of
    every row of [webhook_payloads] and [webhook_failures] that the
    endpoint owns; the rows of the other endpoints, and those endpoints,
    stay as they were; [get_webhook] then finds nothing. *)
Theorem delete_webhook_cascades (file : Database) (webhook_id : string)
    (w : Webhook.row) :
  find (is_webhook webhook_id) (webhooks file) = Some w ->
  exists (c' : Connection),
    DbManager.delete_webhook webhook_id (App.get_db file) = (Ok tt, c') /\
    let file' := App.close_db c' in
    webhooks file' = filter (fun r => negb (is_webhook webhook_id r)) (webhooks file) /\
    webhook_payloads file' =
      filter (fun p => negb (payload_of webhook_id p)) (webhook_payloads file) /\
    webhook_failures file' =
      filter (fun f => negb (failure_of webhook_id f)) (webhook_failures file) /\
    DbManager.payloads_of webhook_id file' = [] /\
    DbManager.failures_of webhook_id file' = [] /\
    (forall other, other <> webhook_id ->
       DbManager.payloads_of other file' = DbManager.payloads_of other file /\
       DbManager.failures_of other file' = DbManager.failures_of other file /\
       find (is_webhook other) (webhooks file') = find (is_webhook other) (webhooks file)) /\
    DbManager.get_webhook webhook_id (App.get_db file') = (Ok None, App.get_db file').
Proof.
  intro Hfind.
  pose proof (find_has_webhook _ _ _ Hfind) as Hhas.
  unfold DbManager.delete_webhook, bind, delete_from_webhooks, modify, commit, has_webhook.
  cbn [App.get_db current foreign_keys committed set_current].
  rewrite Hhas. cbn [andb].
  eexists. split; [reflexivity|].
  cbn [App.close_db committed webhooks webhook_payloads webhook_failures].
  split; [reflexivity|]. split; [reflexivity|]. split; [reflexivity|].
  unfold DbManager.payloads_of, DbManager.failures_of, DbManager.get_webhook, select.
  cbn [webhooks webhook_payloads webhook_failures App.get_db current].
  split; [apply filter_neg_self|]. split; [apply filter_neg_self|].
  split.
  - intros other Hne. split; [|split].
    + apply filter_filter_neg. intros p. unfold payload_of.
      apply eqb_other. exact Hne.
    + apply filter_filter_neg. intros f. unfold failure_of.
      apply eqb_other. exact Hne.
    + apply find_filter_neg_other. exact Hne.
  - cbn [current set_current webhooks]. now rewrite find_filter_neg_self.
Qed.


End Endpoints.

(* ================================================================== *)
(** ** The states the application can reach *)
(* ================================================================== *)

Section Reachable.

Context `{JsonCodec}.
Import Sql.

Lemma filter_none {B} (f : B -> bool) (l : list B) :
  (forall x, In x l -> f x = false) -> filter f l = [].
Proof.
  induction l as [|x l IH]; simpl; intro Hall; [reflexivity|].
  rewrite (Hall x) by auto. apply IH. auto.
Qed.

Lemma has_webhook_app (l : list Webhook.row) (w : Webhook.row) (k : string) :
  existsb (is_webhook k) l = true -> existsb (is_webhook k) (l ++ [w]) = true.
Proof. intro Hk. rewrite existsb_app, Hk. reflexivity. Qed.

Lemma consistent_empty : consistent empty_database.
Proof. split; [|split]; intros ? []. Qed.

Lemma generate_webhook_file (file : Database) (uuid4 : string)
    (now : Clock.datetime) (host_url : string) :
  handle file (Generate uuid4 now host_url) =
    if has_webhook file uuid4 then file
    else mk_database
           (webhooks file ++
              [Webhook.mk uuid4 (Text.rstrip "/" host_url ++ "/webhook/" ++ uuid4)
                 (Clock.isoformat now) 0 0 None])
           (webhook_payloads file) (webhook_failures file)
           (seq_payloads file) (seq_failures file).
Proof.
  unfold handle, App.serve, route, App.generate_webhook, bind, App.db_manager,
    DbManager.create_webhook, bind, insert_webhook.
  cbn [App.g_db App.get_db current].
  destruct (has_webhook file uuid4); reflexivity.
Qed.

Lemma delete_webhook_file (file : Database) (webhook_id : string) :
  handle file (Delete webhook_id) =
    if has_webhook file webhook_id then
      mk_database
        (filter (fun w => negb (is_webhook webhook_id w)) (webhooks file))
        (filter (fun p => negb (payload_of webhook_id p)) (webhook_payloads file))
        (filter (fun f => negb (failure_of webhook_id f)) (webhook_failures file))
        (seq_payloads file) (seq_failures file)
    else file.
Proof.
  unfold handle, App.serve, route, App.delete_webhook, App.get_webhook_or_404, bind,
    App.db_manager, DbManager.get_webhook, select.
  cbn [App.g_db App.get_db current App.emitted].
  destruct (find (is_webhook webhook_id) (webhooks file)) as [w|] eqn:Hfind.
  - assert (Hhas : has_webhook file webhook_id = true)
      by exact (find_has_webhook _ _ _ Hfind).
    rewrite Hhas. unfold ret at 1. cbn [App.g_db].
    unfold DbManager.delete_webhook, bind, delete_from_webhooks, modify, commit.
    cbn [current foreign_keys set_current App.get_db].
    rewrite Hhas. reflexivity.
  - assert (Hhas : has_webhook file webhook_id = false)
      by exact (find_none_has_webhook _ _ Hfind).
    rewrite Hhas. reflexivity.
Qed.

Lemma ingest_file (file : Database) (now later : Clock.datetime)
    (webhook_id request_body : string) :
  handle file (Ingest now later webhook_id request_body) =
    if has_webhook file webhook_id then
      match loads request_body with
      | Some data => after_success file (Clock.isoformat now) webhook_id (dumps data)
      | None => after_failure file (Clock.isoformat later) webhook_id
      end
    else file.
Proof.
  unfold handle, route.
  destruct (find (is_webhook webhook_id) (webhooks file)) as [w|] eqn:Hfind.
  - assert (Hhas : has_webhook file webhook_id = true)
      by exact (find_has_webhook _ _ _ Hfind).
    rewrite (webhook_existing _ _ _ _ _ _ Hfind), Hhas.
    destruct (loads request_body); reflexivity.
  - assert (Hhas : has_webhook file webhook_id = false)
      by exact (find_none_has_webhook _ _ Hfind).
    rewrite (webhook_unknown _ _ _ _ _ Hfind), Hhas.
    reflexivity.
Qed.

Lemma in_update (f : Webhook.row -> Webhook.row) (l : list Webhook.row)
    (webhook_id : string) (w' : Webhook.row) :
  In w' (map (fun r => if is_webhook webhook_id r then f r else r) l) ->
  exists w, In w l /\
    ((is_webhook webhook_id w = true /\ w' = f w) \/
     (is_webhook webhook_id w = false /\ w' = w)).
Proof.
  intro Hin. apply in_map_iff in Hin. destruct Hin as [w [Hw Hin]].
  exists w. split; [exact Hin|].
  destruct (is_webhook webhook_id w); [left|right]; auto.
Qed.

Lemma consistent_after_success (db : Database) (timestamp webhook_id payload : string) :
  has_webhook db webhook_id = true ->
  consistent db -> consistent (after_success db timestamp webhook_id payload).
Proof.
  intros Hhas (Hcount & Hp & Hf).
  unfold consistent, after_success, DbManager.payloads_of, DbManager.failures_of,
    has_webhook, Sqlite.count in *.
  cbn [webhooks webhook_payloads webhook_failures].
  split; [|split].
  - intros w' Hin. apply in_update in Hin.
    destruct Hin as [w [Hin [[Hw ->]|[Hw ->]]]];
      destruct (Hcount w Hin) as [Hs Hfl];
      cbn [Webhook.id Webhook.success_count Webhook.failure_count];
      rewrite filter_app, length_app; cbn [filter];
      unfold payload_of at 2; cbn [WebhookPayload.webhook_id];
      unfold is_webhook in Hw; rewrite String.eqb_sym, Hw; simpl; split; lia.
  - intros p Hin. rewrite has_webhook_update by reflexivity.
    apply in_app_or in Hin. destruct Hin as [Hin|[<-|[]]]; [auto|exact Hhas].
  - intros f Hin. rewrite has_webhook_update by reflexivity. auto.
Qed.

Lemma consistent_after_failure (db : Database) (timestamp webhook_id : string) :
  has_webhook db webhook_id = true ->
  consistent db -> consistent (after_failure db timestamp webhook_id).
Proof.
  intros Hhas (Hcount & Hp & Hf).
  unfold consistent, after_failure, DbManager.payloads_of, DbManager.failures_of,
    has_webhook, Sqlite.count in *.
  cbn [webhooks webhook_payloads webhook_failures].
  split; [|split].
  - intros w' Hin. apply in_update in Hin.
    destruct Hin as [w [Hin [[Hw ->]|[Hw ->]]]];
      destruct (Hcount w Hin) as [Hs Hfl];
      cbn [Webhook.id Webhook.success_count Webhook.failure_count];
      rewrite filter_app, length_app; cbn [filter];
      unfold failure_of at 2; cbn [WebhookFailure.webhook_id];
      unfold is_webhook in Hw; rewrite String.eqb_sym, Hw; simpl; split; lia.
  - intros p Hin. rewrite has_webhook_update by reflexivity. auto.
  - intros f Hin. rewrite has_webhook_update by reflexivity.
    apply in_app_or in Hin. destruct Hin as [Hin|[<-|[]]]; [auto|exact Hhas].
Qed.

Lemma existsb_filter_other (l : list Webhook.row) (webhook_id k : string) :
  k <> webhook_id ->
  existsb (is_webhook k) l = true ->
  existsb (is_webhook k) (filter (fun w => negb (is_webhook webhook_id w)) l) = true.
Proof.
  intros Hne Hk. apply existsb_exists in Hk. destruct Hk as [w [Hin Hw]].
  apply existsb_exists. exists w. split; [|exact Hw].
  apply filter_In. split; [exact Hin|].
  unfold is_webhook in *. apply String.eqb_eq in Hw.
  apply negb_true_iff, String.eqb_neq. congruence.
Qed.

Lemma consistent_handle (file : Database) (r : request) :
  consistent file -> consistent (handle file r).
Proof.
  intros Hc. destruct r as [uuid4 now host_url|now later webhook_id body|webhook_id].
  - rewrite generate_webhook_file.
    destruct (has_webhook file uuid4) eqn:Hhas; [exact Hc|].
    destruct Hc as (Hcount & Hp & Hf).
    unfold consistent, DbManager.payloads_of, DbManager.failures_of, has_webhook in *.
    cbn [webhooks webhook_payloads webhook_failures].
    split; [|split].
    + intros w Hin. apply in_app_or in Hin. destruct Hin as [Hin|[<-|[]]]; [auto|].
      cbn [Webhook.id Webhook.success_count Webhook.failure_count].
      rewrite !filter_none; [split; reflexivity| |].
      * intros f Hin. unfold failure_of.
        destruct (String.eqb_spec (WebhookFailure.webhook_id f) uuid4) as [He|]; [|reflexivity].
        specialize (Hf f Hin). rewrite He in Hf. congruence.
      * intros p Hin. unfold payload_of.
        destruct (String.eqb_spec (WebhookPayload.webhook_id p) uuid4) as [He|]; [|reflexivity].
        specialize (Hp p Hin). rewrite He in Hp. congruence.
    + intros p Hin. apply has_webhook_app. auto.
    + intros f Hin. apply has_webhook_app. auto.
  - rewrite ingest_file.
    destruct (has_webhook file webhook_id) eqn:Hhas; [|exact Hc].
    destruct (loads body).
    + now apply consistent_after_success.
    + now apply consistent_after_failure.
  - rewrite delete_webhook_file.
    destruct (has_webhook file webhook_id) eqn:Hhas; [|exact Hc].
    destruct Hc as (Hcount & Hp & Hf).
    unfold consistent, DbManager.payloads_of, DbManager.failures_of, has_webhook in *.
    cbn [webhooks webhook_payloads webhook_failures].
    split; [|split].
    + intros w Hin. apply filter_In in Hin. destruct Hin as [Hin Hw].
      apply negb_true_iff in Hw. unfold is_webhook in Hw. apply String.eqb_neq in Hw.
      rewrite !filter_filter_neg; [auto| |].
      * intros f. unfold failure_of. apply eqb_other. exact Hw.
      * intros p. unfold payload_of. apply eqb_other. exact Hw.
    + intros p Hin. apply filter_In in Hin. destruct Hin as [Hin Hw].
      apply existsb_filter_other; [|auto].
      apply negb_true_iff in Hw. unfold payload_of in Hw. now apply String.eqb_neq in Hw.
    + intros f Hin. apply filter_In in Hin. destruct Hin as [Hin Hw].
      apply existsb_filter_other; [|auto].
      apply negb_true_iff in Hw. unfold failure_of in Hw. now apply String.eqb_neq in Hw.
Qed.

Lemma consistent_fold (requests : list request) :
  forall file, consistent file -> consistent (fold_left handle requests file).
Proof.
  induction requests as [|r requests IH]; intros file Hc; simpl; [exact Hc|].
  apply IH, consistent_handle, Hc.
Qed.

(** Whatever the requests, the file they leave is consistent. *)
Lemma run_consistent (requests : list request) : consistent (run requests).
Proof. apply consistent_fold, consistent_empty. Qed.

Lemma ingest_all_counts (webhook_id : string) (items : list (Clock.datetime * json)) :
  forall (file : Database) (w : Webhook.row),
    find (is_webhook webhook_id) (webhooks file) = Some w ->
    exists (file' : Database) (w' : Webhook.row),
      ingest_all webhook_id items file = Some file' /\
      find (is_webhook webhook_id) (webhooks file') = Some w' /\
      Webhook.success_count w' = Webhook.success_count w + Z.of_nat (List.length items) /\
      List.length (DbManager.payloads_of webhook_id file') =
        (List.length (DbManager.payloads_of webhook_id file) + List.length items)%nat.
Proof.
  induction items as [|[now data] items IH]; intros file w Hfind.
  - exists file, w. simpl. repeat split; try assumption; lia.
  - cbn [ingest_all].
    rewrite record_successful_payload_existing
      by exact (find_has_webhook _ _ _ Hfind).
    cbn [App.close_db App.get_db committed current].
    set (file1 := after_success file (Clock.isoformat now) webhook_id (dumps data)).
    assert (Hfind1 : find (is_webhook webhook_id) (webhooks file1) =
              Some (Webhook.mk (Webhook.id w) (Webhook.url w) (Webhook.created_at w)
                      (Webhook.success_count w + 1) (Webhook.failure_count w)
                      (Some (Clock.isoformat now)))).
    { unfold file1, after_success. cbn [webhooks].
      apply (find_update
               (fun w => Webhook.mk (Webhook.id w) (Webhook.url w) (Webhook.created_at w)
                           (Webhook.success_count w + 1) (Webhook.failure_count w)
                           (Some (Clock.isoformat now))));
        [reflexivity|exact Hfind]. }
    destruct (IH file1 _ Hfind1) as (file' & w' & Hrun & Hfind' & Hs & Hlen).
    exists file', w'. split; [exact Hrun|]. split; [exact Hfind'|].
    cbn [Webhook.success_count] in Hs. split; [cbn [List.length]; lia|].
    rewrite Hlen. unfold file1, after_success, DbManager.payloads_of.
    cbn [webhook_payloads]. rewrite filter_app, length_app.
    cbn [filter].
    replace (payload_of webhook_id
               (WebhookPayload.mk (seq_payloads file + 1) webhook_id
                  (Clock.isoformat now) (dumps data))) with true
      by (symmetry; apply String.eqb_refl).
    cbn [List.length]. lia.
Qed.

(** C4. In every state that requests lead to from a new file, an
    endpoint's [success_count] is the number of rows of
    [webhook_payloads] that it owns.  From one where the count is 0, [N]
    calls of [record_successful_payload] for the endpoint all return and
    commit, and leave [success_count] = [N] and exactly [N] rows owned by
    the endpoint. *)
Theorem success_count_is_payload_count (requests : list request)
    (webhook_id : string) (w : Webhook.row) :
  find (is_webhook webhook_id) (webhooks (run requests)) = Some w ->
  Webhook.success_count w =
    Z.of_nat (List.length (DbManager.payloads_of webhook_id (run requests))) /\
  (Webhook.success_count w = 0 ->
   forall items : list (Clock.datetime * json),
   exists (file' : Database) (w' : Webhook.row),
     ingest_all webhook_id items (run requests) = Some file' /\
     find (is_webhook webhook_id) (webhooks file') = Some w' /\
     Webhook.success_count w' = Z.of_nat (List.length items) /\
     List.length (DbManager.payloads_of webhook_id file') = List.length items).
Proof.
  intro Hfind.
  destruct (run_consistent requests) as (Hcount & _ & _).
  pose proof (find_some _ _ Hfind) as [Hin Hid].
  apply String.eqb_eq in Hid.
  destruct (Hcount w Hin) as [Hs _]. rewrite Hid in Hs.
  split; [exact Hs|].
  intros Hzero items.
  destruct (ingest_all_counts webhook_id items _ _ Hfind)
    as (file' & w' & Hrun & Hfind' & Hs' & Hlen).
  exists file', w'. repeat split; try assumption; [lia|].
  rewrite Hlen. unfold Sqlite.count in Hs. lia.
Qed.

End Reachable.

(* ================================================================== *)
(** ** Digits, and SQLite reading what Python wrote *)
(* ================================================================== *)

Section Digits.

Lemma digit_cases (d : Z) :
  0 <= d <= 9 ->
  d = 0 \/ d = 1 \/ d = 2 \/ d = 3 \/ d = 4 \/ d = 5 \/ d = 6 \/ d = 7 \/ d = 8 \/ d = 9.
Proof. lia. Qed.

Ltac each_digit d H :=
  destruct (digit_cases d H) as [->|[->|[->|[->|[->|[->|[->|[->|[->| ->]]]]]]]]].

Lemma is_digit_digit_char (d : Z) : 0 <= d <= 9 -> Text.is_digit (Text.digit_char d) = true.
Proof. intro Hd. each_digit d Hd; reflexivity. Qed.

Lemma digit_value_digit_char (d : Z) :
  0 <= d <= 9 -> Text.digit_value (Text.digit_char d) = d.
Proof. intro Hd. each_digit d Hd; reflexivity. Qed.

Lemma skip_spaces_or_T_digit (d : Z) (s : string) :
  0 <= d <= 9 ->
  Sqlite.skip_spaces_or_T (String (Text.digit_char d) s) = String (Text.digit_char d) s.
Proof. intro Hd. each_digit d Hd; reflexivity. Qed.

Lemma append_assoc (a b c : string) : ((a ++ b) ++ c)%string = (a ++ (b ++ c))%string.
Proof. induction a as [|x a IH]; simpl; [reflexivity|]. now rewrite IH. Qed.

Lemma mod_mul_div (p n : Z) : 0 < p -> (n mod (10 * p)) / p = (n / p) mod 10.
Proof.
  intro Hp. rewrite (Z.mul_comm 10 p), Z.rem_mul_r by lia.
  rewrite (Z.mul_comm p), Z.div_add by lia.
  rewrite (Z.div_small (n mod p) p) by (apply Z.mod_pos_bound; lia). lia.
Qed.

Lemma mod_mul_mod (p n : Z) : 0 < p -> (n mod (10 * p)) mod p = n mod p.
Proof.
  intro Hp. rewrite (Z.mul_comm 10 p), Z.rem_mul_r by lia.
  rewrite (Z.mul_comm p), Z.mod_add by lia. apply Z.mod_mod. lia.
Qed.

Lemma zero_pad_mod (w : nat) (n : Z) :
  Text.zero_pad w n = Text.zero_pad w (n mod 10 ^ Z.of_nat w).
Proof.
  revert n. induction w as [|w IH]; intro n; [reflexivity|].
  assert (Hp : 0 < 10 ^ Z.of_nat w) by (apply Z.pow_pos_nonneg; lia).
  cbn [Text.zero_pad]. rewrite Nat2Z.inj_succ, Z.pow_succ_r by lia. f_equal.
  - f_equal. rewrite mod_mul_div by lia. now rewrite Z.mod_mod by lia.
  - rewrite (IH n), (IH (n mod (10 * 10 ^ Z.of_nat w))).
    now rewrite mod_mul_mod by lia.
Qed.

(** Reading back [w] digits that were written with [zero_pad]. *)
Lemma get_digits_zero_pad (w : nat) :
  forall (n acc : Z) (rest : string),
    0 <= n < 10 ^ Z.of_nat w ->
    Text.get_digits w acc (Text.zero_pad w n ++ rest) =
      Some (acc * 10 ^ Z.of_nat w + n, rest).
Proof.
  induction w as [|w IH]; intros n acc rest Hn.
  - cbn in *. do 2 f_equal. lia.
  - cbn [Text.zero_pad Text.get_digits append].
    assert (Hp : 0 < 10 ^ Z.of_nat w) by (apply Z.pow_pos_nonneg; lia).
    rewrite Nat2Z.inj_succ, Z.pow_succ_r in * by lia.
    assert (Hq : 0 <= n / 10 ^ Z.of_nat w < 10).
    { split; [apply Z.div_pos; lia|apply Z.div_lt_upper_bound; lia]. }
    rewrite (Z.mod_small (n / _)) by lia.
    rewrite is_digit_digit_char, digit_value_digit_char by lia.
    rewrite zero_pad_mod, IH by (apply Z.mod_pos_bound; lia).
    do 2 f_equal.
    pose proof (Z.div_mod n (10 ^ Z.of_nat w) ltac:(lia)). nia.
Qed.

Lemma skip_digits_zero_pad (w : nat) (n : Z) (c : ascii) (rest : string) :
  Text.is_digit c = false ->
  Text.skip_digits (Text.zero_pad w n ++ String c rest) = (w, String c rest).
Proof.
  intro Hc. induction w as [|w IH].
  - cbn. now rewrite Hc.
  - cbn [Text.zero_pad append Text.skip_digits].
    rewrite is_digit_digit_char
      by (pose proof (Z.mod_pos_bound (n / 10 ^ Z.of_nat w) 10 ltac:(lia)); lia).
    rewrite IH. reflexivity.
Qed.

Lemma zero_pad_head (w : nat) (n : Z) (rest : string) :
  exists d s, 0 <= d <= 9 /\
    (Text.zero_pad (S w) n ++ rest)%string = String (Text.digit_char d) s.
Proof.
  eexists _, _. split; [|reflexivity].
  pose proof (Z.mod_pos_bound (n / 10 ^ Z.of_nat w) 10 ltac:(lia)). lia.
Qed.

Lemma days_in_month_le_31 (y m : Z) : Clock.days_in_month y m <= 31.
Proof.
  unfold Clock.days_in_month.
  repeat match goal with |- context [if ?b then _ else _] => destruct b end; lia.
Qed.

(** The date at the head of a timestamp that [isoformat] wrote is read back
    as the three numbers it was written from. *)
Lemma parse_ymd_format_date (y m d : Z) (rest : string) :
  0 <= y <= 9999 -> 1 <= m <= 12 -> 1 <= d <= 31 ->
  Sqlite.parse_ymd (Clock.format_date y m d ++ rest) = Some (y, m, d, rest).
Proof.
  intros Hy Hm Hd. unfold Sqlite.parse_ymd, Clock.format_date.
  rewrite !append_assoc.
  rewrite get_digits_zero_pad by (cbn; lia).
  cbn [append Text.expect Ascii.eqb Bool.eqb].
  rewrite get_digits_zero_pad by (cbn; lia).
  cbn [append Text.expect Ascii.eqb Bool.eqb].
  rewrite get_digits_zero_pad by (cbn; lia).
  unfold Sqlite.in_range.
  replace (0 * 10 ^ Z.of_nat 4 + y) with y by lia.
  replace (0 * 10 ^ Z.of_nat 2 + m) with m by lia.
  replace (0 * 10 ^ Z.of_nat 2 + d) with d by lia.
  destruct Hy, Hm, Hd.
  repeat match goal with
         | |- context [?a <=? ?b] =>
             let E := fresh in
             destruct (Z.leb_spec a b) as [E|E]; [clear E|lia]
         end.
  reflexivity.
Qed.

Lemma parse_hms_format_time (h mi s us : Z) :
  0 <= h < 24 -> 0 <= mi < 60 -> 0 <= s < 60 -> 0 <= us < 1000000 ->
  Sqlite.parse_hms
    (Clock.format_time h mi s ++
     (if us =? 0 then "" else "." ++ Text.zero_pad 6 us) ++ "+00:00") = Some 0.
Proof.
  intros Hh Hmi Hs Hus. unfold Sqlite.parse_hms, Clock.format_time.
  rewrite !append_assoc.
  rewrite get_digits_zero_pad by (cbn; lia).
  cbn [append Text.expect Ascii.eqb Bool.eqb].
  rewrite get_digits_zero_pad by (cbn; lia).
  unfold Sqlite.in_range.
  replace (0 * 10 ^ Z.of_nat 2 + h) with h by lia.
  replace (0 * 10 ^ Z.of_nat 2 + mi) with mi by lia.
  destruct (Z.leb_spec 0 h); [|lia]. destruct (Z.leb_spec h 24); [|lia].
  destruct (Z.leb_spec 0 mi); [|lia]. destruct (Z.leb_spec mi 59); [|lia].
  cbn [andb Text.expect Ascii.eqb Bool.eqb].
  rewrite get_digits_zero_pad by (cbn; lia).
  replace (0 * 10 ^ Z.of_nat 2 + s) with s by lia.
  destruct (Z.leb_spec 0 s); [|lia]. destruct (Z.leb_spec s 59); [|lia].
  cbn [andb].
  destruct (us =? 0).
  - reflexivity.
  - cbn [append]. rewrite skip_digits_zero_pad by reflexivity. reflexivity.
Qed.

(** [date(X)] of a timestamp written by [isoformat] is the calendar date of
    the reading. *)
Lemma date_isoformat (t : Clock.datetime) :
  Clock.valid t ->
  Sqlite.date (Clock.isoformat t) =
    Some (Clock.format_date (Clock.year t) (Clock.month t) (Clock.day t)).
Proof.
  intros (Hy & Hm & Hd & Hh & Hmi & Hs & Hus).
  pose proof (days_in_month_le_31 (Clock.year t) (Clock.month t)).
  unfold Sqlite.date, Clock.isoformat.
  rewrite parse_ymd_format_date by lia.
  set (X := (Clock.format_time (Clock.hour t) (Clock.minute t) (Clock.second t) ++
             (if (Clock.microsecond t =? 0)%Z then ""
              else "." ++ Text.zero_pad 6 (Clock.microsecond t)) ++ "+00:00")%string).
  assert (HX : exists d s, 0 <= d <= 9 /\ X = String (Text.digit_char d) s).
  { unfold X, Clock.format_time. cbn [Text.zero_pad append].
    eexists _, _. split; [|reflexivity].
    pose proof (Z.mod_pos_bound (Clock.hour t / 10 ^ Z.of_nat 1) 10 ltac:(lia)). lia. }
  destruct HX as (d & s & Hd9 & HX).
  change ("T" ++ X)%string with (String "T" X).
  change (Sqlite.skip_spaces_or_T (String "T" X)) with (Sqlite.skip_spaces_or_T X).
  rewrite HX, skip_spaces_or_T_digit by exact Hd9.
  rewrite <- HX. unfold X. now rewrite parse_hms_format_time.
Qed.

End Digits.

(* ================================================================== *)
(** ** The order of TEXT values *)
(* ================================================================== *)

Section TextOrder.

Lemma ascii_compare_eq (a b : ascii) : Ascii.compare a b = Eq <-> a = b.
Proof.
  split; [apply Ascii.compare_eq_iff|].
  intros ->. unfold Ascii.compare. apply N.compare_refl.
Qed.

Lemma ascii_compare_lt_trans (a b c : ascii) :
  Ascii.compare a b = Lt -> Ascii.compare b c = Lt -> Ascii.compare a c = Lt.
Proof.
  unfold Ascii.compare. rewrite !N.compare_lt_iff. apply N.lt_trans.
Qed.

Lemma compare_refl (s : string) : String.compare s s = Eq.
Proof.
  induction s as [|c s IH]; simpl; [reflexivity|].
  now rewrite (proj2 (ascii_compare_eq c c) eq_refl).
Qed.

Lemma leb_refl (s : string) : String.leb s s = true.
Proof. unfold String.leb. now rewrite compare_refl. Qed.

Lemma leb_trans (a b c : string) :
  String.leb a b = true -> String.leb b c = true -> String.leb a c = true.
Proof.
  unfold String.leb. revert b c.
  induction a as [|x a IH]; intros [|y b] [|z c]; simpl; try congruence.
  destruct (Ascii.compare x y) eqn:Hxy; try discriminate;
    destruct (Ascii.compare y z) eqn:Hyz; try discriminate.
  - apply ascii_compare_eq in Hxy, Hyz. subst.
    rewrite (proj2 (ascii_compare_eq z z) eq_refl). apply IH.
  - apply ascii_compare_eq in Hxy. subst. now rewrite Hyz.
  - apply ascii_compare_eq in Hyz. subst. now rewrite Hxy.
  - now rewrite (ascii_compare_lt_trans _ _ _ Hxy Hyz).
Qed.

Lemma leb_false_flip (a b : string) : String.leb a b = false -> String.leb b a = true.
Proof.
  intro Hab. destruct (String.leb_total a b) as [H1|H1]; congruence.
Qed.

End TextOrder.

(* ================================================================== *)
(** ** GROUP BY with COUNT *)
(* ================================================================== *)

Section Grouping.

Lemma occurrences_cons (k x : string) (keys : list string) :
  occurrences k (x :: keys) =
    (if String.eqb k x then 1 else 0) + occurrences k keys.
Proof.
  unfold occurrences, Sqlite.count. simpl.
  destruct (String.eqb k x); cbn [List.length]; lia.
Qed.

Lemma occurrences_absent (k : string) (keys : list string) :
  ~ In k keys -> occurrences k keys = 0.
Proof.
  intro Hnot. unfold occurrences, Sqlite.count.
  rewrite filter_none; [reflexivity|].
  intros x Hin. apply String.eqb_neq. intros ->. contradiction.
Qed.

Lemma occurrences_present (k : string) (keys : list string) :
  In k keys -> 1 <= occurrences k keys.
Proof.
  induction keys as [|x keys IH]; intros []; rewrite occurrences_cons.
  - subst. rewrite String.eqb_refl. unfold occurrences, Sqlite.count. lia.
  - specialize (IH H). destruct (String.eqb k x); lia.
Qed.

Lemma occurrences_perm (k : string) (l l' : list string) :
  Permutation l l' -> occurrences k l = occurrences k l'.
Proof.
  induction 1; rewrite ?occurrences_cons; lia.
Qed.

(** What GROUP BY returns on keys in ascending order. *)
Lemma group_count_sorted (keys : list string) :
  StronglySorted (fun a b => String.leb a b = true) keys ->
  (forall k, In k keys <-> In k (map fst (Sqlite.group_count keys))) /\
  (forall k n, In (k, n) (Sqlite.group_count keys) -> n = occurrences k keys) /\
  StronglySorted text_lt (map fst (Sqlite.group_count keys)) /\
  (forall k n groups, Sqlite.group_count keys = (k, n) :: groups ->
     exists keys', keys = k :: keys').
Proof.
  induction 1 as [|k keys Hs IH Hall].
  - cbn. repeat split; try constructor; try contradiction; discriminate.
  - destruct IH as (Hin & Hcount & Hstrict & Hhead).
    cbn [Sqlite.group_count].
    destruct (Sqlite.group_count keys) as [|[k' n'] groups] eqn:Hg.
    + assert (Hnil : keys = []).
      { destruct keys as [|x keys']; [reflexivity|].
        destruct (proj1 (Hin x) (or_introl eq_refl)). }
      subst keys. cbn. repeat split.
      * intros [->|[]]; now left.
      * intros [->|[]]; now left.
      * intros k0 n0 [[= <- <-]|[]]. rewrite occurrences_cons, String.eqb_refl.
        reflexivity.
      * repeat constructor.
      * intros k0 n0 groups0 [= <- _ _]. now exists [].
    + destruct (Hhead k' n' groups eq_refl) as [keys' Hkeys].
      assert (Hk' : String.leb k k' = true).
      { rewrite Forall_forall in Hall. apply Hall. rewrite Hkeys. now left. }
      assert (Hlow : forall x, In x keys -> String.leb k' x = true).
      { intros x Hx. rewrite Hkeys in Hx, Hs. destruct Hx as [<-|Hx].
        - apply leb_refl.
        - apply StronglySorted_inv in Hs. destruct Hs as [_ Hs].
          rewrite Forall_forall in Hs. now apply Hs. }
      destruct (String.eqb_spec k k') as [<-|Hne].
      * repeat split.
        -- intros [<-|Hx]; [now left|].
           apply Hin in Hx. cbn in Hx |- *. exact Hx.
        -- intros Hx. cbn in Hx. destruct Hx as [<-|Hx]; [now left|].
           right. apply Hin. cbn. now right.
        -- intros k0 n0 [[= <- <-]|Hx].
           ++ rewrite occurrences_cons, String.eqb_refl.
              rewrite (Hcount k n') by now left. lia.
           ++ rewrite occurrences_cons.
              assert (Hk0 : k0 <> k).
              { cbn in Hstrict. apply StronglySorted_inv in Hstrict.
                destruct Hstrict as [_ Hst]. rewrite Forall_forall in Hst.
                intros ->. apply (in_map fst) in Hx. cbn in Hx.
                destruct (Hst k Hx) as [_ Hneq]. now apply Hneq. }
              apply String.eqb_neq in Hk0. rewrite Hk0.
              rewrite (Hcount k0 n0) by now right. lia.
        -- exact Hstrict.
        -- intros k0 n0 groups0 [= <- _ _]. now exists keys.
      * assert (Hfresh : ~ In k keys).
        { intro Hx. apply Hne. apply String.leb_antisym; [exact Hk'|]. now apply Hlow. }
        repeat split.
        -- intros [<-|Hx]; [now left|]. right. now apply Hin.
        -- intros [<-|Hx]; [now left|]. right. now apply Hin.
        -- intros k0 n0 [[= <- <-]|Hx].
           ++ rewrite occurrences_cons, String.eqb_refl, occurrences_absent by exact Hfresh.
              reflexivity.
           ++ rewrite occurrences_cons.
              assert (Hk0 : k0 <> k).
              { intros ->. apply Hfresh, Hin. apply (in_map fst) in Hx. exact Hx. }
              apply String.eqb_neq in Hk0. rewrite Hk0.
              rewrite (Hcount k0 n0) by exact Hx. lia.
        -- cbn [map fst]. constructor; [exact Hstrict|].
           rewrite Forall_forall. intros x Hx.
           assert (Hxk : In x keys) by now apply Hin.
           split.
           ++ rewrite Forall_forall in Hall. now apply Hall.
           ++ intros <-. contradiction.
        -- intros k0 n0 groups0 [= <- _ _]. now exists keys.
Qed.

End Grouping.

(* ================================================================== *)
(** ** Text order of what [isoformat] writes is the order of time *)
(* ================================================================== *)

Section Chronology.

Lemma ascii_compare_digit (d e : Z) :
  0 <= d <= 9 -> 0 <= e <= 9 ->
  Ascii.compare (Text.digit_char d) (Text.digit_char e) = (d ?= e).
Proof.
  intros Hd He.
  destruct (digit_cases d Hd) as [->|[->|[->|[->|[->|[->|[->|[->|[->| ->]]]]]]]]];
  destruct (digit_cases e He) as [->|[->|[->|[->|[->|[->|[->|[->|[->| ->]]]]]]]]];
  reflexivity.
Qed.

(** Two numbers written with the same width compare as texts the way they
    compare as numbers; where they are equal, what follows decides. *)
Lemma compare_zero_pad (w : nat) :
  forall (x y : Z) (s t : string),
    0 <= x < 10 ^ Z.of_nat w -> 0 <= y < 10 ^ Z.of_nat w ->
    String.compare (Text.zero_pad w x ++ s) (Text.zero_pad w y ++ t) =
      match x ?= y with
      | Eq => String.compare s t
      | r => r
      end.
Proof.
  induction w as [|w IH]; intros x y s t Hx Hy.
  - cbn in Hx, Hy. assert (x = 0) by lia. assert (y = 0) by lia. subst. reflexivity.
  - assert (Hp : 0 < 10 ^ Z.of_nat w) by (apply Z.pow_pos_nonneg; lia).
    rewrite Nat2Z.inj_succ, Z.pow_succ_r in Hx, Hy by lia.
    cbn [Text.zero_pad append String.compare].
    set (p := 10 ^ Z.of_nat w) in *.
    assert (Hdx : 0 <= x / p < 10)
      by (split; [apply Z.div_pos; lia|apply Z.div_lt_upper_bound; lia]).
    assert (Hdy : 0 <= y / p < 10)
      by (split; [apply Z.div_pos; lia|apply Z.div_lt_upper_bound; lia]).
    rewrite !Z.mod_small by lia.
    rewrite ascii_compare_digit by lia.
    rewrite (zero_pad_mod w x), (zero_pad_mod w y).
    fold p. rewrite IH by (apply Z.mod_pos_bound; lia).
    pose proof (Z.div_mod x p ltac:(lia)) as Ex.
    pose proof (Z.div_mod y p ltac:(lia)) as Ey.
    pose proof (Z.mod_pos_bound x p Hp) as Bx.
    pose proof (Z.mod_pos_bound y p Hp) as By.
    destruct (Z.compare_spec (x / p) (y / p)) as [Hq|Hq|Hq].
    + destruct (Z.compare_spec (x mod p) (y mod p)) as [Hr|Hr|Hr];
        destruct (Z.compare_spec x y) as [Hc|Hc|Hc]; try reflexivity; exfalso; nia.
    + destruct (Z.compare_spec x y) as [Hc|Hc|Hc]; try reflexivity; exfalso; nia.
    + destruct (Z.compare_spec x y) as [Hc|Hc|Hc]; try reflexivity; exfalso; nia.
Qed.

Lemma append_empty_r (s : string) : (s ++ "")%string = s.
Proof. induction s as [|c s IH]; cbn; [reflexivity|now rewrite IH]. Qed.

Lemma compare_zero_pad_end (w : nat) (x y : Z) :
  0 <= x < 10 ^ Z.of_nat w -> 0 <= y < 10 ^ Z.of_nat w ->
  String.compare (Text.zero_pad w x) (Text.zero_pad w y) = (x ?= y).
Proof.
  intros Hx Hy.
  rewrite <- (append_empty_r (Text.zero_pad w x)), <- (append_empty_r (Text.zero_pad w y)).
  rewrite compare_zero_pad by assumption. destruct (x ?= y); reflexivity.
Qed.

Lemma lex_le_compare (a b : list Z) :
  Clock.lex_le a b = match lex_compare a b with Gt => false | _ => true end.
Proof.
  revert b. induction a as [|x a IH]; intros [|y b]; cbn; try reflexivity.
  rewrite IH.
  destruct (Z.compare_spec x y) as [Hc|Hc|Hc].
  - subst. rewrite Z.ltb_irrefl, Z.eqb_refl. reflexivity.
  - apply Z.ltb_lt in Hc. now rewrite Hc.
  - destruct (Z.ltb_spec x y); [lia|]. destruct (Z.eqb_spec x y); [lia|]. reflexivity.
Qed.

Lemma compare_fraction (u v : Z) :
  0 <= u < 1000000 -> 0 <= v < 1000000 ->
  String.compare
    ((if u =? 0 then "" else "." ++ Text.zero_pad 6 u) ++ "+00:00")
    ((if v =? 0 then "" else "." ++ Text.zero_pad 6 v) ++ "+00:00") = (u ?= v).
Proof.
  intros Hu Hv.
  destruct (Z.eqb_spec u 0) as [->|Hu0]; destruct (Z.eqb_spec v 0) as [->|Hv0].
  - reflexivity.
  - cbn [append String.compare]. destruct (Z.compare_spec 0 v); [lia|reflexivity|lia].
  - cbn [append String.compare]. destruct (Z.compare_spec u 0); [lia|lia|reflexivity].
  - cbn [append String.compare].
    change (Ascii.compare "." ".") with Eq. cbv iota.
    rewrite compare_zero_pad by (cbn; lia).
    destruct (u ?= v); reflexivity.
Qed.

Lemma compare_isoformat (a b : Clock.datetime) :
  Clock.valid a -> Clock.valid b ->
  String.compare (Clock.isoformat a) (Clock.isoformat b) =
    lex_compare (Clock.fields a) (Clock.fields b).
Proof.
  intros (Hy & Hm & Hd & Hh & Hmi & Hs & Hus) (Hy' & Hm' & Hd' & Hh' & Hmi' & Hs' & Hus').
  pose proof (days_in_month_le_31 (Clock.year a) (Clock.month a)).
  pose proof (days_in_month_le_31 (Clock.year b) (Clock.month b)).
  unfold Clock.isoformat, Clock.format_date, Clock.format_time, Clock.fields.
  cbn [lex_compare].
  rewrite !append_assoc.
  rewrite compare_zero_pad by (cbn; lia).
  destruct (Clock.year a ?= Clock.year b); try reflexivity.
  cbn [append String.compare]. change (Ascii.compare "-" "-") with Eq. cbv iota.
  rewrite compare_zero_pad by (cbn; lia).
  destruct (Clock.month a ?= Clock.month b); try reflexivity.
  cbn [append String.compare]. change (Ascii.compare "-" "-") with Eq. cbv iota.
  rewrite compare_zero_pad by (cbn; lia).
  destruct (Clock.day a ?= Clock.day b); try reflexivity.
  cbn [append String.compare]. change (Ascii.compare "T" "T") with Eq. cbv iota.
  rewrite compare_zero_pad by (cbn; lia).
  destruct (Clock.hour a ?= Clock.hour b); try reflexivity.
  cbn [append String.compare]. change (Ascii.compare ":" ":") with Eq. cbv iota.
  rewrite compare_zero_pad by (cbn; lia).
  destruct (Clock.minute a ?= Clock.minute b); try reflexivity.
  cbn [append String.compare]. change (Ascii.compare ":" ":") with Eq. cbv iota.
  rewrite compare_zero_pad by (cbn; lia).
  destruct (Clock.second a ?= Clock.second b); try reflexivity.
  rewrite compare_fraction by lia.
  destruct (Clock.microsecond a ?= Clock.microsecond b); reflexivity.
Qed.

(** Among timestamps written by [isoformat], the text order that ORDER BY
    uses is the order of the readings. *)
Lemma leb_isoformat (a b : Clock.datetime) :
  Clock.valid a -> Clock.valid b ->
  String.leb (Clock.isoformat a) (Clock.isoformat b) = Clock.le a b.
Proof.
  intros Ha Hb. unfold String.leb, Clock.le.
  now rewrite compare_isoformat, lex_le_compare.
Qed.

(** Likewise for calendar dates written as ["YYYY-MM-DD"]. *)
Lemma leb_format_date (y m d y' m' d' : Z) :
  0 <= y <= 9999 -> 0 <= m <= 99 -> 0 <= d <= 99 ->
  0 <= y' <= 9999 -> 0 <= m' <= 99 -> 0 <= d' <= 99 ->
  String.leb (Clock.format_date y m d) (Clock.format_date y' m' d') =
    Clock.lex_le [y; m; d] [y'; m'; d'].
Proof.
  intros Hy Hm Hd Hy' Hm' Hd'.
  rewrite lex_le_compare. unfold String.leb, Clock.format_date. cbn [lex_compare].
  rewrite compare_zero_pad by (cbn; lia).
  destruct (y ?= y'); try reflexivity.
  cbn [append String.compare]. change (Ascii.compare "-" "-") with Eq. cbv iota.
  rewrite compare_zero_pad by (cbn; lia).
  destruct (m ?= m'); try reflexivity.
  cbn [append String.compare]. change (Ascii.compare "-" "-") with Eq. cbv iota.
  rewrite compare_zero_pad_end by (cbn; lia).
  destruct (d ?= d'); reflexivity.
Qed.

Lemma compare_format_date (y m d y' m' d' : Z) :
  0 <= y <= 9999 -> 0 <= m <= 99 -> 0 <= d <= 99 ->
  0 <= y' <= 9999 -> 0 <= m' <= 99 -> 0 <= d' <= 99 ->
  String.compare (Clock.format_date y m d) (Clock.format_date y' m' d') =
    lex_compare [y; m; d] [y'; m'; d'].
Proof.
  intros Hy Hm Hd Hy' Hm' Hd'. unfold Clock.format_date. cbn [lex_compare].
  rewrite compare_zero_pad by (cbn; lia).
  destruct (y ?= y'); try reflexivity.
  cbn [append String.compare]. change (Ascii.compare "-" "-") with Eq. cbv iota.
  rewrite compare_zero_pad by (cbn; lia).
  destruct (m ?= m'); try reflexivity.
  cbn [append String.compare]. change (Ascii.compare "-" "-") with Eq. cbv iota.
  rewrite compare_zero_pad_end by (cbn; lia).
  destruct (d ?= d'); reflexivity.
Qed.

(** Two valid readings whose dates, as texts, are in strict order fall on
    calendar days in that order. *)
Lemma text_lt_day_before (x y : Clock.datetime) :
  Clock.valid x -> Clock.valid y ->
  text_lt (date_of x) (date_of y) -> day_before x y.
Proof.
  intros (Hy & Hm & Hd & _) (Hy' & Hm' & Hd' & _) [Hle Hne].
  pose proof (days_in_month_le_31 (Clock.year x) (Clock.month x)).
  pose proof (days_in_month_le_31 (Clock.year y) (Clock.month y)).
  unfold day_before. rewrite <- compare_format_date by lia.
  fold (date_of x) (date_of y). unfold String.leb in Hle.
  destruct (String.compare (date_of x) (date_of y)) eqn:Hc; [|reflexivity|discriminate].
  apply String.compare_eq_iff in Hc. contradiction.
Qed.

Lemma StronglySorted_weaken {A} (R R' : A -> A -> Prop) (l : list A) :
  (forall a b, R a b -> R' a b) -> StronglySorted R l -> StronglySorted R' l.
Proof.
  intros Himp. induction 1 as [|a l Hs IH Hall]; constructor; [exact IH|].
  eapply Forall_impl; [|exact Hall]. intros b. apply Himp.
Qed.

End Chronology.

(* ================================================================== *)
(** ** The aggregation queries *)
(* ================================================================== *)

Section Aggregation.

Lemma window_keys (now : Clock.datetime) (days : Z) (times : list Clock.datetime) :
  Forall Clock.valid times ->
  flat_map
    (fun v : option string =>
       match v with
       | Some s =>
           match Sqlite.date s, Sqlite.date_now_minus_days now days with
           | Some d, Some c => if Text.text_ge d c then [d] else []
           | _, _ => []
           end
       | None => []
       end)
    (map (fun x => Some (Clock.isoformat x)) times) =
  filter (within_days now days) (map date_of times).
Proof.
  induction 1 as [|x times Hx _ IH]; [reflexivity|].
  cbn [map flat_map filter]. rewrite IH, (date_isoformat x Hx).
  unfold within_days, date_of.
  destruct (Sqlite.date_now_minus_days now days) as [c|]; [|reflexivity].
  destruct (Text.text_ge _ c); reflexivity.
Qed.

Lemma filter_eqb_window (W : string -> bool) (d : string) (l : list string) :
  W d = true -> filter (String.eqb d) (filter W l) = filter (String.eqb d) l.
Proof.
  intro HW. induction l as [|x l IH]; [reflexivity|]. cbn [filter].
  destruct (W x) eqn:HWx; cbn [filter]; rewrite IH; [reflexivity|].
  destruct (String.eqb_spec d x) as [->|_]; [congruence|reflexivity].
Qed.

Lemma filter_map_length {A B} (f : A -> B) (p : B -> bool) (l : list A) :
  List.length (filter p (map f l)) = List.length (filter (fun x => p (f x)) l).
Proof.
  induction l as [|x l IH]; [reflexivity|]. cbn [map filter].
  destruct (p (f x)); cbn [List.length]; now rewrite IH.
Qed.

End Aggregation.

(* ================================================================== *)
(** ** What [get_stats_today] counts *)
(* ================================================================== *)

Section StatsToday.

Lemma civil_from_days_range (z : Z) :
  - 719528 <= z <= 2932896 ->
  let '(y, m, d) := Clock.civil_from_days z in
  0 <= y <= 9999 /\ 1 <= m <= 12 /\ 1 <= d <= 31.
Proof.
  intro Hz. unfold Clock.civil_from_days. cbv zeta.
  repeat match goal with
         | |- context [?a <? ?b] => destruct (Z.ltb_spec a b)
         | |- context [?a <=? ?b] => destruct (Z.leb_spec a b)
         end;
    Z.div_mod_to_equations; lia.
Qed.

Lemma days_from_civil_range (y m d : Z) :
  1 <= y <= 9999 -> 1 <= m <= 12 -> 1 <= d <= 31 ->
  - 719162 <= Clock.days_from_civil y m d <= 2932896.
Proof.
  intros Hy Hm Hd. unfold Clock.days_from_civil. cbv zeta.
  destruct (Z.leb_spec m 2); Z.div_mod_to_equations; lia.
Qed.

(** A stored timestamp against the cutoff of [get_stats_today]: the dates
    decide, and on the cutoff's date the ["T"] after the date sorts after
    the blank of the cutoff, whatever the times of day. *)
Lemma text_ge_cutoff (x : Clock.datetime) (y m d h mi s : Z) :
  Clock.valid x -> 0 <= y <= 9999 -> 1 <= m <= 12 -> 1 <= d <= 31 ->
  Text.text_ge (Clock.isoformat x)
    (Clock.format_date y m d ++ " " ++ Clock.format_time h mi s) =
  Clock.lex_le [y; m; d] [Clock.year x; Clock.month x; Clock.day x].
Proof.
  intros (Hy & Hm & Hd & _) Hy' Hm' Hd'.
  pose proof (days_in_month_le_31 (Clock.year x) (Clock.month x)).
  rewrite lex_le_compare. unfold Text.text_ge, String.leb, Clock.isoformat, Clock.format_date.
  cbn [lex_compare]. rewrite !append_assoc.
  rewrite compare_zero_pad by (cbn; lia).
  destruct (y ?= Clock.year x); try reflexivity.
  cbn [append String.compare]. change (Ascii.compare "-" "-") with Eq. cbv iota.
  rewrite compare_zero_pad by (cbn; lia).
  destruct (m ?= Clock.month x); try reflexivity.
  cbn [append String.compare]. change (Ascii.compare "-" "-") with Eq. cbv iota.
  rewrite compare_zero_pad by (cbn; lia).
  destruct (d ?= Clock.day x); reflexivity.
Qed.

(** X24. What [get_stats_today] does: where the table holds what [isoformat]
    wrote for valid readings [times], it counts the rows whose calendar day
    is the day before today's or a later one, whatever their time of day. *)
Lemma stats_today_counts_by_day (c : Connection) (now : Clock.datetime) (t : table)
    (times : list Clock.datetime) :
  Clock.valid now -> Forall Clock.valid times ->
  Sql.column_values (current c) t c_timestamp =
    Some (map (fun x => Some (Clock.isoformat x)) times) ->
  DbManager.get_stats_today now t c =
    (Ok (Sqlite.count
           (filter (fun x => negb (before_yesterday now x)) times)), c).
Proof.
  intros (Hy & Hm & Hd & _) Hvalid Hcol.
  pose proof (days_in_month_le_31 (Clock.year now) (Clock.month now)).
  unfold DbManager.get_stats_today, bind, Sql.select_column, ret. rewrite Hcol.
  do 2 f_equal. unfold Sqlite.count. f_equal.
  unfold Sqlite.datetime_now_minus_24_hours, before_yesterday.
  pose proof (days_from_civil_range (Clock.year now) (Clock.month now) (Clock.day now)
                ltac:(lia) ltac:(lia) ltac:(lia)) as Hz.
  assert (Hz' : - 719528 <=
            Clock.days_from_civil (Clock.year now) (Clock.month now) (Clock.day now) - 1
            <= 2932896) by lia.
  pose proof (civil_from_days_range _ Hz') as Hrange.
  destruct (Clock.civil_from_days
              (Clock.days_from_civil (Clock.year now) (Clock.month now) (Clock.day now) - 1))
    as [[y m] d].
  destruct Hrange as (Hy' & Hm' & Hd').
  unfold Sqlite.format_signed_date. destruct (Z.ltb_spec y 0); [lia|].
  clear Hcol. induction Hvalid as [|x times Hx _ IH]; [reflexivity|].
  cbn [map filter]. rewrite (text_ge_cutoff x y m d) by assumption.
  rewrite negb_involutive.
  destruct (Clock.lex_le [y; m; d] [Clock.year x; Clock.month x; Clock.day x]);
    cbn [List.length negb]; rewrite IH; reflexivity.
Qed.

End StatsToday.

(* ================================================================== *)
(** ** Day numbers and the window of [get_daily_counts] *)
(* ================================================================== *)

Section Calendar.

Lemma month_cases (m : Z) :
  1 <= m <= 12 ->
  m = 1 \/ m = 2 \/ m = 3 \/ m = 4 \/ m = 5 \/ m = 6 \/ m = 7 \/ m = 8 \/ m = 9 \/
  m = 10 \/ m = 11 \/ m = 12.
Proof. lia. Qed.

Ltac each_month m H :=
  destruct (month_cases m H)
    as [->|[->|[->|[->|[->|[->|[->|[->|[->|[->|[->| ->]]]]]]]]]]].

(** The date of a day number has that day number. *)
Lemma days_from_civil_from_days (z : Z) :
  let '(y, m, d) := Clock.civil_from_days z in Clock.days_from_civil y m d = z.
Proof.
  unfold Clock.civil_from_days, Clock.days_from_civil. cbv zeta.
  repeat match goal with
         | |- context [?a <? ?b] => destruct (Z.ltb_spec a b)
         | |- context [?a <=? ?b] => destruct (Z.leb_spec a b)
         end;
    Z.div_mod_to_equations; lia.
Qed.

(** [civil_from_days] returns a date of the calendar. *)
Lemma civil_from_days_valid (z : Z) :
  let '(y, m, d) := Clock.civil_from_days z in
  1 <= m <= 12 /\ 1 <= d <= Clock.days_in_month y m.
Proof.
  unfold Clock.civil_from_days, Clock.days_in_month, Clock.is_leap. cbv zeta.
  repeat match goal with
         | |- context [?a <? ?b] => destruct (Z.ltb_spec a b)
         | |- context [?a <=? ?b] => destruct (Z.leb_spec a b)
         | |- context [?a =? ?b] => destruct (Z.eqb_spec a b)
         end; cbn [andb orb negb];
    Z.div_mod_to_equations; lia.
Qed.

(** A date lies between the first day of its year and the first day of
    the next. *)
Lemma days_from_civil_bounds (y m d : Z) :
  1 <= m <= 12 -> 1 <= d <= Clock.days_in_month y m ->
  Clock.days_from_civil y 1 1 <= Clock.days_from_civil y m d
    < Clock.days_from_civil (y + 1) 1 1.
Proof.
  intros Hm Hd. unfold Clock.days_in_month, Clock.is_leap in Hd.
  each_month m Hm;
    cbn in Hd; unfold Clock.days_from_civil; cbn -[Z.div Z.mul Z.add Z.sub Z.modulo];
    repeat match goal with
           | H : context [?a =? ?b] |- _ => destruct (Z.eqb_spec a b); cbn in H
           end;
    Z.div_mod_to_equations; lia.
Qed.

Lemma new_year_monotone (y y' : Z) :
  y <= y' -> Clock.days_from_civil y 1 1 <= Clock.days_from_civil y' 1 1.
Proof.
  intro Hy. unfold Clock.days_from_civil. cbn -[Z.div Z.mul Z.add Z.sub Z.modulo].
  Z.div_mod_to_equations. lia.
Qed.

Lemma days_from_civil_month (y m d m' d' : Z) :
  1 <= m <= 12 -> 1 <= m' <= 12 -> m < m' ->
  1 <= d <= Clock.days_in_month y m -> 1 <= d' ->
  Clock.days_from_civil y m d < Clock.days_from_civil y m' d'.
Proof.
  intros Hm Hm' Hlt Hd Hd'. unfold Clock.days_in_month, Clock.is_leap in Hd.
  each_month m Hm; each_month m' Hm'; try lia;
    cbn in Hd; unfold Clock.days_from_civil; cbn -[Z.div Z.mul Z.add Z.sub Z.modulo];
    repeat match goal with
           | H : context [?a =? ?b] |- _ => destruct (Z.eqb_spec a b); cbn in H
           end;
    Z.div_mod_to_equations; lia.
Qed.

(** Day numbers grow with the calendar. *)
Lemma days_from_civil_lt (y m d y' m' d' : Z) :
  1 <= m <= 12 -> 1 <= d <= Clock.days_in_month y m ->
  1 <= m' <= 12 -> 1 <= d' <= Clock.days_in_month y' m' ->
  lex_compare [y; m; d] [y'; m'; d'] = Lt ->
  Clock.days_from_civil y m d < Clock.days_from_civil y' m' d'.
Proof.
  intros Hm Hd Hm' Hd' Hlt. cbn [lex_compare] in Hlt.
  destruct (Z.compare_spec y y') as [<-|Hy|Hy]; [| |discriminate].
  - destruct (Z.compare_spec m m') as [<-|Hmm|Hmm]; [| |discriminate].
    + destruct (Z.compare_spec d d') as [Hdd|Hdd|Hdd]; try discriminate.
      unfold Clock.days_from_civil. cbv zeta. lia.
    + apply days_from_civil_month; lia.
  - pose proof (days_from_civil_bounds y m d Hm Hd).
    pose proof (days_from_civil_bounds y' m' d' Hm' Hd').
    pose proof (new_year_monotone (y + 1) y' ltac:(lia)). lia.
Qed.

Lemma lex_compare_dates (y m d y' m' d' : Z) :
  match lex_compare [y; m; d] [y'; m'; d'] with
  | Eq => y = y' /\ m = m' /\ d = d'
  | Lt => True
  | Gt => lex_compare [y'; m'; d'] [y; m; d] = Lt
  end.
Proof.
  cbn [lex_compare].
  destruct (Z.compare_spec y y') as [<-|Hy|Hy].
  - destruct (Z.compare_spec m m') as [<-|Hm|Hm].
    + destruct (Z.compare_spec d d') as [<-|Hd|Hd]; [auto|exact I|].
      rewrite !Z.compare_refl. now rewrite (proj2 (Z.compare_lt_iff d' d) Hd).
    + exact I.
    + rewrite Z.compare_refl. now rewrite (proj2 (Z.compare_lt_iff m' m) Hm).
  - exact I.
  - now rewrite (proj2 (Z.compare_lt_iff y' y) Hy).
Qed.

(** The calendar order of two dates is the order of their day numbers. *)
Lemma lex_le_day_number (z : Z) (x : Clock.datetime) :
  Clock.valid x ->
  (let '(y, m, d) := Clock.civil_from_days z in
   Clock.lex_le [y; m; d] [Clock.year x; Clock.month x; Clock.day x]) =
  (z <=? day_number x).
Proof.
  intros (_ & Hm & Hd & _).
  pose proof (days_from_civil_from_days z) as Hback.
  pose proof (civil_from_days_valid z) as Hvalid.
  destruct (Clock.civil_from_days z) as [[y m] d]. destruct Hvalid as [Hm' Hd'].
  rewrite lex_le_compare. unfold day_number.
  pose proof (lex_compare_dates y m d (Clock.year x) (Clock.month x) (Clock.day x)) as Hc.
  destruct (lex_compare [y; m; d] [Clock.year x; Clock.month x; Clock.day x]) eqn:Hcmp.
  - destruct Hc as (<- & <- & <-). symmetry. apply Z.leb_le. lia.
  - pose proof (days_from_civil_lt _ _ _ _ _ _ Hm' Hd' Hm Hd Hcmp).
    symmetry. apply Z.leb_le. lia.
  - pose proof (days_from_civil_lt _ _ _ _ _ _ Hm Hd Hm' Hd' Hc).
    symmetry. apply Z.leb_gt. lia.
Qed.

(** The cutoff of [get_daily_counts], in day numbers: a date is in the
    window when it lies at most [days] days before today's date. *)
Lemma within_days_day_number (now x : Clock.datetime) (days : Z) :
  Clock.valid now -> Clock.valid x ->
  0 <= days -> - 719528 <= day_number now - days ->
  within_days now days (date_of x) = (day_number now - days <=? day_number x).
Proof.
  intros Hnow Hx Hdays Hlow.
  pose proof Hnow as (Hy & Hm & Hd & Hh & Hmi & Hs & Hus).
  pose proof Hx as (Hy' & Hm' & Hd' & _).
  pose proof (days_in_month_le_31 (Clock.year now) (Clock.month now)).
  pose proof (days_in_month_le_31 (Clock.year x) (Clock.month x)).
  pose proof (days_from_civil_range (Clock.year now) (Clock.month now) (Clock.day now)
                ltac:(lia) ltac:(lia) ltac:(lia)) as Hz.
  fold (day_number now) in Hz.
  rewrite <- (lex_le_day_number _ x Hx).
  unfold within_days, Sqlite.date_now_minus_days, Sqlite.julian_milliseconds.
  fold (day_number now).
  destruct (Z.ltb_spec days 0) as [|_]; [lia|].
  match goal with
  | |- context [?a <? 0] => destruct (Z.ltb_spec a 0) as [Hneg|_]
  end.
  { exfalso. revert Hneg. replace (day_number now + - days) with (day_number now - days) by lia.
    Z.div_mod_to_equations. nia. }
  pose proof (civil_from_days_range (day_number now - days) ltac:(lia)) as Hrange.
  destruct (Clock.civil_from_days (day_number now - days)) as [[y m] d].
  destruct Hrange as (Hcy & Hcm & Hcd).
  unfold Sqlite.format_signed_date. destruct (Z.ltb_spec y 0); [lia|].
  unfold Text.text_ge, date_of. apply leb_format_date; lia.
Qed.

(** C9, as the code has it.  Where the time column of the table holds
    what [isoformat] wrote for valid readings [times], and [days] is not
    negative and leads to no date before year 0 ([days] = 7 by default),
    [get_daily_counts] returns pairs whose dates are strictly ascending as
    texts, hence distinct, and so are the calendar days they write.  The
    window is one of calendar dates, with both ends in it: a date is
    listed exactly when some row falls on it and it lies at most [days]
    days before today's date, today and the [days] dates before it or a
    later date, whatever the times of day; its count, at least 1, is the
    number of rows of the table whose reading falls on that date; no date
    that lies more than [days] days before today's is listed. *)
Theorem daily_counts (c : Connection) (now : Clock.datetime) (t : table)
    (col : column) (days : Z) (times : list Clock.datetime) :
  Clock.valid now ->
  0 <= days -> - 719528 <= day_number now - days ->
  Forall Clock.valid times ->
  Sql.column_values (current c) t col = Some (map (fun x => Some (Clock.isoformat x)) times) ->
  exists rows : list (string * Z),
    DbManager.get_daily_counts now t col days c = (Ok rows, c) /\
    StronglySorted text_lt (map fst rows) /\
    StronglySorted
      (fun a b => forall x y, Clock.valid x -> Clock.valid y ->
                    date_of x = a -> date_of y = b -> day_before x y)
      (map fst rows) /\
    (forall d n, In (d, n) rows ->
       1 <= n /\
       n = Sqlite.count (filter (fun x => String.eqb d (date_of x)) times) /\
       forall x, Clock.valid x -> date_of x = d ->
         day_number now - days <= day_number x) /\
    (forall x, In x times -> day_number now - days <= day_number x ->
       exists n, In (date_of x, n) rows) /\
    (forall x, In x times -> day_number x < day_number now - days ->
       ~ In (date_of x) (map fst rows)).
Proof.
  intros Hnow Hdays Hlow Hvalid Hcol.
  unfold DbManager.get_daily_counts, bind, Sql.select_column. rewrite Hcol.
  rewrite (window_keys now days times Hvalid).
  set (keys := filter (within_days now days) (map date_of times)).
  set (sorted := Sqlite.order_by (Sqlite.asc (fun d : string => d)) keys).
  assert (Hperm : Permutation sorted keys) by apply order_by_perm.
  assert (Hsorted : StronglySorted (fun a b => String.leb a b = true) sorted).
  { apply (order_by_sorted (Sqlite.asc (fun d : string => d))).
    - intros a b. apply leb_false_flip.
    - intros a b e. apply leb_trans. }
  destruct (group_count_sorted sorted Hsorted) as (Hin & Hcount & Hstrict & _).
  assert (Hlisted : forall d, In d (map fst (Sqlite.group_count sorted)) ->
                      within_days now days d = true).
  { intros d Hd. apply Hin in Hd. apply (Permutation_in d Hperm) in Hd.
    unfold keys in Hd. apply filter_In in Hd. apply Hd. }
  assert (Hwindow : forall d, In d (map fst (Sqlite.group_count sorted)) ->
                      forall x, Clock.valid x -> date_of x = d ->
                        day_number now - days <= day_number x).
  { intros d Hd x Hx <-. apply Hlisted in Hd.
    rewrite within_days_day_number in Hd by assumption. now apply Z.leb_le. }
  eexists. split; [reflexivity|]. split; [exact Hstrict|].
  split; [|split; [|split]].
  - apply (StronglySorted_weaken text_lt); [|exact Hstrict].
    intros a b Hab x y Hx Hy <- <-. now apply text_lt_day_before.
  - intros d n Hdn.
    assert (Hd : In d (map fst (Sqlite.group_count sorted)))
      by (apply (in_map fst) in Hdn; exact Hdn).
    assert (Hk : In d keys) by (apply (Permutation_in d Hperm), Hin, Hd).
    assert (Hn : n = occurrences d keys).
    { rewrite (Hcount d n Hdn). now apply occurrences_perm. }
    split; [rewrite Hn; now apply occurrences_present|]. split; [|now apply Hwindow].
    rewrite Hn. unfold occurrences, keys, Sqlite.count.
    rewrite (filter_eqb_window _ _ _ (Hlisted d Hd)), filter_map_length. reflexivity.
  - intros x Hx Hnear.
    assert (Hvx : Clock.valid x) by (rewrite Forall_forall in Hvalid; auto).
    assert (Hd : In (date_of x) sorted).
    { apply (Permutation_in _ (Permutation_sym Hperm)).
      unfold keys. apply filter_In. split; [now apply in_map|].
      rewrite within_days_day_number by assumption. now apply Z.leb_le. }
    apply Hin, in_map_iff in Hd. destruct Hd as [[d n] [Hfst Hdn]].
    cbn in Hfst. subst d. now exists n.
  - intros x Hx Hfar Hd.
    assert (Hvx : Clock.valid x) by (rewrite Forall_forall in Hvalid; auto).
    pose proof (Hwindow _ Hd x Hvx eq_refl). lia.
Qed.

End Calendar.

(* ================================================================== *)
(** ** The export *)
(* ================================================================== *)

Section ExportRoute.

Context `{JsonCodec}.
Import Sql.

Lemma history_file (requests : list request) :
  forall file log, fst (history requests file log) = fold_left handle requests file.
Proof.
  induction requests as [|r requests IH]; intros file log; [reflexivity|].
  cbn [history fold_left]. apply IH.
Qed.

Lemma filter_map_commute {A B} (f : A -> B) (p : B -> bool) (l : list A) :
  filter p (map f l) = map f (filter (fun x => p (f x)) l).
Proof.
  induction l as [|x l IH]; [reflexivity|]. cbn [map filter].
  destruct (p (f x)); cbn [map]; now rewrite IH.
Qed.

Lemma log_matches_step (file : Database) (log : list ingestion) (r : request) :
  log_matches file log -> log_matches (handle file r) (record file log r).
Proof.
  intros [Hrows Hparsed].
  destruct r as [uuid4 now host_url|now later webhook_id body|webhook_id]; cbn [record].
  - rewrite generate_webhook_file.
    destruct (has_webhook file uuid4); split; assumption.
  - rewrite ingest_file.
    destruct (has_webhook file webhook_id); [|split; assumption].
    destruct (loads body) as [data|] eqn:Hbody; [|split; assumption].
    split.
    + cbn [after_success webhook_payloads]. rewrite !map_app, Hrows. reflexivity.
    + apply Forall_app. split; [exact Hparsed|].
      constructor; [|constructor]. now exists body.
  - rewrite delete_webhook_file.
    destruct (has_webhook file webhook_id); [|split; assumption].
    split.
    + cbn [webhook_payloads].
      pose (keep := fun t : string * string * string =>
                      negb (String.eqb (fst (fst t)) webhook_id)).
      change (map stored_as (filter (fun p => keep (stored_as p)) (webhook_payloads file)) =
              map stores (filter (fun i => keep (stores i)) log)).
      rewrite <- !filter_map_commute, Hrows. reflexivity.
    + rewrite Forall_forall in *. intros i Hi. apply filter_In in Hi. now apply Hparsed.
Qed.

Lemma history_matches (requests : list request) :
  forall file log, log_matches file log ->
    log_matches (fst (history requests file log)) (snd (history requests file log)).
Proof.
  induction requests as [|r requests IH]; intros file log Hm; [exact Hm|].
  cbn [history]. apply IH, log_matches_step, Hm.
Qed.

(** The payload rows of an endpoint are what its ingestions stored, in the
    order of the requests. *)
Lemma payloads_are_ingested (requests : list request) (webhook_id : string) :
  map stored_as (DbManager.payloads_of webhook_id (run requests)) =
    map stores (ingested requests webhook_id) /\
  Forall (fun i => exists text, loads text = Some (value i)) (ingested requests webhook_id).
Proof.
  destruct (history_matches requests (App.init_db None) [])
    as [Hrows Hparsed]; [split; [reflexivity|constructor]|].
  rewrite history_file in Hrows. fold (run requests) in Hrows.
  unfold ingested, DbManager.payloads_of. split.
  - pose (own := fun t : string * string * string => String.eqb (fst (fst t)) webhook_id).
    change (map stored_as (filter (fun p => own (stored_as p)) (webhook_payloads (run requests))) =
            map stores (filter (fun i => own (stores i))
                          (snd (history requests (App.init_db None) [])))).
    rewrite <- !filter_map_commute, Hrows. reflexivity.
  - rewrite Forall_forall in *. intros i Hi. apply filter_In in Hi. now apply Hparsed.
Qed.

Lemma insert_sorted_map {A B C} (f : A -> C) (g : B -> C) (before : C -> C -> bool)
    (a : A) (b : B) (l1 : list A) (l2 : list B) :
  f a = g b -> map f l1 = map g l2 ->
  map f (Sqlite.insert_sorted (fun x y => before (f x) (f y)) a l1) =
  map g (Sqlite.insert_sorted (fun x y => before (g x) (g y)) b l2).
Proof.
  intros Hab. revert l2.
  induction l1 as [|x l1 IH]; intros [|y l2] Hl; try discriminate; cbn.
  - now rewrite Hab.
  - injection Hl as Hxy Hl. rewrite Hab, Hxy.
    destruct (before (g b) (g y)); cbn.
    + now rewrite Hab, Hxy, Hl.
    + rewrite Hxy. f_equal. now apply IH.
Qed.

(** Sorting two lists that store the same values yields lists that store
    the same values. *)
Lemma order_by_map {A B C} (f : A -> C) (g : B -> C) (before : C -> C -> bool)
    (l1 : list A) :
  forall l2 : list B,
    map f l1 = map g l2 ->
    map f (Sqlite.order_by (fun x y => before (f x) (f y)) l1) =
    map g (Sqlite.order_by (fun x y => before (g x) (g y)) l2).
Proof.
  induction l1 as [|x l1 IH]; intros [|y l2] Hl; try discriminate; [reflexivity|].
  injection Hl as Hxy Hl. cbn [Sqlite.order_by fold_right].
  apply insert_sorted_map; [exact Hxy|]. now apply IH.
Qed.

Lemma parse_rows_stored (l : list ingestion) (ctx : App.Ctx) :
  Forall (fun i => exists text, loads text = Some (value i)) l ->
  App.parse_rows (map (fun i => (Clock.isoformat (received i), dumps (value i))) l) ctx =
    (Ok (map exported l), ctx).
Proof.
  induction 1 as [|i l [text Hi] _ IH]; [reflexivity|].
  cbn [map App.parse_rows]. rewrite (loads_dumps text _ Hi).
  unfold bind. rewrite IH. reflexivity.
Qed.

(** C8. After any run of requests, [GET /download/<id>] of an existing
    endpoint answers 200 with the file [webhook_<id>.json]; the payload rows
    that the endpoint owns are those that its accepted ingestions stored;
    the export has one entry per such ingestion, its stored timestamp with
    the very value that [get_json] had returned; the entries are in
    descending order of stored timestamp, which, for valid clock readings,
    is newest reading first. *)
Theorem export_is_what_was_ingested (requests : list request)
    (webhook_id : string) (w : Webhook.row) :
  find (is_webhook webhook_id) (webhooks (run requests)) = Some w ->
  exists sorted : list ingestion,
    App.serve (App.download_webhook_data webhook_id) (run requests) =
      (App.mk_reply 200
         (App.Download ("webhook_" ++ webhook_id ++ ".json") (map exported sorted)),
       [], run requests) /\
    map stored_as (DbManager.payloads_of webhook_id (run requests)) =
      map stores (ingested requests webhook_id) /\
    Permutation sorted (ingested requests webhook_id) /\
    StronglySorted (fun a b => newer_text a b = true) sorted /\
    (Forall (fun i => Clock.valid (received i)) (ingested requests webhook_id) ->
     StronglySorted (fun a b => Clock.le (received b) (received a) = true) sorted).
Proof.
  intro Hfind.
  destruct (payloads_are_ingested requests webhook_id) as [Hrows Hparsed].
  set (file := run requests) in *.
  pose (before := fun t t' : string * string * string =>
                    Text.text_ge (snd (fst t)) (snd (fst t'))).
  set (sorted := Sqlite.order_by (fun a b => before (stores a) (stores b))
                   (ingested requests webhook_id)).
  assert (Hperm : Permutation sorted (ingested requests webhook_id))
    by apply order_by_perm.
  assert (Hsorted : StronglySorted (fun a b => newer_text a b = true) sorted).
  { apply (order_by_sorted (fun a b => before (stores a) (stores b))).
    - intros a b. apply leb_false_flip.
    - intros a b c Hab Hbc. exact (leb_trans _ _ _ Hbc Hab). }
  exists sorted. split; [|split; [exact Hrows|split; [exact Hperm|split; [exact Hsorted|]]]].
  - unfold App.serve, App.download_webhook_data, App.get_webhook_or_404, bind,
      App.db_manager, DbManager.get_webhook, DbManager.get_all_payloads_for_webhook, select.
    cbn [App.g_db App.get_db current App.emitted]. rewrite Hfind.
    unfold ret at 1. cbn [App.g_db App.get_db current App.emitted].
    pose proof (order_by_map stored_as stores before _ _ Hrows) as Hsame.
    apply (f_equal (map (fun t : string * string * string => (snd (fst t), snd t)))) in Hsame.
    rewrite !map_map in Hsame.
    change (map (fun p => (WebhookPayload.timestamp p, WebhookPayload.payload p))
              (Sqlite.order_by (Sqlite.desc WebhookPayload.timestamp)
                 (DbManager.payloads_of webhook_id file)) =
            map (fun i => (Clock.isoformat (received i), dumps (value i))) sorted) in Hsame.
    rewrite Hsame, parse_rows_stored.
    + reflexivity.
    + rewrite Forall_forall in *. intros i Hi. apply Hparsed.
      exact (Permutation_in i Hperm Hi).
  - intro Hvalid.
    assert (Hv : Forall (fun i => Clock.valid (received i)) sorted).
    { rewrite Forall_forall in *. intros i Hi. apply Hvalid.
      exact (Permutation_in i Hperm Hi). }
    clear - Hsorted Hv. induction Hsorted as [|a l Hs IH Hall]; [constructor|].
    inversion Hv as [|? ? Ha Hl]; subst.
    constructor; [now apply IH|].
    rewrite Forall_forall in *. intros b Hb.
    specialize (Hall b Hb). unfold newer_text, Text.text_ge in Hall.
    rewrite leb_isoformat in Hall by auto. exact Hall.
Qed.

End ExportRoute.


(* ================================================================== *)
(** ** The codec law for the JSON fragment *)
(* ================================================================== *)

Section JsonStrings.

Import Json.

Lemma length_append (a b : string) :
  String.length (a ++ b) = (String.length a + String.length b)%nat.
Proof. induction a as [|c a IH]; cbn; [reflexivity|now rewrite IH]. Qed.

(** A character that was written is read back. *)
Lemma parse_char_escape (c : ascii) (rest : string) :
  parse_char (escape c ++ rest) = Some (Some c, rest).
Proof.
  destruct c as [[] [] [] [] [] [] [] []]; reflexivity.
Qed.

Lemma parse_char_quote (rest : string) :
  parse_char (String quote rest) = Some (None, rest).
Proof. reflexivity. Qed.

Lemma parse_chars_escape_all (s rest : string) :
  forall fuel : nat,
    (String.length s < fuel)%nat ->
    parse_chars fuel (escape_all s ++ String quote rest) = Some (s, rest).
Proof.
  induction s as [|c s IH]; intros [|fuel] Hfuel; try (cbn in Hfuel; lia).
  - reflexivity.
  - cbn [escape_all parse_chars]. rewrite append_assoc, parse_char_escape.
    rewrite IH by (cbn in Hfuel; lia). reflexivity.
Qed.

Lemma length_escape_all (s : string) :
  (String.length s <= String.length (escape_all s))%nat.
Proof.
  induction s as [|c s IH]; [reflexivity|].
  cbn [escape_all String.length]. rewrite length_append.
  assert (1 <= String.length (escape c))%nat.
  { destruct c as [[] [] [] [] [] [] [] []]; cbn; lia. }
  lia.
Qed.

(** A string literal that was written is read back. *)
Lemma parse_string_dumps (s rest : string) :
  parse_string (escape_all s ++ String quote rest) = Some (s, rest).
Proof.
  unfold parse_string. apply parse_chars_escape_all.
  rewrite length_append. pose proof (length_escape_all s). cbn. lia.
Qed.

End JsonStrings.

Section JsonNumbers.

Import Json.

Lemma pos_digits_app (fuel : nat) :
  forall (n : Z) (acc rest : string),
    (pos_digits fuel n acc ++ rest)%string = pos_digits fuel n (acc ++ rest).
Proof.
  induction fuel as [|fuel IH]; intros n acc rest; [reflexivity|].
  cbn [pos_digits]. destruct (n <? 10); [reflexivity|]. now rewrite IH.
Qed.

Lemma read_pos_digits (fuel : nat) :
  forall (n : Z) (acc : string),
    0 <= n < 10 ^ Z.of_nat fuel ->
    read_digits 0 (pos_digits fuel n acc) = read_digits n acc.
Proof.
  induction fuel as [|fuel IH]; intros n acc Hn.
  - cbn in Hn. assert (n = 0) by lia. now subst.
  - cbn [pos_digits]. rewrite Nat2Z.inj_succ, Z.pow_succ_r in Hn by lia.
    destruct (Z.ltb_spec n 10) as [Hlt|Hge].
    + cbn [read_digits]. rewrite is_digit_digit_char, digit_value_digit_char by lia.
      reflexivity.
    + rewrite IH.
      * cbn [read_digits].
        pose proof (Z.mod_pos_bound n 10 ltac:(lia)).
        rewrite is_digit_digit_char, digit_value_digit_char by lia.
        f_equal. pose proof (Z.div_mod n 10 ltac:(lia)). lia.
      * split; [apply Z.div_pos; lia|apply Z.div_lt_upper_bound; lia].
Qed.

(** The first digit written for a positive number is not 0. *)
Lemma pos_digits_head (fuel : nat) :
  forall (n : Z) (acc : string),
    1 <= n < 10 ^ Z.of_nat fuel ->
    exists d s, 1 <= d <= 9 /\ pos_digits fuel n acc = String (Text.digit_char d) s.
Proof.
  induction fuel as [|fuel IH]; intros n acc Hn.
  - cbn in Hn. lia.
  - cbn [pos_digits]. rewrite Nat2Z.inj_succ, Z.pow_succ_r in Hn by lia.
    destruct (Z.ltb_spec n 10) as [Hlt|Hge].
    + exists n, acc. split; [lia|reflexivity].
    + apply IH. split; [apply Z.div_le_lower_bound; lia|apply Z.div_lt_upper_bound; lia].
Qed.

Lemma log2_fuel (n : Z) : 0 <= n -> n < 10 ^ Z.of_nat (S (Z.to_nat (Z.log2 n))).
Proof.
  intro Hn. rewrite Nat2Z.inj_succ, Z2Nat.id by apply Z.log2_nonneg.
  destruct (Z.eq_dec n 0) as [->|Hnz]; [cbn; lia|].
  pose proof (Z.log2_spec n ltac:(lia)) as [_ Hup].
  apply (Z.lt_le_trans _ _ _ Hup).
  apply Z.pow_le_mono_l. pose proof (Z.log2_nonneg n). lia.
Qed.

Lemma read_digits_stops (n : Z) (rest : string) :
  stops rest -> read_digits n rest = (n, rest).
Proof. destruct rest as [|c rest]; cbn; [reflexivity|]. now intros ->. Qed.

Lemma parse_natural_decimal (n : Z) (rest : string) :
  0 <= n -> stops rest ->
  parse_natural (decimal n ++ rest) = Some (n, rest).
Proof.
  intros Hn Hrest. unfold decimal.
  destruct (Z.eq_dec n 0) as [->|Hnz]; [reflexivity|].
  rewrite pos_digits_app. cbn [append].
  destruct (pos_digits_head (S (Z.to_nat (Z.log2 n))) n rest) as (d & s & Hd & Hs).
  { pose proof (log2_fuel n Hn). lia. }
  unfold parse_natural. rewrite Hs.
  rewrite is_digit_digit_char by lia.
  replace (code (Text.digit_char d) =? 48) with false.
  - rewrite <- Hs, read_pos_digits by (pose proof (log2_fuel n Hn); lia).
    now rewrite read_digits_stops.
  - symmetry. apply Z.eqb_neq.
    assert (Hd' : 0 <= d <= 9) by lia.
    destruct (digit_cases d Hd') as [->|[->|[->|[->|[->|[->|[->|[->|[->| ->]]]]]]]]];
      cbn; lia.
Qed.

(** An integer that was written is read back. *)
Lemma parse_number_dumps (n : Z) (rest : string) :
  stops rest -> parse_number (dumps_int n ++ rest) = Some (n, rest).
Proof.
  intro Hrest. unfold dumps_int.
  destruct (Z.ltb_spec n 0) as [Hneg|Hpos].
  - cbn [append parse_number]. change (code "-" =? 45) with true. cbv iota.
    rewrite parse_natural_decimal by (assumption || lia).
    now rewrite Z.opp_involutive.
  - destruct (Z.eq_dec n 0) as [->|Hnz]; [reflexivity|].
    unfold decimal. rewrite pos_digits_app. cbn [append].
    destruct (pos_digits_head (S (Z.to_nat (Z.log2 n))) n rest) as (d & s & Hd & Hs).
    { pose proof (log2_fuel n Hpos). lia. }
    unfold parse_number. rewrite Hs.
    replace (code (Text.digit_char d) =? 45) with false.
    + rewrite <- Hs.
      pose proof (parse_natural_decimal n rest Hpos Hrest) as Hnat.
      unfold decimal in Hnat. rewrite pos_digits_app in Hnat. exact Hnat.
    + symmetry. apply Z.eqb_neq.
      assert (Hd' : 0 <= d <= 9) by lia.
      destruct (digit_cases d Hd') as [->|[->|[->|[->|[->|[->|[->|[->|[->| ->]]]]]]]]];
        cbn; lia.
Qed.

(** The first character of a written integer. *)
Lemma dumps_int_head (n : Z) (rest : string) :
  exists c s, (dumps_int n ++ rest)%string = String c s /\
    (code c = 45 \/ 48 <= code c <= 57).
Proof.
  unfold dumps_int. destruct (Z.ltb_spec n 0) as [Hneg|Hpos].
  - eexists _, _. split; [reflexivity|]. left. reflexivity.
  - destruct (Z.eq_dec n 0) as [->|Hnz].
    + eexists _, _. split; [reflexivity|]. right. cbn. lia.
    + unfold decimal. rewrite pos_digits_app.
      destruct (pos_digits_head (S (Z.to_nat (Z.log2 n))) n ("" ++ rest)) as (d & s & Hd & Hs).
      { pose proof (log2_fuel n Hpos). lia. }
      exists (Text.digit_char d), s. split; [exact Hs|]. right.
      assert (Hd' : 0 <= d <= 9) by lia.
      destruct (digit_cases d Hd') as [->|[->|[->|[->|[->|[->|[->|[->|[->| ->]]]]]]]]];
        cbn; lia.
Qed.

End JsonNumbers.

Section ValueInduction.

Import Json.

Variable P : value -> Prop.
Hypothesis HNull : P Null.
Hypothesis HBool : forall b, P (Bool b).
Hypothesis HInt : forall n, P (Int n).
Hypothesis HStr : forall s, P (Str s).
Hypothesis HArray : forall items, Forall P items -> P (Array items).
Hypothesis HObject :
  forall members, Forall (fun kx => P (snd kx)) members -> P (Object members).

(** Induction on values, through arrays and objects. *)
Fixpoint value_induction (v : value) : P v :=
  match v with
  | Null => HNull
  | Bool b => HBool b
  | Int n => HInt n
  | Str s => HStr s
  | Array items =>
      HArray items
        ((fix all (l : list value) : Forall P l :=
            match l with
            | [] => Forall_nil P
            | x :: l' => Forall_cons x (value_induction x) (all l')
            end) items)
  | Object members =>
      HObject members
        ((fix all (l : list (string * value)) : Forall (fun kx => P (snd kx)) l :=
            match l with
            | [] => Forall_nil _
            | kx :: l' => Forall_cons kx (value_induction (snd kx)) (all l')
            end) members)
  end.

End ValueInduction.

Section JsonValues.

Import Json.

Lemma dumps_array (items : list value) :
  dumps_value (Array items) = String "[" (dumps_elements items).
Proof.
  reflexivity.
Qed.

Lemma dumps_object (members : list (string * value)) :
  dumps_value (Object members) = String "{" (dumps_members members).
Proof.
  reflexivity.
Qed.

Lemma dumps_value_head (v : value) (rest : string) :
  exists c s, (dumps_value v ++ rest)%string = String c s /\ opens c.
Proof.
  destruct v as [|[]|n|s|items|members];
    try (eexists _, _; split; [reflexivity|]; repeat split; cbn; lia).
  destruct (dumps_int_head n rest) as (c & s & Hs & Hc).
  exists c, s. split; [exact Hs|].
  unfold opens, is_ws. repeat split; lia.
Qed.

Lemma skip_ws_opens (c : ascii) (s : string) :
  opens c -> skip_ws (String c s) = String c s.
Proof. intros [Hc _]. cbn. now rewrite Hc. Qed.

End JsonValues.

Section JsonRoundTrip.

Import Json.

Lemma size_pos (v : value) : (1 <= size v)%nat.
Proof. destruct v; cbn; lia. Qed.

Lemma stops_char (c : ascii) (s : string) : Text.is_digit c = false -> stops (String c s).
Proof. intro Hc. exact Hc. Qed.

Lemma skip_ws_value (v : value) (rest : string) :
  skip_ws (dumps_value v ++ rest) = (dumps_value v ++ rest)%string.
Proof.
  destruct (dumps_value_head v rest) as (c & s & -> & Hc). now apply skip_ws_opens.
Qed.

Lemma skip_ws_elements (x : value) (items : list value) (rest : string) :
  skip_ws (dumps_elements (x :: items) ++ rest) =
    (dumps_elements (x :: items) ++ rest)%string.
Proof.
  destruct items as [|y items]; cbn [dumps_elements];
    rewrite !append_assoc; apply skip_ws_value.
Qed.

Lemma elements_read_back (items : list value) :
  Forall reads_back items ->
  fold_right (fun x p => well_formed x /\ p) True items ->
  items <> [] ->
  forall (fuel : nat) (s rest : string),
    (size_elements items <= fuel)%nat ->
    skip_ws s = (dumps_elements items ++ rest)%string ->
    parse_elements fuel s = Some (items, rest).
Proof.
  induction 1 as [|x items Hx Hitems IH]; intros Hwf Hne fuel s rest Hfuel Hs;
    [contradiction|].
  destruct Hwf as [Hwx Hwf].
  destruct fuel as [|fuel]; [cbn in Hfuel; lia|].
  cbn [size_elements fold_right] in Hfuel. fold (size_elements items) in Hfuel.
  cbn [parse_elements].
  destruct items as [|y items].
  - cbn [dumps_elements] in Hs. rewrite append_assoc in Hs.
    rewrite (Hx Hwx fuel s ("]" ++ rest)%string) by (lia || exact Hs || reflexivity).
    reflexivity.
  - change (dumps_elements (x :: y :: items))
      with (dumps_value x ++ ", " ++ dumps_elements (y :: items))%string in Hs.
    rewrite !append_assoc in Hs.
    rewrite (Hx Hwx fuel s (", " ++ dumps_elements (y :: items) ++ rest)%string)
      by (lia || exact Hs || reflexivity).
    cbn [append skip_ws]. change (is_ws ",") with false. cbv iota.
    change (code "," =? 44) with true. cbv iota.
    rewrite (IH Hwf ltac:(discriminate) fuel _ rest); [reflexivity|lia|].
    change (skip_ws (String " " (dumps_elements (y :: items) ++ rest)))
      with (skip_ws (dumps_elements (y :: items) ++ rest)).
    apply skip_ws_elements.
Qed.

Lemma dumps_members_cons (k : string) (x : value) (l : list (string * value))
    (rest : string) :
  (dumps_members ((k, x) :: l) ++ rest)%string =
    String quote
      (escape_all k ++
       String quote
         (": " ++ dumps_value x ++
          match l with
          | [] => "}" ++ rest
          | _ => ", " ++ dumps_members l ++ rest
          end))%string.
Proof.
  destruct l as [|[k' y] l]; cbn [dumps_members]; unfold dumps_string;
    cbn [append]; rewrite !append_assoc; cbn [append]; rewrite ?append_assoc;
    reflexivity.
Qed.

Lemma members_read_back (members : list (string * value)) :
  Forall (fun kx => reads_back (snd kx)) members ->
  fold_right (fun kx p => well_formed (snd kx) /\ p) True members ->
  members <> [] ->
  forall (fuel : nat) (s rest : string),
    (size_members members <= fuel)%nat ->
    skip_ws s = (dumps_members members ++ rest)%string ->
    parse_members fuel s = Some (members, rest).
Proof.
  induction 1 as [|[k x] members Hx Hmembers IH]; intros Hwf Hne fuel s rest Hfuel Hs;
    [contradiction|].
  destruct Hwf as [Hwx Hwf]. cbn [snd] in Hx, Hwx.
  destruct fuel as [|fuel]; [cbn in Hfuel; lia|].
  cbn [size_members fold_right snd] in Hfuel. fold (size_members members) in Hfuel.
  cbn [parse_members]. rewrite Hs, dumps_members_cons.
  change (code quote =? 34) with true. cbv iota.
  rewrite parse_string_dumps.
  cbn [append skip_ws]. change (is_ws ":") with false. cbv iota.
  change (code ":" =? 58) with true. cbv iota.
  destruct members as [|[k' y] members].
  - rewrite (Hx Hwx fuel _ ("}" ++ rest)%string);
      [reflexivity|lia|reflexivity|].
    change (skip_ws (String " " (dumps_value x ++ "}" ++ rest)))
      with (skip_ws (dumps_value x ++ "}" ++ rest)).
    apply skip_ws_value.
  - rewrite (Hx Hwx fuel _ (", " ++ dumps_members ((k', y) :: members) ++ rest)%string);
      [|lia|reflexivity|].
    + cbn [append skip_ws]. change (is_ws ",") with false. cbv iota.
      change (code "," =? 44) with true. cbv iota.
      rewrite (IH Hwf ltac:(discriminate) fuel _ rest); [reflexivity|lia|].
      rewrite dumps_members_cons. reflexivity.
    + change (skip_ws (String " " ?X)) with (skip_ws X).
      apply skip_ws_value.
Qed.

Lemma dict_set_new (k : string) (v : value) (m : list (string * value)) :
  ~ In k (map fst m) -> dict_set k v m = m ++ [(k, v)].
Proof.
  induction m as [|[k' v'] m IH]; intro Hnew; [reflexivity|].
  cbn [dict_set app]. cbn in Hnew.
  destruct (String.eqb_spec k' k) as [->|_]; [tauto|].
  rewrite IH by tauto. reflexivity.
Qed.

Lemma fold_dict_set (m : list (string * value)) :
  forall acc, NoDup (map fst (acc ++ m)) ->
    fold_left (fun d kv => dict_set (fst kv) (snd kv) d) m acc = acc ++ m.
Proof.
  induction m as [|[k v] m IH]; intros acc Hnodup; cbn [fold_left].
  - now rewrite app_nil_r.
  - cbn [fst snd]. rewrite dict_set_new.
    + rewrite IH; rewrite <- app_assoc; [reflexivity|exact Hnodup].
    + rewrite map_app in Hnodup. apply NoDup_remove_2 in Hnodup.
      intro Hin. apply Hnodup. apply in_or_app. now left.
Qed.

(** A dict without repeated keys is what [dict] makes of its own items. *)
Lemma dict_nodup (m : list (string * value)) : NoDup (map fst m) -> dict m = m.
Proof. intro Hnodup. unfold dict. now rewrite fold_dict_set. Qed.

(** Every well-formed value that was written is read back. *)
Lemma value_reads_back (v : value) : reads_back v.
Proof.
  induction v as [|b|n|str|items IH|members IH] using value_induction;
    intros Hwf fuel s rest Hfuel Hrest Hs;
    (destruct fuel as [|fuel]; [pose proof (size_pos (Array [])); cbn in Hfuel; lia|]);
    cbn [parse_value]; rewrite Hs.
  - reflexivity.
  - destruct b; reflexivity.
  - destruct (dumps_int_head n rest) as (c & r & Hhead & Hc).
    change (dumps_value (Int n)) with (dumps_int n). rewrite Hhead.
    cbv zeta.
    repeat match goal with
           | |- context [code c =? ?k] => destruct (Z.eqb_spec (code c) k); [lia|]
           end.
    rewrite <- Hhead, parse_number_dumps by exact Hrest. reflexivity.
  - change (dumps_value (Str str)) with (dumps_string str). unfold dumps_string.
    cbn [append]. rewrite append_assoc. cbn [append].
    change (code quote =? 91) with false. change (code quote =? 123) with false.
    change (code quote =? 34) with true. cbv iota zeta.
    rewrite parse_string_dumps. reflexivity.
  - rewrite dumps_array. cbn [append].
    change (code "[" =? 91) with true. cbv iota zeta.
    destruct items as [|x items]; [reflexivity|].
    rewrite skip_ws_elements.
    destruct (dumps_value_head x
                (match items with
                 | [] => "]"
                 | _ => ", " ++ dumps_elements items
                 end ++ rest)%string) as (c & r & Hhead & Hc).
    assert (Hform : (dumps_elements (x :: items) ++ rest)%string = String c r).
    { rewrite <- Hhead. destruct items; cbn [dumps_elements]; now rewrite !append_assoc. }
    rewrite Hform. destruct Hc as (_ & Hc & _).
    destruct (Z.eqb_spec (code c) 93); [lia|].
    rewrite <- Hform.
    rewrite (elements_read_back (x :: items) IH Hwf ltac:(discriminate) fuel _ rest);
      [reflexivity| |apply skip_ws_elements].
    cbn [size] in Hfuel. fold (size_elements (x :: items)) in Hfuel. lia.
  - rewrite dumps_object. cbn [append].
    change (code "{" =? 91) with false. change (code "{" =? 123) with true.
    cbv iota zeta.
    destruct Hwf as [Hnodup Hwf].
    destruct members as [|[k x] members]; [reflexivity|].
    rewrite dumps_members_cons.
    cbn [skip_ws]. change (is_ws quote) with false. cbv iota.
    change (code quote =? 125) with false. cbv iota.
    rewrite <- dumps_members_cons.
    rewrite (members_read_back ((k, x) :: members) IH Hwf ltac:(discriminate) fuel _ rest).
    + now rewrite dict_nodup.
    + cbn [size] in Hfuel. fold (size_members ((k, x) :: members)) in Hfuel. lia.
    + rewrite dumps_members_cons. reflexivity.
Qed.

End JsonRoundTrip.

Section JsonLaw.

Import Json.

Lemma size_elements_le (items : list value) :
  Forall (fun x => (size x <= String.length (dumps_value x))%nat) items ->
  (size_elements items <= String.length (dumps_elements items))%nat.
Proof.
  induction 1 as [|x items Hx _ IH]; [cbn; lia|].
  cbn [size_elements fold_right]. fold (size_elements items).
  destruct items as [|y items].
  - cbn [dumps_elements]. rewrite length_append. cbn. lia.
  - change (dumps_elements (x :: y :: items))
      with (dumps_value x ++ ", " ++ dumps_elements (y :: items))%string.
    rewrite !length_append. cbn [String.length]. lia.
Qed.

Lemma size_members_le (members : list (string * value)) :
  Forall (fun kx => (size (snd kx) <= String.length (dumps_value (snd kx)))%nat) members ->
  (size_members members <= String.length (dumps_members members))%nat.
Proof.
  induction 1 as [|[k x] members Hx _ IH]; [cbn; lia|].
  cbn [size_members fold_right snd] in *. fold (size_members members).
  destruct members as [|[k' y] members].
  - cbn [dumps_members]. rewrite !length_append. cbn. lia.
  - change (dumps_members ((k, x) :: (k', y) :: members))
      with (dumps_string k ++ ": " ++ dumps_value x ++ ", " ++
            dumps_members ((k', y) :: members))%string.
    rewrite !length_append. cbn [String.length]. lia.
Qed.

(** A written value is at least as long as the value has parts. *)
Lemma size_le_length (v : value) : (size v <= String.length (dumps_value v))%nat.
Proof.
  induction v as [|b|n|str|items IH|members IH] using value_induction.
  - cbn. lia.
  - destruct b; cbn; lia.
  - destruct (dumps_int_head n "") as (c & r & Hhead & _).
    rewrite append_empty_r in Hhead. cbn [dumps_value size]. rewrite Hhead. cbn. lia.
  - cbn. lia.
  - rewrite dumps_array. cbn [size String.length]. fold (size_elements items).
    pose proof (size_elements_le items IH). lia.
  - rewrite dumps_object. cbn [size String.length]. fold (size_members members).
    pose proof (size_members_le members IH). lia.
Qed.

Lemma well_formed_elements (items : list value) :
  fold_right (fun x p => well_formed x /\ p) True items <-> Forall well_formed items.
Proof.
  induction items as [|x items IH]; cbn; [split; auto|].
  rewrite IH. split; [intros []; now constructor|now inversion 1].
Qed.

Lemma well_formed_members (members : list (string * value)) :
  fold_right (fun kx p => well_formed (snd kx) /\ p) True members <->
  Forall (fun kx => well_formed (snd kx)) members.
Proof.
  induction members as [|x members IH]; cbn; [split; auto|].
  rewrite IH. split; [intros []; now constructor|now inversion 1].
Qed.

Lemma dict_set_keys (k : string) (v : value) (m : list (string * value)) (k0 : string) :
  In k0 (map fst (dict_set k v m)) -> k0 = k \/ In k0 (map fst m).
Proof.
  induction m as [|[k' v'] m IH]; cbn [dict_set map fst In].
  - intros [<-|[]]. now left.
  - destruct (String.eqb_spec k' k) as [->|_]; cbn [map fst In].
    + intros [<-|Hin]; [now left|]. right. now right.
    + intros [<-|Hin]; [right; now left|].
      destruct (IH Hin) as [->|Hin']; [now left|]. right. now right.
Qed.

Lemma dict_set_nodup (k : string) (v : value) (m : list (string * value)) :
  NoDup (map fst m) -> NoDup (map fst (dict_set k v m)).
Proof.
  induction m as [|[k' v'] m IH]; intro Hnodup; cbn [dict_set map fst].
  - constructor; [intros []|constructor].
  - cbn [map fst] in Hnodup. inversion Hnodup as [|? ? Hnew Hrest]; subst.
    destruct (String.eqb_spec k' k) as [->|Hne]; cbn [map fst].
    + now constructor.
    + constructor; [|now apply IH].
      intro Hin. apply dict_set_keys in Hin. destruct Hin as [->|Hin]; tauto.
Qed.

Lemma dict_set_values (Q : value -> Prop) (k : string) (v : value)
    (m : list (string * value)) :
  Q v -> Forall (fun kx => Q (snd kx)) m ->
  Forall (fun kx => Q (snd kx)) (dict_set k v m).
Proof.
  intros Hv. induction 1 as [|[k' v'] m Hx Hm IH]; cbn [dict_set].
  - now repeat constructor.
  - destruct (String.eqb k' k); constructor; cbn [snd] in *; assumption.
Qed.

Lemma dict_well_formed (pairs : list (string * value)) :
  Forall (fun kx => well_formed (snd kx)) pairs ->
  NoDup (map fst (dict pairs)) /\ Forall (fun kx => well_formed (snd kx)) (dict pairs).
Proof.
  unfold dict.
  assert (Hgen : forall acc,
    NoDup (map fst acc) /\ Forall (fun kx => well_formed (snd kx)) acc ->
    Forall (fun kx => well_formed (snd kx)) pairs ->
    let d := fold_left (fun m kv => dict_set (fst kv) (snd kv) m) pairs acc in
    NoDup (map fst d) /\ Forall (fun kx => well_formed (snd kx)) d).
  { induction pairs as [|[k v] pairs IH]; intros acc [Hn Hv] Hp; [now split|].
    inversion Hp as [|? ? Hkv Hrest]; subst. cbn [fold_left fst snd].
    apply IH; [|exact Hrest]. split.
    - now apply dict_set_nodup.
    - now apply dict_set_values. }
  intro Hp. apply (Hgen []); [split; constructor|exact Hp].
Qed.

Ltac parse_cases :=
  repeat match goal with
         | H : match ?x with _ => _ end = Some _ |- _ =>
             let E := fresh "E" in destruct x eqn:E; try discriminate
         | H : (let (_, _) := ?x in _) = Some _ |- _ =>
             let E := fresh "E" in destruct x eqn:E; try discriminate
         | H : (if ?b then _ else _) = Some _ |- _ =>
             let E := fresh "E" in destruct b eqn:E; try discriminate
         end.

(** What the parser returns has no repeated key. *)
Lemma parse_well_formed (fuel : nat) :
  (forall s v r, parse_value fuel s = Some (v, r) -> well_formed v) /\
  (forall s l r, parse_elements fuel s = Some (l, r) -> Forall well_formed l) /\
  (forall s m r, parse_members fuel s = Some (m, r) ->
     Forall (fun kx => well_formed (snd kx)) m).
Proof.
  induction fuel as [|fuel (IHv & IHe & IHm)]; [repeat split; discriminate|].
  split; [|split].
  - intros s v r Hparse. cbn [parse_value] in Hparse. cbv zeta in Hparse.
    parse_cases; injection Hparse as <- <-; try exact I;
      repeat match goal with
             | H : parse_elements _ _ = Some _ |- _ => apply IHe in H
             | H : parse_members _ _ = Some _ |- _ => apply IHm in H
             end.
    + apply well_formed_elements. assumption.
    + split; constructor.
    + match goal with
      | H : Forall _ ?pairs |- well_formed (Object (dict ?pairs)) =>
          destruct (dict_well_formed pairs H) as [Hn Hv]
      end.
      split; [exact Hn|]. now apply well_formed_members.
  - intros s l r Hparse. cbn [parse_elements] in Hparse.
    parse_cases; injection Hparse as <- <-;
      repeat match goal with
             | H : parse_value _ _ = Some _ |- _ => apply IHv in H
             | H : parse_elements _ _ = Some _ |- _ => apply IHe in H
             end;
      constructor; (assumption || constructor).
  - intros s m r Hparse. cbn [parse_members] in Hparse.
    parse_cases; injection Hparse as <- <-;
      repeat match goal with
             | H : parse_value _ _ = Some _ |- _ => apply IHv in H
             | H : parse_members _ _ = Some _ |- _ => apply IHm in H
             end;
      constructor; (assumption || constructor).
Qed.

(** The law of the codec: what [loads] has returned, it returns again from
    what [dumps] writes. *)
Lemma loads_dumps_value (text : string) (v : value) :
  Json.loads text = Some v -> Json.loads (Json.dumps v) = Some v.
Proof.
  intro Hloads. unfold Json.loads in Hloads.
  destruct (parse_value (2 * String.length text + 2) text) as [[v' r]|] eqn:Hparse;
    [|discriminate].
  assert (v' = v) by (destruct (skip_ws r); congruence). subst v'.
  pose proof (proj1 (parse_well_formed _) _ _ _ Hparse) as Hwf.
  unfold Json.loads, Json.dumps.
  rewrite (value_reads_back v Hwf _ (dumps_value v) "").
  - reflexivity.
  - pose proof (size_le_length v). lia.
  - exact I.
  - pose proof (skip_ws_value v "") as Hskip.
    rewrite !append_empty_r in *. exact Hskip.
Qed.

End JsonLaw.

#[export] Instance python_json : JsonCodec := {
  json := Json.value;
  loads := Json.loads;
  dumps := Json.dumps;
  loads_dumps := loads_dumps_value
}.


(* ================================================================== *)
(** ** The statements at sample data *)
(* ================================================================== *)

Section Samples.

Import Sql.

(** C3. A payload row written at 2024-01-01T00:00:00 is 36 hours old at
    2024-01-02T12:00:00; [get_stats_today] counts it all the same: its text
    ["2024-01-01T00:00:00+00:00"] is compared with the cutoff
    ["2024-01-01 12:00:00"], and ["T"] sorts after the blank. *)
Theorem stats_today_counts_a_row_36_hours_old :
  older_than_24_hours Sample.morning Sample.noon /\
  Sqlite.datetime_now_minus_24_hours Sample.noon = "2024-01-01 12:00:00" /\
  Clock.isoformat Sample.morning = "2024-01-01T00:00:00+00:00" /\
  DbManager.get_stats_today Sample.noon t_webhook_payloads (App.get_db Sample.old_row) =
    (Ok 1, App.get_db Sample.old_row).
Proof.
  split; [unfold older_than_24_hours; cbn; lia|].
  repeat split.
Qed.

(** C5 with the plain concatenation fails on the host URL of a request,
    which ends in a slash: the URL returned is not
    [host_url + "/webhook/" + id]. *)
Lemma create_webhook_strips_the_slash :
  exists (full_url : string) (c' : Connection),
    DbManager.create_webhook Sample.first_id Sample.morning Sample.host_url
      (App.get_db empty_database) = (Ok (Sample.first_id, full_url), c') /\
    full_url <> (Sample.host_url ++ "/webhook/" ++ Sample.first_id)%string.
Proof.
  eexists _, _. split; [reflexivity|]. discriminate.
Qed.

Lemma bad_body_is_one_failure_witness :
  find (is_webhook Sample.first_id) (webhooks Sample.one_endpoint) = Some Sample.endpoint /\
  loads "this is not json" = None /\
  exists (message : string) (out : list App.emission) (file' : Database)
         (w' : Webhook.row) (f : WebhookFailure.row),
    App.serve (App.webhook Sample.noon Sample.afternoon Sample.first_id "this is not json")
      Sample.one_endpoint = (App.mk_reply 400 (App.Error message), out, file') /\
    find (is_webhook Sample.first_id) (webhooks file') = Some w' /\
    Webhook.failure_count w' = Webhook.failure_count Sample.endpoint + 1 /\
    Webhook.success_count w' = Webhook.success_count Sample.endpoint /\
    webhook_failures file' = webhook_failures Sample.one_endpoint ++ [f] /\
    WebhookFailure.webhook_id f = Sample.first_id /\
    webhook_payloads file' = webhook_payloads Sample.one_endpoint.
Proof.
  split; [reflexivity|]. split; [reflexivity|].
  apply (bad_body_is_one_failure Sample.one_endpoint Sample.noon Sample.afternoon
           Sample.first_id "this is not json" Sample.endpoint); reflexivity.
Defined.

Lemma exactly_one_path_witness :
  find (is_webhook Sample.first_id) (webhooks Sample.one_endpoint) = Some Sample.endpoint /\
  exists (r : App.reply) (out : list App.emission) (file' : Database) (w' : Webhook.row),
    App.serve (App.webhook Sample.noon Sample.afternoon Sample.first_id "[1, 2, 3]")
      Sample.one_endpoint = (r, out, file') /\
    find (is_webhook Sample.first_id) (webhooks file') = Some w' /\
    ((App.status r = 200 /\
      payload_recorded Sample.first_id Sample.endpoint Sample.one_endpoint file' /\
      ~ failure_recorded Sample.first_id Sample.endpoint Sample.one_endpoint file' /\
      webhook_failures file' = webhook_failures Sample.one_endpoint /\
      Webhook.failure_count w' = Webhook.failure_count Sample.endpoint) \/
     (App.status r = 400 /\
      failure_recorded Sample.first_id Sample.endpoint Sample.one_endpoint file' /\
      ~ payload_recorded Sample.first_id Sample.endpoint Sample.one_endpoint file' /\
      webhook_payloads file' = webhook_payloads Sample.one_endpoint /\
      Webhook.success_count w' = Webhook.success_count Sample.endpoint)) /\
    ~ (Webhook.success_count w' = Webhook.success_count Sample.endpoint + 1 /\
       Webhook.failure_count w' = Webhook.failure_count Sample.endpoint + 1).
Proof.
  split; [reflexivity|].
  apply (exactly_one_path Sample.one_endpoint Sample.noon Sample.afternoon
           Sample.first_id "[1, 2, 3]" Sample.endpoint); reflexivity.
Defined.

Lemma record_failed_payload_unknown_id_witness :
  foreign_keys (App.get_db Sample.one_endpoint) = true /\
  find (is_webhook Sample.second_id) (webhooks (current (App.get_db Sample.one_endpoint))) = None /\
  exists c' : Connection,
    DbManager.record_failed_payload Sample.noon Sample.second_id
      (App.get_db Sample.one_endpoint) =
      (Raise (IntegrityError "FOREIGN KEY constraint failed"), c') /\
    committed c' = committed (App.get_db Sample.one_endpoint) /\
    current c' = current (App.get_db Sample.one_endpoint) /\
    App.close_db c' = App.close_db (App.get_db Sample.one_endpoint).
Proof.
  split; [reflexivity|]. split; [reflexivity|].
  apply (record_failed_payload_unknown_id (App.get_db Sample.one_endpoint) Sample.noon
           Sample.second_id); reflexivity.
Defined.

Lemma create_webhook_then_get_witness :
  find (is_webhook Sample.second_id)
    (webhooks (current (App.get_db Sample.one_endpoint))) = None /\
  exists c' : Connection,
    let full_url := (Text.rstrip "/" Sample.host_url ++ "/webhook/" ++ Sample.second_id)%string in
    let stored := Webhook.mk Sample.second_id full_url (Clock.isoformat Sample.noon) 0 0 None in
    DbManager.create_webhook Sample.second_id Sample.noon Sample.host_url
      (App.get_db Sample.one_endpoint) = (Ok (Sample.second_id, full_url), c') /\
    committed c' = current c' /\
    DbManager.get_webhook Sample.second_id c' = (Ok (Some stored), c') /\
    DbManager.get_webhook Sample.second_id (App.get_db (App.close_db c')) =
      (Ok (Some stored), App.get_db (App.close_db c')).
Proof.
  split; [reflexivity|].
  apply (create_webhook_then_get (App.get_db Sample.one_endpoint) Sample.second_id
           Sample.noon Sample.host_url); reflexivity.
Defined.

Lemma delete_webhook_cascades_witness :
  find (is_webhook Sample.first_id) (webhooks Sample.two_endpoints) =
    Some (Webhook.mk Sample.first_id
            "http://localhost:5000/webhook/0b9e6a52-7d3c-4f1e-9a57-3c1d2e4f5a6b"
            (Clock.isoformat Sample.morning) 1 1 (Some (Clock.isoformat Sample.noon))) /\
  exists c' : Connection,
    DbManager.delete_webhook Sample.first_id (App.get_db Sample.two_endpoints) = (Ok tt, c') /\
    let file' := App.close_db c' in
    webhooks file' =
      filter (fun r => negb (is_webhook Sample.first_id r)) (webhooks Sample.two_endpoints) /\
    webhook_payloads file' =
      filter (fun p => negb (payload_of Sample.first_id p))
        (webhook_payloads Sample.two_endpoints) /\
    webhook_failures file' =
      filter (fun f => negb (failure_of Sample.first_id f))
        (webhook_failures Sample.two_endpoints) /\
    DbManager.payloads_of Sample.first_id file' = [] /\
    DbManager.failures_of Sample.first_id file' = [] /\
    (forall other, other <> Sample.first_id ->
       DbManager.payloads_of other file' = DbManager.payloads_of other Sample.two_endpoints /\
       DbManager.failures_of other file' = DbManager.failures_of other Sample.two_endpoints /\
       find (is_webhook other) (webhooks file') =
         find (is_webhook other) (webhooks Sample.two_endpoints)) /\
    DbManager.get_webhook Sample.first_id (App.get_db file') = (Ok None, App.get_db file').
Proof.
  split; [reflexivity|].
  apply (delete_webhook_cascades Sample.two_endpoints Sample.first_id
           (Webhook.mk Sample.first_id
              "http://localhost:5000/webhook/0b9e6a52-7d3c-4f1e-9a57-3c1d2e4f5a6b"
              (Clock.isoformat Sample.morning) 1 1 (Some (Clock.isoformat Sample.noon))));
    reflexivity.
Defined.


Lemma success_count_is_payload_count_witness :
  let requests := [Generate Sample.first_id Sample.morning Sample.host_url] in
  let items := [(Sample.noon, Json.Int 1); (Sample.afternoon, Json.Null)] in
  find (is_webhook Sample.first_id) (webhooks (run requests)) = Some Sample.endpoint /\
  Webhook.success_count Sample.endpoint =
    Z.of_nat (List.length (DbManager.payloads_of Sample.first_id (run requests))) /\
  (Webhook.success_count Sample.endpoint = 0 ->
   exists (file' : Database) (w' : Webhook.row),
     ingest_all Sample.first_id items (run requests) = Some file' /\
     find (is_webhook Sample.first_id) (webhooks file') = Some w' /\
     Webhook.success_count w' = Z.of_nat (List.length items) /\
     List.length (DbManager.payloads_of Sample.first_id file') = List.length items).
Proof.
  cbv zeta. split; [reflexivity|].
  destruct (success_count_is_payload_count
              [Generate Sample.first_id Sample.morning Sample.host_url]
              Sample.first_id Sample.endpoint eq_refl) as [Hcount Hingest].
  split; [exact Hcount|].
  intro Hzero. exact (Hingest Hzero [(Sample.noon, Json.Int 1); (Sample.afternoon, Json.Null)]).
Defined.

Lemma sample_readings_valid : Forall Clock.valid Sample.readings.
Proof. repeat constructor; cbn; lia. Qed.

Lemma daily_counts_witness :
  Clock.valid Sample.evening /\ 0 <= 7 /\ - 719528 <= day_number Sample.evening - 7 /\
  Forall Clock.valid Sample.readings /\
  column_values (current (App.get_db Sample.three_rows)) t_webhook_payloads c_timestamp =
    Some (map (fun x => Some (Clock.isoformat x)) Sample.readings) /\
  exists rows : list (string * Z),
    DbManager.get_daily_counts Sample.evening t_webhook_payloads c_timestamp 7
      (App.get_db Sample.three_rows) = (Ok rows, App.get_db Sample.three_rows) /\
    rows = [("2024-01-01", 1); ("2024-01-02", 2)] /\
    StronglySorted text_lt (map fst rows) /\
    (forall d n, In (d, n) rows ->
       1 <= n /\
       n = Sqlite.count (filter (fun x => String.eqb d (date_of x)) Sample.readings) /\
       forall x, Clock.valid x -> date_of x = d ->
         day_number Sample.evening - 7 <= day_number x) /\
    (forall x, In x Sample.readings ->
       day_number x < day_number Sample.evening - 7 -> ~ In (date_of x) (map fst rows)).
Proof.
  assert (Hnow : Clock.valid Sample.evening) by (unfold Clock.valid; cbn; lia).
  assert (Hlow : - 719528 <= day_number Sample.evening - 7) by (vm_compute; discriminate).
  split; [exact Hnow|]. split; [lia|]. split; [exact Hlow|].
  split; [exact sample_readings_valid|]. split; [reflexivity|].
  destruct (daily_counts (App.get_db Sample.three_rows) Sample.evening t_webhook_payloads
              c_timestamp 7 Sample.readings Hnow ltac:(lia) Hlow sample_readings_valid eq_refl)
    as (rows & Hrun & Hsorted & _ & Hcounts & _ & Hfar).
  exists rows. split; [exact Hrun|].
  split; [|split; [exact Hsorted|split; [exact Hcounts|exact Hfar]]].
  vm_compute in Hrun. now injection Hrun as <-.
Defined.

(** C9, as written, does not hold.  At 2024-01-08T23:59:59 the table holds
    a payload row written at the first second of each of the eight days
    from 2024-01-01 on; [get_daily_counts] with [days] = 7 lists eight
    dates, and among them 2024-01-01, whose row is 691199 seconds old, more
    than 7 times 24 hours, and whose date is the eighth counting back from
    today's: the query compares calendar dates with
    [date('now', '-7 days')], which is ["2024-01-01"], and keeps the dates
    that are equal to it. *)
Theorem daily_counts_lists_eight_dates :
  Sqlite.date_now_minus_days Scenario.late 7 = Some "2024-01-01" /\
  DbManager.get_daily_counts Scenario.late t_webhook_payloads c_timestamp 7
    (App.get_db (run Scenario.eight_days)) =
    (Ok [("2024-01-01", 1); ("2024-01-02", 1); ("2024-01-03", 1); ("2024-01-04", 1);
         ("2024-01-05", 1); ("2024-01-06", 1); ("2024-01-07", 1); ("2024-01-08", 1)],
     App.get_db (run Scenario.eight_days)) /\
  In (Clock.isoformat (Scenario.midnight 1))
     (map WebhookPayload.timestamp (webhook_payloads (run Scenario.eight_days))) /\
  microseconds Scenario.late - microseconds (Scenario.midnight 1) = 691199 * 1000000 /\
  7 * 24 * 3600 * 1000000 < microseconds Scenario.late - microseconds (Scenario.midnight 1).
Proof.
  split; [vm_compute; reflexivity|]. split; [vm_compute; reflexivity|].
  split; [vm_compute; left; reflexivity|]. split; vm_compute; reflexivity.
Qed.

Lemma export_is_what_was_ingested_witness :
  let requests :=
    [Generate Sample.first_id Sample.morning Sample.host_url;
     Ingest Sample.noon Sample.afternoon Sample.first_id "[1, 2]";
     Ingest Sample.evening Sample.evening Sample.first_id "not json";
     Ingest Sample.evening Sample.evening Sample.first_id " null "] in
  find (is_webhook Sample.first_id) (webhooks (run requests)) = Some Sample.busy_endpoint /\
  exists sorted : list ingestion,
    App.serve (App.download_webhook_data Sample.first_id) (run requests) =
      (App.mk_reply 200
         (App.Download ("webhook_" ++ Sample.first_id ++ ".json") (map exported sorted)),
       [], run requests) /\
    map exported sorted =
      [("2024-01-02T18:30:00+00:00", Json.Null);
       ("2024-01-02T12:00:00+00:00", Json.Array [Json.Int 1; Json.Int 2])] /\
    Permutation sorted (ingested requests Sample.first_id) /\
    StronglySorted (fun a b => newer_text a b = true) sorted.
Proof.
  cbv zeta.
  assert (Hfind :
    find (is_webhook Sample.first_id)
      (webhooks
         (run [Generate Sample.first_id Sample.morning Sample.host_url;
               Ingest Sample.noon Sample.afternoon Sample.first_id "[1, 2]";
               Ingest Sample.evening Sample.evening Sample.first_id "not json";
               Ingest Sample.evening Sample.evening Sample.first_id " null "])) =
    Some Sample.busy_endpoint) by reflexivity.
  split; [exact Hfind|].
  destruct (export_is_what_was_ingested
              [Generate Sample.first_id Sample.morning Sample.host_url;
               Ingest Sample.noon Sample.afternoon Sample.first_id "[1, 2]";
               Ingest Sample.evening Sample.evening Sample.first_id "not json";
               Ingest Sample.evening Sample.evening Sample.first_id " null "]
              Sample.first_id Sample.busy_endpoint Hfind)
    as (sorted & Hserve & _ & Hperm & Hsorted & _).
  exists sorted. split; [exact Hserve|]. split; [|split; assumption].
  assert (Hval :
    App.serve (App.download_webhook_data Sample.first_id)
      (run [Generate Sample.first_id Sample.morning Sample.host_url;
            Ingest Sample.noon Sample.afternoon Sample.first_id "[1, 2]";
            Ingest Sample.evening Sample.evening Sample.first_id "not json";
            Ingest Sample.evening Sample.evening Sample.first_id " null "]) =
    (App.mk_reply 200
       (App.Download ("webhook_" ++ Sample.first_id ++ ".json")
          [("2024-01-02T18:30:00+00:00", Json.Null);
           ("2024-01-02T12:00:00+00:00", Json.Array [Json.Int 1; Json.Int 2])]),
     [],
     run [Generate Sample.first_id Sample.morning Sample.host_url;
          Ingest Sample.noon Sample.afternoon Sample.first_id "[1, 2]";
          Ingest Sample.evening Sample.evening Sample.first_id "not json";
          Ingest Sample.evening Sample.evening Sample.first_id " null "])) by reflexivity.
  rewrite Hval in Hserve. injection Hserve as Hs. symmetry. exact Hs.
Defined.

End Samples.

(* ================================================================== *)
(** ** Pages of a listing *)
(* ================================================================== *)

Section Pages.

Import Sql.

Lemma firstn_plus {A} (a b : nat) (l : list A) :
  firstn (a + b) l = firstn a l ++ firstn b (skipn a l).
Proof.
  revert l. induction a as [|a IH]; intros [|x l]; cbn; try reflexivity.
  - now rewrite firstn_nil.
  - now rewrite IH.
Qed.

Lemma chunks_concat {A} (n : nat) (l : list A) (k : nat) :
  flat_map (fun i => firstn n (skipn (i * n) l)) (seq 0 k) = firstn (k * n) l.
Proof.
  induction k as [|k IH]; [reflexivity|].
  rewrite seq_S, flat_map_app, IH. cbn [flat_map plus]. rewrite app_nil_r.
  replace (S k * n)%nat with (k * n + n)%nat by lia.
  now rewrite firstn_plus.
Qed.

(** The pages 1 to [total] of a listing, one after the other, are the
    listing. *)
Lemma limit_offset_pages {A} (per_page total : Z) (l : list A) :
  0 < per_page -> 0 <= total -> Z.of_nat (List.length l) <= total * per_page ->
  flat_map (fun page => Sqlite.limit_offset per_page ((page - 1) * per_page) l)
    (pages_upto total) = l.
Proof.
  intros Hpp Htotal Hlen. unfold pages_upto.
  rewrite <- seq_shift, map_map, flat_map_concat_map, map_map, <- flat_map_concat_map.
  rewrite (flat_map_ext _ (fun i => firstn (Z.to_nat per_page)
                                      (skipn (i * Z.to_nat per_page) l))).
  - rewrite chunks_concat. apply firstn_all2. nia.
  - intro i. unfold Sqlite.limit_offset.
    destruct (Z.ltb_spec per_page 0) as [Hneg|_]; [lia|].
    do 2 f_equal. nia.
Qed.

Lemma limit_offset_bound {A} (per_page offset : Z) (l : list A) :
  0 < per_page ->
  Z.of_nat (List.length (Sqlite.limit_offset per_page offset l)) <= per_page.
Proof.
  intro Hpp. unfold Sqlite.limit_offset.
  destruct (Z.ltb_spec per_page 0) as [Hneg|_]; [lia|].
  rewrite length_firstn. lia.
Qed.

Lemma limit_offset_beyond {A} (per_page offset : Z) (l : list A) :
  0 < per_page -> Z.of_nat (List.length l) <= offset ->
  Sqlite.limit_offset per_page offset l = [].
Proof.
  intros Hpp Hoff. unfold Sqlite.limit_offset.
  destruct (Z.ltb_spec per_page 0) as [Hneg|_]; [lia|].
  rewrite skipn_all2 by lia. apply firstn_nil.
Qed.

Lemma limit_offset_first {A} (per_page offset : Z) (l : list A) :
  offset <= 0 ->
  Sqlite.limit_offset per_page offset l = Sqlite.limit_offset per_page 0 l.
Proof.
  intro Hoff. unfold Sqlite.limit_offset.
  replace (Z.to_nat offset) with (Z.to_nat 0) by lia. reflexivity.
Qed.

(** [math.ceil(n / per_page)] for a positive page size. *)
Lemma ceil_bounds (n per_page : Z) :
  0 < per_page ->
  (- (- n / per_page) - 1) * per_page < n <= - (- n / per_page) * per_page.
Proof. intro Hpp. Z.div_mod_to_equations. nia. Qed.





End Pages.

(* ================================================================== *)
(** ** What the routes answer, emit and leave *)
(* ================================================================== *)

Section Answers.

Context `{JsonPretty}.
Import Sql.

(** X5. [POST /webhook/<id>] answers 404, 400 or 200 and nothing else.
    404 is for an unknown endpoint: nothing is stored or emitted, whatever
    the body.  400 is for a body that is not JSON: nothing is emitted.
    200 is for a body that is JSON: one payload row is stored and one
    event is emitted, to the room of the endpoint, with the id, the
    timestamp and the payload text of that very row; the reply carries the
    same timestamp, which is [isoformat] of the clock reading. *)
Theorem event_carries_the_stored_row (file : Database) (now later : Clock.datetime)
    (webhook_id request_body : string) :
  exists (r : App.reply) (out : list App.emission) (file' : Database),
    App.serve (App.webhook now later webhook_id request_body) file = (r, out, file') /\
    ((App.status r = 404 /\
      find (is_webhook webhook_id) (webhooks file) = None /\
      out = [] /\ file' = file) \/
     (App.status r = 400 /\
      has_webhook file webhook_id = true /\ loads request_body = None /\
      out = [] /\ webhook_payloads file' = webhook_payloads file) \/
     (App.status r = 200 /\
      has_webhook file webhook_id = true /\
      exists (data : json) (p : WebhookPayload.row),
        loads request_body = Some data /\
        webhook_payloads file' = webhook_payloads file ++ [p] /\
        WebhookPayload.webhook_id p = webhook_id /\
        WebhookPayload.timestamp p = Clock.isoformat now /\
        WebhookPayload.payload p = dumps data /\
        out = [event_of p] /\
        App.body r = App.Received (WebhookPayload.timestamp p))).
Proof.
  destruct (find (is_webhook webhook_id) (webhooks file)) as [w|] eqn:Hfind.
  - rewrite (webhook_existing _ now later _ request_body _ Hfind).
    pose proof (find_has_webhook _ _ _ Hfind) as Hhas.
    destruct (loads request_body) as [data|]; do 3 eexists; (split; [reflexivity|]).
    + right. right. split; [reflexivity|]. split; [exact Hhas|].
      exists data. eexists. repeat split.
    + right. left. repeat split. exact Hhas.
  - rewrite (webhook_unknown _ now later _ request_body Hfind).
    do 3 eexists. split; [reflexivity|]. left. repeat split.
Qed.

(** X6. The four routes that look the endpoint up first answer 404, with
    the description ["Webhook ID <id> not found."], for an identifier that
    [webhooks] does not hold; they store nothing and emit nothing: a bad
    body sent to an unknown endpoint is not counted as a failure, and a
    delete of an unknown endpoint deletes nothing. *)
Theorem unknown_endpoint_is_404 (file : Database) (webhook_id : string)
    (now later : Clock.datetime) (request_body : string) (page : Z) :
  find (is_webhook webhook_id) (webhooks file) = None ->
  let not_found :=
    (App.mk_reply 404 (App.Aborted ("Webhook ID " ++ webhook_id ++ " not found.")),
     @nil App.emission, file) in
  App.serve (App.webhook now later webhook_id request_body) file = not_found /\
  App.serve (App.show_webhook_data webhook_id page) file = not_found /\
  App.serve (App.download_webhook_data webhook_id) file = not_found /\
  App.serve (App.delete_webhook webhook_id) file = not_found.
Proof.
  intro Hfind. cbv zeta.
  unfold App.serve, App.webhook, App.show_webhook_data, App.download_webhook_data,
    App.delete_webhook, App.get_webhook_or_404, bind, App.db_manager,
    DbManager.get_webhook, select.
  cbn [App.g_db App.get_db current App.emitted]. rewrite Hfind.
  repeat split.
Qed.

Lemma reads_only_ret {S A} (a : A) : reads_only (@ret S A a).
Proof. intro s. reflexivity. Qed.

Lemma reads_only_raise {S A} (e : exn) : reads_only (@raise S A e).
Proof. intro s. reflexivity. Qed.

Lemma reads_only_bind {S A B} (m : M S A) (k : A -> M S B) :
  reads_only m -> (forall a, reads_only (k a)) -> reads_only (bind m k).
Proof.
  intros Hm Hk s. unfold bind. specialize (Hm s).
  destruct (m s) as [[a|e] s']; cbn in Hm; subst s'; [apply Hk|reflexivity].
Qed.

Lemma reads_only_select {A} (q : Database -> A) : reads_only (select q).
Proof. intro c. reflexivity. Qed.

Lemma reads_only_select_column (t : table) (col : column) :
  reads_only (select_column t col).
Proof.
  intro c. unfold select_column. destruct (column_values (current c) t col); reflexivity.
Qed.

Lemma reads_only_ceil_div (a b : Z) : reads_only (DbManager.ceil_div a b).
Proof. intro c. unfold DbManager.ceil_div. destruct (b =? 0); reflexivity. Qed.

Lemma reads_only_db_manager {A} (m : M Connection A) :
  reads_only m -> reads_only (App.db_manager m).
Proof.
  intros Hm [c out]. unfold App.db_manager. cbn [App.g_db App.emitted].
  specialize (Hm c). destruct (m c) as [r c']. cbn in Hm. now subst c'.
Qed.

Lemma reads_only_parse_rows (payloads : list (string * string)) :
  reads_only (App.parse_rows payloads).
Proof.
  induction payloads as [|[timestamp payload] payloads IH]; [apply reads_only_ret|].
  cbn [App.parse_rows]. destruct (loads payload); [|apply reads_only_raise].
  apply reads_only_bind; [exact IH|]. intro parsed. apply reads_only_ret.
Qed.

Ltac only_selects :=
  repeat first
    [ apply reads_only_ret | apply reads_only_raise | apply reads_only_select
    | apply reads_only_select_column | apply reads_only_ceil_div
    | apply reads_only_parse_rows | apply reads_only_db_manager
    | apply reads_only_bind
    | match goal with
      | |- forall _, reads_only _ => intro
      | |- reads_only (match ?x with _ => _ end) => destruct x
      end ].

Lemma serve_untouched (route : M App.Ctx App.reply) (file : Database) :
  reads_only route -> untouched (App.serve route file) file.
Proof.
  intro Hr. unfold App.serve. specialize (Hr (App.mk_ctx (App.get_db file) [])).
  destruct (route _) as [[r|e] ctx]; cbn in Hr; subst ctx; [split; reflexivity|].
  destruct e; split; reflexivity.
Qed.

Lemma render_untouched {A} (view : M App.Ctx A) (file : Database) :
  reads_only view -> untouched (Views.render view file) file.
Proof.
  intro Hr. unfold Views.render. specialize (Hr (App.mk_ctx (App.get_db file) [])).
  destruct (view _) as [r ctx]; cbn in Hr; subst ctx. split; reflexivity.
Qed.

(** X7. The five pages only read: whatever the file, the arguments and the
    clock, and whether the page is rendered or the request ends in an
    error, the file is afterwards as it was before, and nothing is
    emitted. *)
Theorem pages_only_read (file : Database) (webhook_id : string)
    (page payload_id : Z) (now1 now2 now3 now4 now5 : Clock.datetime) :
  untouched (Views.render (Views.index now1 now2 now3 now4 now5) file) file /\
  untouched (Views.render (Views.list_all_webhooks page) file) file /\
  untouched (App.serve (App.show_webhook_data webhook_id page) file) file /\
  untouched (App.serve (App.download_webhook_data webhook_id) file) file /\
  untouched (Views.render (Views.download_single_payload payload_id) file) file.
Proof.
  split; [apply render_untouched|split; [apply render_untouched|
    split; [apply serve_untouched|split; [apply serve_untouched|apply render_untouched]]]];
    unfold Views.index, Views.list_all_webhooks, App.show_webhook_data,
      App.download_webhook_data, Views.download_single_payload, App.get_webhook_or_404,
      DbManager.get_total_webhook_count, DbManager.get_stats_today,
      DbManager.get_daily_counts, DbManager.get_all_webhooks_paginated,
      DbManager.get_webhook, DbManager.get_payloads_for_webhook_paginated,
      DbManager.get_all_payloads_for_webhook, DbManager.get_single_payload;
    only_selects.
Qed.

End Answers.

(* ================================================================== *)
(** ** More on the states the application can reach *)
(* ================================================================== *)

Section Keys.

Context `{JsonCodec}.
Import Sql.

Lemma has_webhook_in (db : Database) (k : string) :
  has_webhook db k = true <-> In k (map Webhook.id (webhooks db)).
Proof.
  unfold has_webhook. rewrite existsb_exists, in_map_iff.
  split; intros [w Hw]; exists w; unfold is_webhook in *.
  - destruct Hw as [Hin Hk]. apply String.eqb_eq in Hk. auto.
  - destruct Hw as [Hk Hin]. split; [exact Hin|]. now apply String.eqb_eq.
Qed.

Lemma map_id_update (f : Webhook.row -> Webhook.row) (l : list Webhook.row)
    (webhook_id : string) :
  (forall r, Webhook.id (f r) = Webhook.id r) ->
  map Webhook.id (map (fun r => if is_webhook webhook_id r then f r else r) l) =
  map Webhook.id l.
Proof.
  intro Hid. rewrite map_map. apply map_ext. intro r.
  destruct (is_webhook webhook_id r); [apply Hid|reflexivity].
Qed.

(** Rows that a DELETE leaves have distinct keys if the rows had. *)
Lemma distinct_keys_kept {Row Key : Type} (key : Row -> Key) (rows : list Row)
    (keep : Row -> bool) (Hdistinct : NoDup (map key rows)) :
  NoDup (map key (filter keep rows)).
Proof.
  revert Hdistinct. induction rows as [|r rows IH]; cbn; [auto|]. intro Hnd.
  apply NoDup_cons_iff in Hnd. destruct Hnd as [Hr Hnd].
  destruct (keep r); cbn; [|auto].
  constructor; [|auto]. intro Hin. apply Hr.
  apply in_map_iff in Hin. destruct Hin as [y [Hy Hin]].
  apply filter_In in Hin. apply in_map_iff. exists y. tauto.
Qed.

Lemma sorted_map_filter {A} (f : A -> Z) (p : A -> bool) (l : list A) :
  StronglySorted Z.lt (map f l) -> StronglySorted Z.lt (map f (filter p l)).
Proof.
  induction l as [|x l IH]; cbn; [auto|]. intro Hs.
  apply StronglySorted_inv in Hs. destruct Hs as [Hs Hall].
  destruct (p x); cbn; [|auto].
  constructor; [auto|].
  rewrite Forall_forall in *. intros y Hy. apply Hall.
  apply in_map_iff in Hy. destruct Hy as [z [Hz Hin]].
  apply filter_In in Hin. apply in_map_iff. exists z. tauto.
Qed.

Lemma sorted_map_snoc {A} (f : A -> Z) (l : list A) (x : A) :
  StronglySorted Z.lt (map f l) -> Forall (fun y => f y < f x) l ->
  StronglySorted Z.lt (map f (l ++ [x])).
Proof.
  induction l as [|y l IH]; cbn; intros Hs Hall.
  - repeat constructor.
  - apply StronglySorted_inv in Hs. destruct Hs as [Hs Hy].
    inversion Hall as [|? ? Hyx Hl]; subst.
    constructor; [auto|].
    rewrite map_app, Forall_app. split; [exact Hy|]. repeat constructor. exact Hyx.
Qed.

Lemma Forall_filter_keep {A} (P : A -> Prop) (p : A -> bool) (l : list A) :
  Forall P l -> Forall P (filter p l).
Proof.
  rewrite !Forall_forall. intros Hall x Hx. apply filter_In in Hx. now apply Hall.
Qed.

(** Rows with ascending keys are told apart by their keys. *)
Lemma sorted_keys_inj {A} (f : A -> Z) (l : list A) (x y : A) :
  StronglySorted Z.lt (map f l) -> In x l -> In y l -> f x = f y -> x = y.
Proof.
  induction l as [|a l IH]; cbn; [contradiction|]. intros Hs Hx Hy Hxy.
  apply StronglySorted_inv in Hs. destruct Hs as [Hs Hall].
  rewrite Forall_forall in Hall.
  destruct Hx as [<-|Hx], Hy as [<-|Hy]; auto.
  - specialize (Hall (f y) (in_map f _ _ Hy)). lia.
  - specialize (Hall (f x) (in_map f _ _ Hx)). lia.
Qed.

Lemma well_keyed_empty : well_keyed empty_database.
Proof. repeat split; constructor. Qed.

Lemma well_keyed_handle (file : Database) (r : request) :
  well_keyed file -> well_keyed (handle file r).
Proof.
  intros (Hids & Hps & Hpb & Hfs & Hfb).
  destruct r as [uuid4 now host_url|now later webhook_id body|webhook_id].
  - rewrite generate_webhook_file.
    destruct (has_webhook file uuid4) eqn:Hhas; [repeat split; assumption|].
    repeat split; cbn [webhooks webhook_payloads webhook_failures seq_payloads seq_failures];
      try assumption.
    rewrite map_app. cbn [map Webhook.id].
    apply NoDup_app; [exact Hids|repeat constructor; intros []|].
    intros a Ha [<-|[]]. apply has_webhook_in in Ha. congruence.
  - rewrite ingest_file.
    destruct (has_webhook file webhook_id); [|repeat split; assumption].
    destruct (loads body) as [data|].
    + unfold after_success. repeat split;
        cbn [webhooks webhook_payloads webhook_failures seq_payloads seq_failures];
        try assumption.
      * now rewrite map_id_update.
      * apply sorted_map_snoc; [exact Hps|].
        eapply Forall_impl; [|exact Hpb]. cbn. intros; lia.
      * apply Forall_app. split.
        -- eapply Forall_impl; [|exact Hpb]. cbn. intros; lia.
        -- repeat constructor. cbn. lia.
    + unfold after_failure. repeat split;
        cbn [webhooks webhook_payloads webhook_failures seq_payloads seq_failures];
        try assumption.
      * now rewrite map_id_update.
      * apply sorted_map_snoc; [exact Hfs|].
        eapply Forall_impl; [|exact Hfb]. cbn. intros; lia.
      * apply Forall_app. split.
        -- eapply Forall_impl; [|exact Hfb]. cbn. intros; lia.
        -- repeat constructor. cbn. lia.
  - rewrite delete_webhook_file.
    destruct (has_webhook file webhook_id); [|repeat split; assumption].
    repeat split;
      cbn [webhooks webhook_payloads webhook_failures seq_payloads seq_failures].
    + now apply distinct_keys_kept.
    + now apply sorted_map_filter.
    + now apply Forall_filter_keep.
    + now apply sorted_map_filter.
    + now apply Forall_filter_keep.
Qed.

Lemma well_keyed_fold (requests : list request) :
  forall file, well_keyed file -> well_keyed (fold_left handle requests file).
Proof.
  induction requests as [|r requests IH]; intros file Hk; [exact Hk|].
  cbn [fold_left]. apply IH, well_keyed_handle, Hk.
Qed.

Lemma run_well_keyed (requests : list request) : well_keyed (run requests).
Proof. apply well_keyed_fold, well_keyed_empty. Qed.

Lemma find_unique (l : list Webhook.row) (w : Webhook.row) :
  NoDup (map Webhook.id l) -> In w l ->
  find (is_webhook (Webhook.id w)) l = Some w.
Proof.
  induction l as [|a l IH]; cbn; [contradiction|]. intros Hnd Hin.
  apply NoDup_cons_iff in Hnd. destruct Hnd as [Ha Hnd].
  unfold is_webhook at 1.
  destruct (String.eqb_spec (Webhook.id a) (Webhook.id w)) as [He|Hne].
  - destruct Hin as [->|Hin]; [reflexivity|].
    exfalso. apply Ha. rewrite He. now apply in_map.
  - destruct Hin as [->|Hin]; [congruence|auto].
Qed.

(** X8. In every state that requests lead to from a new file, no two
    endpoints share an identifier; so [get_webhook] of a stored endpoint's
    identifier returns that very row, and [POST /delete/<id>] of it takes
    exactly one endpoint away. *)
Theorem endpoint_ids_are_unique (requests : list request) (w : Webhook.row) :
  In w (webhooks (run requests)) ->
  NoDup (map Webhook.id (webhooks (run requests))) /\
  DbManager.get_webhook (Webhook.id w) (App.get_db (run requests)) =
    (Ok (Some w), App.get_db (run requests)) /\
  Sqlite.count (webhooks (handle (run requests) (Delete (Webhook.id w)))) =
    Sqlite.count (webhooks (run requests)) - 1.
Proof.
  intro Hin. destruct (run_well_keyed requests) as (Hids & _).
  set (file := run requests) in *.
  pose proof (find_unique _ _ Hids Hin) as Hfind.
  split; [exact Hids|]. split.
  - unfold DbManager.get_webhook, select. cbn [App.get_db current]. now rewrite Hfind.
  - rewrite delete_webhook_file.
    assert (Hhas : has_webhook file (Webhook.id w) = true)
      by exact (find_has_webhook _ _ _ Hfind).
    rewrite Hhas. cbn [webhooks]. unfold Sqlite.count.
    clear Hfind Hhas. revert Hids Hin. generalize (webhooks file) as l.
    induction l as [|a l IH]; cbn [map In filter List.length]; [contradiction|].
    intros Hnd Hin. apply NoDup_cons_iff in Hnd. destruct Hnd as [Ha Hnd].
    unfold is_webhook at 1.
    destruct (String.eqb_spec (Webhook.id a) (Webhook.id w)) as [He|Hne]; cbn [negb].
    + rewrite (proj2 (filter_ext_in_iff _ (fun _ => true) l)).
      * rewrite filter_true. lia.
      * intros x Hx. apply negb_true_iff. unfold is_webhook. apply String.eqb_neq.
        intro Hxw. apply Ha. rewrite He, <- Hxw. now apply in_map.
    + destruct Hin as [->|Hin]; [congruence|].
      cbn [List.length]. specialize (IH Hnd Hin). lia.
Qed.

(** X9. In every state that requests lead to from a new file, every row
    of [webhook_payloads] and of [webhook_failures] belongs to an endpoint
    that [webhooks] holds: the foreign keys of the connection and the
    cascade of the delete leave no orphan. *)
Theorem no_orphan_rows (requests : list request) :
  (forall p, In p (webhook_payloads (run requests)) ->
     exists w, find (is_webhook (WebhookPayload.webhook_id p)) (webhooks (run requests))
               = Some w) /\
  (forall f, In f (webhook_failures (run requests)) ->
     exists w, find (is_webhook (WebhookFailure.webhook_id f)) (webhooks (run requests))
               = Some w).
Proof.
  destruct (run_consistent requests) as (_ & Hp & Hf).
  split; [intros p Hin; specialize (Hp p Hin)|intros f Hin; specialize (Hf f Hin)];
    match goal with
    | Hhas : has_webhook _ ?k = true |- _ =>
        destruct (find (is_webhook k) (webhooks (run requests))) as [w|] eqn:Hfind;
        [now exists w|
         apply find_none_has_webhook in Hfind; unfold has_webhook in Hhas; congruence]
    end.
Qed.

(** X10. In every state that requests lead to from a new file, an
    endpoint's [failure_count] is the number of rows of [webhook_failures]
    that it owns; so the two counters together are the number of requests
    that the endpoint has on record. *)
Theorem failure_count_is_failure_rows (requests : list request)
    (webhook_id : string) (w : Webhook.row) :
  find (is_webhook webhook_id) (webhooks (run requests)) = Some w ->
  Webhook.failure_count w =
    Sqlite.count (DbManager.failures_of webhook_id (run requests)) /\
  Webhook.success_count w + Webhook.failure_count w =
    Sqlite.count (DbManager.payloads_of webhook_id (run requests)) +
    Sqlite.count (DbManager.failures_of webhook_id (run requests)).
Proof.
  intro Hfind.
  destruct (run_consistent requests) as (Hcount & _ & _).
  pose proof (find_some _ _ Hfind) as [Hin Hid].
  apply String.eqb_eq in Hid.
  destruct (Hcount w Hin) as [Hs Hf]. rewrite Hid in Hs, Hf. lia.
Qed.

Lemma handle_keys (file : Database) (r : request) :
  seq_payloads file <= seq_payloads (handle file r) /\
  seq_failures file <= seq_failures (handle file r) /\
  (forall p, In p (webhook_payloads (handle file r)) ->
     In p (webhook_payloads file) \/ seq_payloads file < WebhookPayload.id p) /\
  (forall f, In f (webhook_failures (handle file r)) ->
     In f (webhook_failures file) \/ seq_failures file < WebhookFailure.id f).
Proof.
  destruct r as [uuid4 now host_url|now later webhook_id body|webhook_id].
  - rewrite generate_webhook_file.
    destruct (has_webhook file uuid4); cbn; repeat split; auto; lia.
  - rewrite ingest_file.
    destruct (has_webhook file webhook_id); [|repeat split; auto; lia].
    destruct (loads body); cbn; repeat split; auto; try lia.
    + intros p Hin. apply in_app_or in Hin.
      destruct Hin as [Hin|[<-|[]]]; [now left|right; cbn; lia].
    + intros f Hin. apply in_app_or in Hin.
      destruct Hin as [Hin|[<-|[]]]; [now left|right; cbn; lia].
  - rewrite delete_webhook_file.
    destruct (has_webhook file webhook_id); cbn; repeat split; auto; try lia.
    + intros p Hin. apply filter_In in Hin. now left.
    + intros f Hin. apply filter_In in Hin. now left.
Qed.

Lemma fold_keys (requests : list request) :
  forall file,
    seq_payloads file <= seq_payloads (fold_left handle requests file) /\
    seq_failures file <= seq_failures (fold_left handle requests file) /\
    (forall p, In p (webhook_payloads (fold_left handle requests file)) ->
       In p (webhook_payloads file) \/ seq_payloads file < WebhookPayload.id p) /\
    (forall f, In f (webhook_failures (fold_left handle requests file)) ->
       In f (webhook_failures file) \/ seq_failures file < WebhookFailure.id f).
Proof.
  induction requests as [|r requests IH]; intro file; cbn [fold_left].
  - repeat split; auto; lia.
  - destruct (handle_keys file r) as (Hsp & Hsf & Hp & Hf).
    destruct (IH (handle file r)) as (Hsp' & Hsf' & Hp' & Hf').
    repeat split; try lia.
    + intros p Hin. destruct (Hp' p Hin) as [Hold|Hnew]; [|right; lia].
      destruct (Hp p Hold); [now left|right; lia].
    + intros f Hin. destruct (Hf' f Hin) as [Hold|Hnew]; [|right; lia].
      destruct (Hf f Hold); [now left|right; lia].
Qed.

(** X11. The keys of the two record tables are never used twice, not even
    after a delete: a key that denotes a row after some requests denotes
    the same row after any further requests, as long as any row has it;
    and in one state no two rows of a table share a key. *)
Theorem record_ids_are_never_reused (requests more : list request) :
  (forall p q, In p (webhook_payloads (run requests)) ->
     In q (webhook_payloads (run (requests ++ more))) ->
     WebhookPayload.id p = WebhookPayload.id q -> p = q) /\
  (forall f g, In f (webhook_failures (run requests)) ->
     In g (webhook_failures (run (requests ++ more))) ->
     WebhookFailure.id f = WebhookFailure.id g -> f = g).
Proof.
  unfold run. rewrite fold_left_app. fold (run requests).
  destruct (run_well_keyed requests) as (_ & Hps & Hpb & Hfs & Hfb).
  destruct (fold_keys more (run requests)) as (_ & _ & Hp & Hf).
  rewrite Forall_forall in Hpb, Hfb.
  split.
  - intros p q Hin Hin' Heq. destruct (Hp q Hin') as [Hold|Hnew].
    + exact (sorted_keys_inj _ _ _ _ Hps Hin Hold Heq).
    + specialize (Hpb p Hin). lia.
  - intros f g Hin Hin' Heq. destruct (Hf g Hin') as [Hold|Hnew].
    + exact (sorted_keys_inj _ _ _ _ Hfs Hin Hold Heq).
    + specialize (Hfb f Hin). lia.
Qed.

Lemma latest_snoc (webhook_id : string) (l : list WebhookPayload.row)
    (p : WebhookPayload.row) :
  last (map (fun p => Some (WebhookPayload.timestamp p))
          (filter (payload_of webhook_id) (l ++ [p]))) None =
  if payload_of webhook_id p then Some (WebhookPayload.timestamp p)
  else last (map (fun p => Some (WebhookPayload.timestamp p))
               (filter (payload_of webhook_id) l)) None.
Proof.
  rewrite filter_app. cbn [filter]. destruct (payload_of webhook_id p).
  - rewrite map_app. cbn [map]. apply last_last.
  - now rewrite app_nil_r.
Qed.

Lemma last_payload_kept_handle (file : Database) (r : request) :
  consistent file -> last_payload_kept file -> last_payload_kept (handle file r).
Proof.
  intros (_ & Horphan & _) Hkept.
  unfold last_payload_kept, latest_timestamp, DbManager.payloads_of in *.
  destruct r as [uuid4 now host_url|now later webhook_id body|webhook_id].
  - rewrite generate_webhook_file.
    destruct (has_webhook file uuid4) eqn:Hhas; [exact Hkept|].
    cbn [webhooks webhook_payloads]. intros w Hin.
    apply in_app_or in Hin. destruct Hin as [Hin|[<-|[]]]; [auto|].
    cbn [Webhook.id Webhook.last_payload_at].
    rewrite filter_none; [reflexivity|].
    intros p Hp. unfold payload_of.
    destruct (String.eqb_spec (WebhookPayload.webhook_id p) uuid4) as [He|]; [|reflexivity].
    specialize (Horphan p Hp). rewrite He in Horphan. congruence.
  - rewrite ingest_file.
    destruct (has_webhook file webhook_id); [|exact Hkept].
    destruct (loads body) as [data|].
    + unfold after_success. cbn [webhooks webhook_payloads]. intros w' Hin.
      apply in_update in Hin. destruct Hin as [w [Hin [[Hw ->]|[Hw ->]]]];
        cbn [Webhook.id Webhook.last_payload_at]; rewrite latest_snoc;
        unfold payload_of at 1; cbn [WebhookPayload.webhook_id WebhookPayload.timestamp];
        unfold is_webhook in Hw; rewrite String.eqb_sym, Hw; auto.
    + unfold after_failure. cbn [webhooks webhook_payloads]. intros w' Hin.
      apply in_update in Hin. destruct Hin as [w [Hin [[Hw ->]|[Hw ->]]]];
        cbn [Webhook.id Webhook.last_payload_at]; auto.
  - rewrite delete_webhook_file.
    destruct (has_webhook file webhook_id); [|exact Hkept].
    cbn [webhooks webhook_payloads]. intros w Hin.
    apply filter_In in Hin. destruct Hin as [Hin Hw].
    apply negb_true_iff in Hw. unfold is_webhook in Hw. apply String.eqb_neq in Hw.
    rewrite filter_filter_neg; [auto|].
    intros p. unfold payload_of. apply eqb_other. exact Hw.
Qed.

Lemma last_payload_kept_fold (requests : list request) :
  forall file, consistent file -> last_payload_kept file ->
    last_payload_kept (fold_left handle requests file).
Proof.
  induction requests as [|r requests IH]; intros file Hc Hk; [exact Hk|].
  cbn [fold_left]. apply IH; [now apply consistent_handle|now apply last_payload_kept_handle].
Qed.

(** X12. In every state that requests lead to from a new file, an
    endpoint's [last_payload_at] is the timestamp of the payload row that
    was stored last for it; it is NULL exactly when [success_count] is 0,
    that is when the endpoint has no payload row. *)
Theorem last_payload_at_is_the_latest (requests : list request) (w : Webhook.row) :
  In w (webhooks (run requests)) ->
  Webhook.last_payload_at w = latest_timestamp (Webhook.id w) (run requests) /\
  (Webhook.last_payload_at w = None <-> Webhook.success_count w = 0) /\
  (Webhook.success_count w = 0 <->
   DbManager.payloads_of (Webhook.id w) (run requests) = []).
Proof.
  intro Hin.
  assert (Hkept : last_payload_kept (run requests)).
  { apply last_payload_kept_fold; [apply consistent_empty|intros ? []]. }
  destruct (run_consistent requests) as (Hcount & _ & _).
  destruct (Hcount w Hin) as [Hs _]. specialize (Hkept w Hin).
  split; [exact Hkept|].
  rewrite Hkept, Hs. unfold latest_timestamp, Sqlite.count.
  destruct (DbManager.payloads_of (Webhook.id w) (run requests)) as [|p l] using rev_ind.
  - cbn. repeat split; auto; discriminate.
  - rewrite map_app. cbn [map]. rewrite last_last, length_app. cbn [List.length].
    repeat split; try discriminate; try lia.
    intro Hnil. now apply app_eq_nil in Hnil as [_ Hnil].
Qed.

Lemma created_on_fold (requests : list request) :
  (forall uuid4 now host_url, In (Generate uuid4 now host_url) requests -> Clock.valid now) ->
  forall file,
    Forall (fun w => exists now, created_on w now) (webhooks file) ->
    Forall (fun w => exists now, created_on w now) (webhooks (fold_left handle requests file)).
Proof.
  induction requests as [|r requests IH]; intros Hvalid file Hfile; [exact Hfile|].
  cbn [fold_left]. apply IH; [intros; eapply Hvalid; right; eassumption|].
  destruct r as [uuid4 now host_url|now later webhook_id body|webhook_id].
  - rewrite generate_webhook_file.
    destruct (has_webhook file uuid4); [exact Hfile|]. cbn [webhooks].
    apply Forall_app. split; [exact Hfile|]. repeat constructor.
    exists now. split; [|reflexivity]. eapply Hvalid. left. reflexivity.
  - rewrite ingest_file.
    destruct (has_webhook file webhook_id); [|exact Hfile].
    rewrite Forall_forall in *.
    destruct (loads body); cbn [after_success after_failure webhooks];
      intros w' Hin; apply in_update in Hin;
      destruct Hin as [w [Hin [[_ ->]|[_ ->]]]]; auto;
      destruct (Hfile w Hin) as [t Ht]; exists t; exact Ht.
  - rewrite delete_webhook_file.
    destruct (has_webhook file webhook_id); [|exact Hfile]. cbn [webhooks].
    now apply Forall_filter_keep.
Qed.

Lemma limit_offset_in {A} (n k : Z) (l : list A) (x : A) :
  In x (Sqlite.limit_offset n k l) -> In x l.
Proof.
  unfold Sqlite.limit_offset. intro Hin.
  assert (Hskip : In x (skipn (Z.to_nat k) l)).
  { destruct (n <? 0); [exact Hin|].
    rewrite <- (firstn_skipn (Z.to_nat n) (skipn (Z.to_nat k) l)).
    apply in_or_app. now left. }
  rewrite <- (firstn_skipn (Z.to_nat k) l). apply in_or_app. now right.
Qed.

Lemma sorted_skipn {A} (R : A -> A -> Prop) (k : nat) (l : list A) :
  StronglySorted R l -> StronglySorted R (skipn k l).
Proof.
  revert l. induction k as [|k IH]; intros l Hs; [exact Hs|].
  destruct l as [|x l]; [constructor|]. cbn [skipn].
  apply StronglySorted_inv in Hs. now apply IH.
Qed.

Lemma sorted_firstn {A} (R : A -> A -> Prop) (n : nat) (l : list A) :
  StronglySorted R l -> StronglySorted R (firstn n l).
Proof.
  revert l. induction n as [|n IH]; intros l Hs; [constructor|].
  destruct l as [|x l]; [constructor|]. cbn [firstn].
  apply StronglySorted_inv in Hs. destruct Hs as [Hs Hall].
  constructor; [now apply IH|].
  rewrite Forall_forall in *. intros y Hy. apply Hall.
  rewrite <- (firstn_skipn n l). apply in_or_app. now left.
Qed.

Lemma sorted_limit_offset {A} (R : A -> A -> Prop) (n k : Z) (l : list A) :
  StronglySorted R l -> StronglySorted R (Sqlite.limit_offset n k l).
Proof.
  intro Hs. unfold Sqlite.limit_offset.
  destruct (n <? 0); [|apply sorted_firstn]; now apply sorted_skipn.
Qed.

Lemma newest_first (rows : list Webhook.row) :
  Forall (fun w => exists now, created_on w now) rows ->
  StronglySorted (fun a b => Sqlite.desc Webhook.created_at a b = true) rows ->
  exists readings : list Clock.datetime,
    Forall2 created_on rows readings /\
    StronglySorted (fun a b => Clock.le b a = true) readings.
Proof.
  induction 1 as [|w rows [t Ht] Hrows IH]; intro Hs.
  - exists []. split; constructor.
  - apply StronglySorted_inv in Hs. destruct Hs as [Hs Hall].
    destruct (IH Hs) as (readings & Hmatch & Hsorted).
    exists (t :: readings). split; [now constructor|].
    constructor; [exact Hsorted|].
    clear - Ht Hall Hmatch. induction Hmatch as [|w' t' rows readings Hw' _ IH'];
      [constructor|].
    inversion Hall as [|? ? Hfirst Hrest]; subst.
    constructor; [|now apply IH'].
    destruct Ht as [Hvt Ht], Hw' as [Hvt' Ht'].
    unfold Sqlite.desc, Text.text_ge in Hfirst. rewrite Ht, Ht' in Hfirst.
    now rewrite <- (leb_isoformat t' t Hvt' Hvt).
Qed.



End Keys.

(* ================================================================== *)
(** ** From the ingestion to the single download; new endpoints *)
(* ================================================================== *)

Section Fetching.

Context `{JsonPretty}.
Import Sql.

Lemma find_new_key (l : list WebhookPayload.row) (p : WebhookPayload.row) :
  Forall (fun q => WebhookPayload.id q < WebhookPayload.id p) l ->
  find (fun q => WebhookPayload.id q =? WebhookPayload.id p) (l ++ [p]) = Some p.
Proof.
  induction 1 as [|q l Hq _ IH]; cbn.
  - now rewrite Z.eqb_refl.
  - destruct (Z.eqb_spec (WebhookPayload.id q) (WebhookPayload.id p)); [lia|exact IH].
Qed.

(** X13. After any run of requests, a JSON body sent to an existing
    endpoint is announced by one event whose id is above the id of every
    payload row there was; [get_single_payload] of that id returns the
    text that was stored, which is [json.dumps] of the parsed body, and
    [GET /download/payload/<id>] answers with the file [payload_<id>.json]
    holding that same value written with [indent=2]. *)
Theorem emitted_id_fetches_the_payload (requests : list request)
    (now later : Clock.datetime) (webhook_id request_body : string)
    (w : Webhook.row) (data : json) :
  find (is_webhook webhook_id) (webhooks (run requests)) = Some w ->
  loads request_body = Some data ->
  exists (r : App.reply) (payload_id : Z) (timestamp : string) (file' : Database),
    App.serve (App.webhook now later webhook_id request_body) (run requests) =
      (r, [App.mk_emission "new_payload"
             (App.mk_payload_data payload_id timestamp (dumps data)) webhook_id],
       file') /\
    (forall p, In p (webhook_payloads (run requests)) ->
       WebhookPayload.id p < payload_id) /\
    DbManager.get_single_payload payload_id (App.get_db file') =
      (Ok (Some (dumps data)), App.get_db file') /\
    Views.render (Views.download_single_payload payload_id) file' =
      (Ok (Views.mk_attachment ("payload_" ++ Views.str_int payload_id ++ ".json")
             "application/json" (dumps_indent data)),
       [], file').
Proof.
  intros Hfind Hbody.
  rewrite (webhook_existing _ now later _ request_body _ Hfind), Hbody.
  destruct (run_well_keyed requests) as (_ & _ & Hpb & _).
  set (file := run requests) in *.
  set (p := WebhookPayload.mk (seq_payloads file + 1) webhook_id
              (Clock.isoformat now) (dumps data)).
  assert (Hbelow : Forall (fun q => WebhookPayload.id q < WebhookPayload.id p)
                     (webhook_payloads file)).
  { eapply Forall_impl; [|exact Hpb]. cbn. intros; lia. }
  assert (Hget : DbManager.get_single_payload (seq_payloads file + 1)
                   (App.get_db (after_success file (Clock.isoformat now) webhook_id
                                  (dumps data))) =
                 (Ok (Some (dumps data)),
                  App.get_db (after_success file (Clock.isoformat now) webhook_id
                                (dumps data)))).
  { unfold DbManager.get_single_payload, select, after_success.
    cbn [App.get_db current webhook_payloads].
    change (seq_payloads file + 1) with (WebhookPayload.id p) at 1.
    fold p. now rewrite (find_new_key _ p Hbelow). }
  do 4 eexists. split; [reflexivity|]. split; [|split; [exact Hget|]].
  - rewrite Forall_forall in Hbelow. exact Hbelow.
  - unfold Views.render, Views.download_single_payload, bind, App.db_manager.
    cbn [App.g_db]. rewrite Hget.
    rewrite (loads_dumps request_body data Hbody). reflexivity.
Qed.

(** X14. On a connection with foreign keys on (as [get_db] opens it),
    [record_successful_payload] for an identifier that [webhooks] does not
    hold raises [IntegrityError] from the INSERT, before the UPDATE and
    the commit: the connection is left as it was and no payload row is
    stored. *)
Theorem record_successful_payload_unknown_id (c : Connection) (now : Clock.datetime)
    (webhook_id : string) (data : json) :
  foreign_keys c = true ->
  find (is_webhook webhook_id) (webhooks (current c)) = None ->
  DbManager.record_successful_payload now webhook_id data c =
    (Raise (IntegrityError "FOREIGN KEY constraint failed"), c) /\
  App.close_db (snd (DbManager.record_successful_payload now webhook_id data c)) =
    App.close_db c.
Proof.
  intros Hfk Hnone.
  unfold DbManager.record_successful_payload, bind, insert_payload, has_webhook.
  rewrite (find_none_has_webhook _ _ Hnone), Hfk. split; reflexivity.
Qed.

Lemma rstrip_snoc (c : ascii) (s : string) :
  Text.rstrip c (s ++ String c "") = Text.rstrip c s.
Proof.
  induction s as [|a s IH]; cbn.
  - now rewrite Ascii.eqb_refl.
  - cbn in IH. now rewrite IH.
Qed.

Lemma rstrip_slashes (s : string) (k : nat) :
  Text.rstrip "/" (s ++ slashes k) = Text.rstrip "/" s.
Proof.
  revert s. induction k as [|k IH]; intro s; cbn [slashes].
  - now rewrite append_empty_r.
  - change (String "/" (slashes k)) with (String "/" "" ++ slashes k)%string.
    rewrite <- append_assoc, IH. apply rstrip_snoc.
Qed.

Lemma rstrip_split (s : string) :
  exists k : nat, s = (Text.rstrip "/" s ++ slashes k)%string.
Proof.
  induction s as [|a s [k IH]]; [now exists O|]. cbn [Text.rstrip].
  destruct (Text.rstrip "/" s) as [|b t] eqn:Hr.
  - destruct (Ascii.eqb_spec a "/"%char) as [->|_].
    + exists (S k). cbn in *. now rewrite <- IH.
    + exists k. cbn in *. now rewrite <- IH.
  - exists k. cbn in *. now rewrite <- IH.
Qed.

Lemma rstrip_end (s t : string) : Text.rstrip "/" s <> (t ++ "/")%string.
Proof.
  revert t. induction s as [|a s IH]; intros t; cbn [Text.rstrip].
  - destruct t; discriminate.
  - destruct (Text.rstrip "/" s) as [|b u] eqn:Hr.
    + destruct (Ascii.eqb_spec a "/"%char) as [->|Hne].
      * destruct t; discriminate.
      * destruct t as [|x [|y t]]; cbn; try discriminate.
        intros [= ->]. contradiction.
    + destruct t as [|x t]; cbn; [discriminate|].
      intros [= -> Hu]. exact (IH t Hu).
Qed.

(** X15. Slashes at the end of the host URL do not matter to
    [create_webhook]: with any number of them added the call does the same
    and returns the same.  The host URL is a base that does not end in a
    slash, followed by slashes only, and the URL returned is the base
    followed by ["/webhook/"] and the identifier. *)
Theorem trailing_slashes_do_not_matter (c : Connection) (uuid4 : string)
    (now : Clock.datetime) (host_url : string) :
  (forall k : nat,
     DbManager.create_webhook uuid4 now (host_url ++ slashes k) c =
     DbManager.create_webhook uuid4 now host_url c) /\
  exists (base : string) (k : nat),
    host_url = (base ++ slashes k)%string /\
    (forall t : string, base <> (t ++ "/")%string) /\
    forall (webhook_id full_url : string) (c' : Connection),
      DbManager.create_webhook uuid4 now host_url c = (Ok (webhook_id, full_url), c') ->
      webhook_id = uuid4 /\ full_url = (base ++ "/webhook/" ++ uuid4)%string.
Proof.
  split.
  - intro k. unfold DbManager.create_webhook. now rewrite rstrip_slashes.
  - destruct (rstrip_split host_url) as [k Hk].
    exists (Text.rstrip "/" host_url), k.
    split; [exact Hk|]. split; [intro t; apply rstrip_end|].
    intros webhook_id full_url c'.
    unfold DbManager.create_webhook, bind, insert_webhook.
    destruct (has_webhook (current c) uuid4); [discriminate|].
    cbn. intros [= <- <- _]. split; reflexivity.
Qed.

Lemma find_app_other (l : list Webhook.row) (other : string) (w : Webhook.row) :
  Webhook.id w <> other ->
  find (is_webhook other) (l ++ [w]) = find (is_webhook other) l.
Proof.
  intro Hne. induction l as [|a l IH]; cbn.
  - unfold is_webhook. now destruct (String.eqb_spec (Webhook.id w) other).
  - destruct (is_webhook other a); [reflexivity|exact IH].
Qed.

(** X16. [POST /generate] with an identifier that [webhooks] does not hold
    yet answers with a redirect to the dashboard and flashes
    ["<id>|<url>"]; the file then holds one endpoint more, with both
    counters 0, while the other endpoints and the two record tables are as
    before; and the new endpoint takes payloads at once: a JSON body sent
    to it is answered with 200. *)
Theorem generate_adds_one_endpoint (file : Database) (uuid4 : string)
    (now : Clock.datetime) (host_url : string) :
  find (is_webhook uuid4) (webhooks file) = None ->
  exists (full_url : string) (file' : Database),
    App.serve (App.generate_webhook uuid4 now host_url) file =
      (App.mk_reply 302 (App.Redirect "index" (Some (uuid4 ++ "|" ++ full_url)%string)),
       [], file') /\
    DbManager.get_total_webhook_count (App.get_db file') =
      (Ok (Sqlite.count (webhooks file) + 1), App.get_db file') /\
    find (is_webhook uuid4) (webhooks file') =
      Some (Webhook.mk uuid4 full_url (Clock.isoformat now) 0 0 None) /\
    (forall other, other <> uuid4 ->
       find (is_webhook other) (webhooks file') = find (is_webhook other) (webhooks file)) /\
    webhook_payloads file' = webhook_payloads file /\
    webhook_failures file' = webhook_failures file /\
    (forall (now' later : Clock.datetime) (request_body : string) (data : json),
       loads request_body = Some data ->
       App.status (fst (fst (App.serve (App.webhook now' later uuid4 request_body) file')))
       = 200).
Proof.
  intro Hfresh.
  assert (Hhas : has_webhook file uuid4 = false)
    by exact (find_none_has_webhook _ _ Hfresh).
  set (stored := Webhook.mk uuid4 (Text.rstrip "/" host_url ++ "/webhook/" ++ uuid4)
                   (Clock.isoformat now) 0 0 None).
  assert (Hnew : find (is_webhook uuid4) (webhooks file ++ [stored]) = Some stored)
    by (apply find_app_new; [exact Hfresh|reflexivity]).
  exists (Text.rstrip "/" host_url ++ "/webhook/" ++ uuid4)%string.
  exists (mk_database (webhooks file ++ [stored]) (webhook_payloads file)
            (webhook_failures file) (seq_payloads file) (seq_failures file)).
  split.
  - unfold App.serve, App.generate_webhook, bind, App.db_manager,
      DbManager.create_webhook, bind, insert_webhook.
    cbn [App.g_db App.get_db current]. rewrite Hhas. reflexivity.
  - cbn [webhooks webhook_payloads webhook_failures].
    split; [|split; [exact Hnew|split; [|split; [reflexivity|split; [reflexivity|]]]]].
    + unfold DbManager.get_total_webhook_count, select, Sqlite.count.
      cbn [App.get_db current webhooks]. rewrite length_app. cbn [List.length].
      do 2 f_equal. lia.
    + intros other Hne. apply find_app_other. cbn. congruence.
    + intros now' later request_body data Hbody.
      match goal with
      | |- context [App.serve _ ?f] =>
          rewrite (webhook_existing f now' later uuid4 request_body stored Hnew)
      end.
      rewrite Hbody. reflexivity.
Qed.

End Fetching.

(* ================================================================== *)
(** ** The charts and the daily table of the dashboard *)
(* ================================================================== *)

Section Dashboard.

Import Sql.

Lemma sum_group_count (keys : list string) :
  sum_counts (Sqlite.group_count keys) = Sqlite.count keys.
Proof.
  unfold sum_counts, Sqlite.count.
  induction keys as [|k keys IH]; [reflexivity|].
  cbn [Sqlite.group_count List.length]. rewrite Nat2Z.inj_succ.
  destruct (Sqlite.group_count keys) as [|[k' n] groups].
  - cbn [map fold_right snd] in *. lia.
  - destruct (String.eqb k k'); cbn [map fold_right snd] in *; lia.
Qed.

(** The keys that [get_daily_counts] groups: the dates in the window. *)
Lemma window_keys_any (now : Clock.datetime) (days : Z) (values : list (option string)) :
  let keys :=
    flat_map
      (fun v : option string =>
         match v with
         | Some s =>
             match Sqlite.date s, Sqlite.date_now_minus_days now days with
             | Some d, Some c => if Text.text_ge d c then [d] else []
             | _, _ => []
             end
         | None => []
         end) values in
  List.length keys = List.length (filter (dated_within now days) values) /\
  (forall d, In d keys -> within_days now days d = true) /\
  (forall d, occurrences d keys =
             Sqlite.count (filter (fun v => dated d v && dated_within now days v) values)).
Proof.
  cbv zeta.
  rewrite (flat_map_ext _
             (fun v : option string =>
                match v with
                | Some s =>
                    match Sqlite.date s with
                    | Some d => if within_days now days d then [d] else []
                    | None => []
                    end
                | None => []
                end)).
  2:{ intros [s|]; [|reflexivity]. unfold within_days.
      destruct (Sqlite.date s); [|reflexivity].
      now destruct (Sqlite.date_now_minus_days now days). }
  unfold occurrences, Sqlite.count.
  induction values as [|v values (IHlen & IHin & IHocc)]; [repeat split; intros ? []|].
  cbn [flat_map filter].
  destruct v as [s|]; cbn [dated_within dated andb app];
    [|split; [|split]; assumption].
  destruct (Sqlite.date s) as [d|]; cbn [andb app]; [|split; [|split]; assumption].
  destruct (within_days now days d) eqn:HW; cbn [app].
  - split; [cbn [List.length]; now rewrite IHlen|]. split.
    + intros d' [<-|Hin]; [exact HW|auto].
    + intro d'. rewrite andb_true_r. cbn [filter]. specialize (IHocc d').
      destruct (String.eqb d' d); cbn [List.length]; lia.
  - split; [|split]; try assumption.
    intro d'. rewrite andb_false_r. apply IHocc.
Qed.

(** What GROUP BY and COUNT make of a time column, whatever it holds. *)
Lemma daily_counts_grouped (c : Connection) (now : Clock.datetime) (t : table)
    (col : column) (days : Z) (values : list (option string)) :
  column_values (current c) t col = Some values ->
  exists rows : list (string * Z),
    DbManager.get_daily_counts now t col days c = (Ok rows, c) /\
    StronglySorted text_lt (map fst rows) /\
    (forall d n, In (d, n) rows ->
       within_days now days d = true /\ 1 <= n /\
       n = Sqlite.count (filter (dated d) values)) /\
    sum_counts rows = Sqlite.count (filter (dated_within now days) values) /\
    (days < 0 -> rows = []).
Proof.
  intro Hcol.
  unfold DbManager.get_daily_counts, bind, select_column. rewrite Hcol.
  destruct (window_keys_any now days values) as (Hlen & Hwin & Hocc).
  set (keys := flat_map _ values) in *.
  set (sorted := Sqlite.order_by (Sqlite.asc (fun d : string => d)) keys).
  assert (Hperm : Permutation sorted keys) by apply order_by_perm.
  assert (Hsorted : StronglySorted (fun a b => String.leb a b = true) sorted).
  { apply (order_by_sorted (Sqlite.asc (fun d : string => d))).
    - intros a b. apply leb_false_flip.
    - intros a b e. apply leb_trans. }
  destruct (group_count_sorted sorted Hsorted) as (Hin & Hcount & Hstrict & _).
  eexists. split; [reflexivity|]. split; [exact Hstrict|]. split; [|split].
  - intros d n Hdn.
    assert (Hd : In d keys).
    { apply (Permutation_in d Hperm), Hin. apply (in_map fst) in Hdn. exact Hdn. }
    assert (HW : within_days now days d = true) by auto.
    assert (Hn : n = occurrences d keys).
    { rewrite (Hcount d n Hdn). now apply occurrences_perm. }
    split; [exact HW|]. split.
    + rewrite Hn. now apply occurrences_present.
    + rewrite Hn, Hocc. unfold Sqlite.count. do 2 f_equal.
      apply filter_ext. intros [s|]; [|reflexivity]. unfold dated, dated_within.
      destruct (Sqlite.date s) as [d'|]; [|reflexivity].
      destruct (String.eqb_spec d d') as [<-|_]; [|reflexivity]. now rewrite HW.
  - rewrite sum_group_count. unfold Sqlite.count.
    rewrite (Permutation_length Hperm), Hlen. reflexivity.
  - intro Hneg.
    assert (Hnil : keys = []).
    { apply length_zero_iff_nil. rewrite Hlen. apply length_zero_iff_nil.
      apply filter_none. intros [s|] _; [|reflexivity]. unfold dated_within, within_days.
      destruct (Sqlite.date s); [|reflexivity].
      unfold Sqlite.date_now_minus_days.
      destruct (Z.ltb_spec days 0); [reflexivity|lia]. }
    unfold sorted. now rewrite Hnil.
Qed.

Lemma dated_written (d : string) (stamps : list (option Clock.datetime)) :
  Forall valid_stamp stamps ->
  filter (dated d) (map stamp_text stamps) = map stamp_text (filter (stamped_on d) stamps).
Proof.
  induction 1 as [|stamp stamps Hstamp _ IH]; [reflexivity|].
  cbn [map filter]. rewrite IH. destruct stamp as [x|]; [|reflexivity].
  cbn [stamp_text option_map dated stamped_on]. cbn [valid_stamp] in Hstamp.
  rewrite (date_isoformat x Hstamp). fold (date_of x).
  now destruct (String.eqb d (date_of x)).
Qed.

Lemma dated_within_written (now : Clock.datetime) (days : Z)
    (stamps : list (option Clock.datetime)) :
  Forall valid_stamp stamps ->
  filter (dated_within now days) (map stamp_text stamps) =
  map stamp_text (filter (stamped_since now days) stamps).
Proof.
  induction 1 as [|stamp stamps Hstamp _ IH]; [reflexivity|].
  cbn [map filter]. rewrite IH. destruct stamp as [x|]; [|reflexivity].
  cbn [stamp_text option_map dated_within stamped_since]. cbn [valid_stamp] in Hstamp.
  rewrite (date_isoformat x Hstamp). fold (date_of x).
  now destruct (within_days now days (date_of x)).
Qed.

(** X17. A time column as the application writes it holds NULL or what
    [isoformat] wrote for a valid reading ([last_payload_at] is NULL until
    the first payload).  On such a column [get_daily_counts] returns pairs
    whose dates ascend strictly; each date is not before the cutoff of the
    query, [date('now', '-N days')], and its count, at least 1, is the
    number of rows whose reading falls on that date; the rows whose value
    is NULL or whose date is before the cutoff are left out, and all others
    are counted: the counts add up to their number.  With a negative
    [days] the result is empty. *)
Theorem daily_counts_skip_nulls (c : Connection) (now : Clock.datetime) (t : table)
    (col : column) (days : Z) (stamps : list (option Clock.datetime)) :
  Forall valid_stamp stamps ->
  column_values (current c) t col = Some (map stamp_text stamps) ->
  exists rows : list (string * Z),
    DbManager.get_daily_counts now t col days c = (Ok rows, c) /\
    StronglySorted text_lt (map fst rows) /\
    (forall d n, In (d, n) rows ->
       within_days now days d = true /\ 1 <= n /\
       n = Sqlite.count (filter (stamped_on d) stamps)) /\
    sum_counts rows = Sqlite.count (filter (stamped_since now days) stamps) /\
    (days < 0 -> rows = []).
Proof.
  intros Hvalid Hcol.
  destruct (daily_counts_grouped c now t col days _ Hcol)
    as (rows & Hrun & Hsorted & Hcounts & Hsum & Hneg).
  exists rows. split; [exact Hrun|]. split; [exact Hsorted|].
  split; [|split; [|exact Hneg]].
  - intros d n Hdn. destruct (Hcounts d n Hdn) as (Hin & Hn & Hcount).
    split; [exact Hin|]. split; [exact Hn|].
    rewrite Hcount, (dated_written d stamps Hvalid).
    unfold Sqlite.count. now rewrite length_map.
  - rewrite Hsum, (dated_within_written now days stamps Hvalid).
    unfold Sqlite.count. now rewrite length_map.
Qed.

Lemma strict_nodup (l : list string) : StronglySorted text_lt l -> NoDup l.
Proof.
  induction 1 as [|x l _ IH Hall]; constructor; [|exact IH].
  intro Hin. rewrite Forall_forall in Hall. destruct (Hall x Hin) as [_ Hne]. now apply Hne.
Qed.

Lemma sorted_nodup_strict (l : list string) :
  StronglySorted (fun a b => String.leb a b = true) l -> NoDup l ->
  StronglySorted text_lt l.
Proof.
  induction 1 as [|x l _ IH Hall]; intro Hnd; [constructor|].
  apply NoDup_cons_iff in Hnd. destruct Hnd as [Hx Hnd].
  constructor; [auto|]. rewrite Forall_forall in *. intros y Hy.
  split; [auto|]. intros <-. contradiction.
Qed.

(** [sorted(list(set(l)))]: the items of [l], each once, ascending. *)
Lemma sorted_set_of (l : list string) :
  StronglySorted text_lt (Views.sorted (Views.set_of l)) /\
  (forall x, In x (Views.sorted (Views.set_of l)) <-> In x l).
Proof.
  unfold Views.sorted, Views.set_of.
  assert (Hperm : Permutation (Sqlite.order_by Text.text_le (nodup string_dec l))
                    (nodup string_dec l)) by apply order_by_perm.
  split.
  - apply sorted_nodup_strict.
    + apply (order_by_sorted Text.text_le).
      * intros a b. apply leb_false_flip.
      * intros a b e. apply leb_trans.
    + apply (Permutation_NoDup (Permutation_sym Hperm)), NoDup_nodup.
  - intro x. rewrite <- (nodup_In string_dec l x). split.
    + apply (Permutation_in x Hperm).
    + apply (Permutation_in x (Permutation_sym Hperm)).
Qed.

Lemma next_count_in (chart : list (string * Z)) (d : string) (n : Z) :
  NoDup (map fst chart) -> In (d, n) chart -> Views.next_count chart d = n.
Proof.
  unfold Views.next_count.
  induction chart as [|[k m] chart IH]; cbn; [contradiction|]. intros Hnd Hin.
  apply NoDup_cons_iff in Hnd. destruct Hnd as [Hk Hnd].
  destruct (String.eqb_spec k d) as [->|Hne].
  - destruct Hin as [[= <-]|Hin]; [reflexivity|].
    exfalso. apply Hk. apply (in_map fst) in Hin. exact Hin.
  - destruct Hin as [[= <- _]|Hin]; [contradiction|auto].
Qed.

Lemma next_count_out (chart : list (string * Z)) (d : string) :
  ~ In d (map fst chart) -> Views.next_count chart d = 0.
Proof.
  unfold Views.next_count.
  induction chart as [|[k m] chart IH]; cbn; [reflexivity|]. intro Hout.
  destruct (String.eqb_spec k d) as [->|Hne]; [tauto|]. apply IH. tauto.
Qed.

Lemma next_count_cons (k : string) (n : Z) (chart : list (string * Z)) (d : string) :
  Views.next_count ((k, n) :: chart) d =
    if String.eqb k d then n else Views.next_count chart d.
Proof. unfold Views.next_count. cbn. now destruct (String.eqb k d). Qed.

Lemma sum_one_key (k : string) (n : Z) (g : string -> Z) (dates : list string) :
  NoDup dates -> In k dates ->
  fold_right Z.add 0 (map (fun d => if String.eqb k d then n else g d) dates) =
  n + fold_right Z.add 0 (map g dates) - g k.
Proof.
  induction dates as [|d dates IH]; cbn [map fold_right In]; [contradiction|].
  intros Hnd Hin. apply NoDup_cons_iff in Hnd. destruct Hnd as [Hd Hnd].
  destruct (String.eqb_spec k d) as [->|Hne].
  - rewrite (map_ext_in _ g); [lia|].
    intros x Hx. destruct (String.eqb_spec d x) as [->|_]; [contradiction|reflexivity].
  - destruct Hin as [->|Hin]; [contradiction|]. rewrite IH by assumption. lia.
Qed.

(** Looking every date up in a chart adds up to the chart, when the dates
    hold every date of the chart once. *)
Lemma sum_next_count (chart : list (string * Z)) (dates : list string) :
  NoDup dates -> NoDup (map fst chart) -> incl (map fst chart) dates ->
  fold_right Z.add 0 (map (Views.next_count chart) dates) = sum_counts chart.
Proof.
  intro Hdates. unfold sum_counts.
  induction chart as [|[k n] chart IH]; cbn [map fst snd fold_right]; intros Hnd Hincl.
  - rewrite (map_ext _ (fun _ => 0)) by reflexivity.
    clear. induction dates; cbn; lia.
  - apply NoDup_cons_iff in Hnd. destruct Hnd as [Hk Hnd].
    rewrite (map_ext _ _ (next_count_cons k n chart)).
    rewrite sum_one_key; [|exact Hdates|apply Hincl; now left].
    rewrite (next_count_out chart k Hk), IH; [lia|exact Hnd|].
    intros x Hx. apply Hincl. now right.
Qed.

(** What [index] computes: the six queries, and the table made of the
    three charts. *)
Lemma index_renders (file : Database) (now1 now2 now3 now4 now5 : Clock.datetime) :
  exists (today failed : Z) (creation success failure : list (string * Z)),
    Views.render (Views.index now1 now2 now3 now4 now5) file =
      (Ok (Views.mk_dashboard (Sqlite.count (webhooks file)) today failed
             (Views.daily_table creation success failure) creation success failure),
       [], file) /\
    DbManager.get_stats_today now1 t_webhook_payloads (App.get_db file) =
      (Ok today, App.get_db file) /\
    DbManager.get_stats_today now2 t_webhook_failures (App.get_db file) =
      (Ok failed, App.get_db file) /\
    DbManager.get_daily_counts now3 t_webhooks c_created_at 7 (App.get_db file) =
      (Ok creation, App.get_db file) /\
    DbManager.get_daily_counts now4 t_webhook_payloads c_timestamp 7 (App.get_db file) =
      (Ok success, App.get_db file) /\
    DbManager.get_daily_counts now5 t_webhook_failures c_timestamp 7 (App.get_db file) =
      (Ok failure, App.get_db file).
Proof.
  do 5 eexists.
  unfold Views.render, Views.index, bind, App.db_manager, DbManager.get_total_webhook_count,
    DbManager.get_stats_today, DbManager.get_daily_counts, bind, select, select_column,
    column_values.
  cbn [App.g_db App.get_db current App.emitted App.close_db committed ret].
  repeat split.
Qed.

(** X18. [GET /] is rendered whatever the file and the clock.  The daily
    table has one row per date that occurs in one of the three charts, in
    strictly ascending order of date; a row's three figures are the counts
    that the charts give for its date, and 0 where a chart has no entry
    for it. *)
Theorem daily_table_rows (file : Database) (now1 now2 now3 now4 now5 : Clock.datetime) :
  exists d : Views.dashboard,
    Views.render (Views.index now1 now2 now3 now4 now5) file = (Ok d, [], file) /\
    Views.total_webhooks d = Sqlite.count (webhooks file) /\
    StronglySorted text_lt (map Views.date (Views.daily_stats d)) /\
    (forall x, In x (map Views.date (Views.daily_stats d)) <->
       In x (map fst (Views.chart_creation_data d)) \/
       In x (map fst (Views.chart_success_data d)) \/
       In x (map fst (Views.chart_failure_data d))) /\
    (forall row, In row (Views.daily_stats d) ->
       (forall n, In (Views.date row, n) (Views.chart_creation_data d) ->
          Views.created row = n) /\
       (~ In (Views.date row) (map fst (Views.chart_creation_data d)) ->
          Views.created row = 0) /\
       (forall n, In (Views.date row, n) (Views.chart_success_data d) ->
          Views.succeeded row = n) /\
       (~ In (Views.date row) (map fst (Views.chart_success_data d)) ->
          Views.succeeded row = 0) /\
       (forall n, In (Views.date row, n) (Views.chart_failure_data d) ->
          Views.failed row = n) /\
       (~ In (Views.date row) (map fst (Views.chart_failure_data d)) ->
          Views.failed row = 0)).
Proof.
  destruct (index_renders file now1 now2 now3 now4 now5)
    as (today & failed & creation & success & failure & Hrender & _ & _ & Hc & Hs & Hf).
  destruct (daily_counts_grouped (App.get_db file) now3 t_webhooks c_created_at 7 _
              eq_refl)
    as (rc & Hc' & Hcs & _).
  destruct (daily_counts_grouped (App.get_db file) now4 t_webhook_payloads c_timestamp 7 _
              eq_refl)
    as (rs & Hs' & Hss & _).
  destruct (daily_counts_grouped (App.get_db file) now5 t_webhook_failures c_timestamp 7 _
              eq_refl)
    as (rf & Hf' & Hfs & _).
  rewrite Hc in Hc'. rewrite Hs in Hs'. rewrite Hf in Hf'.
  injection Hc' as <-. injection Hs' as <-. injection Hf' as <-.
  apply strict_nodup in Hcs, Hss, Hfs.
  eexists. split; [exact Hrender|].
  cbn [Views.total_webhooks Views.daily_stats Views.chart_creation_data
       Views.chart_success_data Views.chart_failure_data].
  split; [reflexivity|].
  unfold Views.daily_table. rewrite map_map. cbn [Views.date]. rewrite map_id.
  destruct (sorted_set_of (map fst creation ++ map fst success ++ map fst failure))
    as [Hsorted Hin].
  split; [exact Hsorted|]. split.
  - intro x. rewrite Hin, !in_app_iff. reflexivity.
  - intros row Hrow. apply in_map_iff in Hrow. destruct Hrow as [x [<- _]].
    cbn [Views.date Views.created Views.succeeded Views.failed].
    repeat split; intros;
      first [now apply next_count_in | now apply next_count_out].
Qed.

(** X19. Nothing is lost and nothing is counted twice between the charts
    and the daily table of [GET /]: each of the three columns of the table
    adds up to the counts of its chart, which is the number of rows of the
    table behind it whose time has a date in the window of 7 days before
    today. *)
Theorem daily_table_totals (file : Database) (now1 now2 now3 now4 now5 : Clock.datetime) :
  exists d : Views.dashboard,
    Views.render (Views.index now1 now2 now3 now4 now5) file = (Ok d, [], file) /\
    column_sum Views.created (Views.daily_stats d) =
      sum_counts (Views.chart_creation_data d) /\
    column_sum Views.succeeded (Views.daily_stats d) =
      sum_counts (Views.chart_success_data d) /\
    column_sum Views.failed (Views.daily_stats d) =
      sum_counts (Views.chart_failure_data d) /\
    sum_counts (Views.chart_creation_data d) =
      Sqlite.count (filter (fun w => dated_within now3 7 (Some (Webhook.created_at w)))
                      (webhooks file)) /\
    sum_counts (Views.chart_success_data d) =
      Sqlite.count (filter (fun p => dated_within now4 7 (Some (WebhookPayload.timestamp p)))
                      (webhook_payloads file)) /\
    sum_counts (Views.chart_failure_data d) =
      Sqlite.count (filter (fun f => dated_within now5 7 (Some (WebhookFailure.timestamp f)))
                      (webhook_failures file)).
Proof.
  destruct (index_renders file now1 now2 now3 now4 now5)
    as (today & failed & creation & success & failure & Hrender & _ & _ & Hc & Hs & Hf).
  destruct (daily_counts_grouped (App.get_db file) now3 t_webhooks c_created_at 7 _
              eq_refl)
    as (rc & Hc' & Hcs & _ & Hcn & _).
  destruct (daily_counts_grouped (App.get_db file) now4 t_webhook_payloads c_timestamp 7 _
              eq_refl)
    as (rs & Hs' & Hss & _ & Hsn & _).
  destruct (daily_counts_grouped (App.get_db file) now5 t_webhook_failures c_timestamp 7 _
              eq_refl)
    as (rf & Hf' & Hfs & _ & Hfn & _).
  rewrite Hc in Hc'. rewrite Hs in Hs'. rewrite Hf in Hf'.
  injection Hc' as <-. injection Hs' as <-. injection Hf' as <-.
  apply strict_nodup in Hcs, Hss, Hfs.
  eexists. split; [exact Hrender|].
  cbn [Views.total_webhooks Views.daily_stats Views.chart_creation_data
       Views.chart_success_data Views.chart_failure_data].
  destruct (sorted_set_of (map fst creation ++ map fst success ++ map fst failure))
    as [Hsorted Hin]. apply strict_nodup in Hsorted.
  unfold column_sum, Views.daily_table. rewrite !map_map.
  cbn [Views.created Views.succeeded Views.failed].
  split; [|split; [|split; [|split; [|split]]]].
  - apply sum_next_count; try assumption.
    intros x Hx. apply Hin. rewrite !in_app_iff. auto.
  - apply sum_next_count; try assumption.
    intros x Hx. apply Hin. rewrite !in_app_iff. auto.
  - apply sum_next_count; try assumption.
    intros x Hx. apply Hin. rewrite !in_app_iff. auto.
  - rewrite Hcn. cbn [App.get_db current]. unfold Sqlite.count.
    now rewrite filter_map_length.
  - rewrite Hsn. cbn [App.get_db current]. unfold Sqlite.count.
    now rewrite filter_map_length.
  - rewrite Hfn. cbn [App.get_db current]. unfold Sqlite.count.
    now rewrite filter_map_length.
Qed.

End Dashboard.

(* ================================================================== *)
(** ** The single download and the template filter *)
(* ================================================================== *)

Section Downloads.

Context `{JsonPretty}.
Import Sql.

(** X20. The template filter [pretty_json] never changes what a text
    parses to: a text that is JSON is shown as the same value written with
    [indent=2], a text that is not JSON is shown as it is; filtering twice
    is filtering once. *)
Theorem pretty_json_keeps_the_value (value : string) :
  loads (Views.pretty_json_filter value) = loads value /\
  (forall v, loads value = Some v -> Views.pretty_json_filter value = dumps_indent v) /\
  (loads value = None -> Views.pretty_json_filter value = value) /\
  Views.pretty_json_filter (Views.pretty_json_filter value) =
    Views.pretty_json_filter value.
Proof.
  unfold Views.pretty_json_filter.
  destruct (loads value) as [v|] eqn:Hv.
  - pose proof (loads_dumps_indent value v Hv) as Hback.
    rewrite Hback. repeat split; congruence.
  - rewrite Hv. repeat split; congruence.
Qed.

Lemma find_by_id (l : list WebhookPayload.row) (p : WebhookPayload.row) :
  StronglySorted Z.lt (map WebhookPayload.id l) -> In p l ->
  find (fun q => WebhookPayload.id q =? WebhookPayload.id p) l = Some p.
Proof.
  induction l as [|a l IH]; cbn; [contradiction|]. intros Hs Hin.
  apply StronglySorted_inv in Hs. destruct Hs as [Hs Hall].
  rewrite Forall_forall in Hall.
  destruct (Z.eqb_spec (WebhookPayload.id a) (WebhookPayload.id p)) as [He|Hne].
  - destruct Hin as [->|Hin]; [reflexivity|].
    specialize (Hall _ (in_map WebhookPayload.id _ _ Hin)). lia.
  - destruct Hin as [->|Hin]; [congruence|auto].
Qed.

Lemma find_no_id (l : list WebhookPayload.row) (payload_id : Z) :
  (forall q, In q l -> WebhookPayload.id q <> payload_id) ->
  find (fun q => WebhookPayload.id q =? payload_id) l = None.
Proof.
  induction l as [|a l IH]; cbn; [reflexivity|]. intro Hall.
  destruct (Z.eqb_spec (WebhookPayload.id a) payload_id) as [He|_].
  - exfalso. apply (Hall a); auto.
  - apply IH. auto.
Qed.

(** Every payload row of a reachable state holds what [json.dumps] wrote
    for a value that [json.loads] had returned. *)
Lemma stored_payloads_parse (requests : list request) (p : WebhookPayload.row) :
  In p (webhook_payloads (run requests)) ->
  exists v : json,
    WebhookPayload.payload p = dumps v /\ loads (WebhookPayload.payload p) = Some v.
Proof.
  intro Hin.
  destruct (history_matches requests (App.init_db None) [])
    as [Hrows Hparsed]; [split; [reflexivity|constructor]|].
  rewrite history_file in Hrows. fold (run requests) in Hrows.
  apply (in_map stored_as) in Hin. rewrite Hrows in Hin.
  apply in_map_iff in Hin. destruct Hin as [i [Hi Hin]].
  rewrite Forall_forall in Hparsed. destruct (Hparsed i Hin) as [text Htext].
  unfold stores, stored_as in Hi. injection Hi as _ _ Hpayload.
  exists (value i). split; [now symmetry|].
  rewrite <- Hpayload. exact (loads_dumps text _ Htext).
Qed.

(** X21. After any run of requests, every payload row can be downloaded
    by its id: [GET /download/payload/<id>] finds that very row, parses
    its text without error and answers with the file [payload_<id>.json],
    which holds the stored value written with [indent=2]; the stored text
    is [json.dumps] of that value, and the template filter shows the row
    as the same text as the download. *)
Theorem every_stored_payload_downloads (requests : list request)
    (p : WebhookPayload.row) :
  In p (webhook_payloads (run requests)) ->
  exists v : json,
    WebhookPayload.payload p = dumps v /\
    DbManager.get_single_payload (WebhookPayload.id p) (App.get_db (run requests)) =
      (Ok (Some (WebhookPayload.payload p)), App.get_db (run requests)) /\
    Views.render (Views.download_single_payload (WebhookPayload.id p)) (run requests) =
      (Ok (Views.mk_attachment
             ("payload_" ++ Views.str_int (WebhookPayload.id p) ++ ".json")
             "application/json" (dumps_indent v)),
       [], run requests) /\
    Views.pretty_json_filter (WebhookPayload.payload p) = dumps_indent v.
Proof.
  intro Hin.
  destruct (stored_payloads_parse requests p Hin) as (v & Hdumps & Hloads).
  destruct (run_well_keyed requests) as (_ & Hps & _).
  pose proof (find_by_id _ p Hps Hin) as Hfind.
  assert (Hget : DbManager.get_single_payload (WebhookPayload.id p)
                   (App.get_db (run requests)) =
                 (Ok (Some (WebhookPayload.payload p)), App.get_db (run requests))).
  { unfold DbManager.get_single_payload, select. cbn [App.get_db current].
    now rewrite Hfind. }
  exists v. split; [exact Hdumps|]. split; [exact Hget|]. split.
  - unfold Views.render, Views.download_single_payload, bind, App.db_manager.
    cbn [App.g_db]. rewrite Hget, Hloads. reflexivity.
  - unfold Views.pretty_json_filter. now rewrite Hloads.
Qed.

(** X22. After any run of requests, deleting an endpoint takes its
    payloads out of reach of the single download:
    [GET /download/payload/<id>] of a payload row that the endpoint owned
    is then aborted with 404 and ["Payload not found."], while the payload
    rows of the other endpoints are still found under their ids. *)
Theorem deleted_payloads_are_gone (requests : list request)
    (p : WebhookPayload.row) :
  In p (webhook_payloads (run requests)) ->
  let file' := handle (run requests) (Delete (WebhookPayload.webhook_id p)) in
  Views.render (Views.download_single_payload (WebhookPayload.id p)) file' =
    (Raise (NotFound "Payload not found."), [], file') /\
  forall q, In q (webhook_payloads (run requests)) ->
    WebhookPayload.webhook_id q <> WebhookPayload.webhook_id p ->
    DbManager.get_single_payload (WebhookPayload.id q) (App.get_db file') =
      (Ok (Some (WebhookPayload.payload q)), App.get_db file').
Proof.
  intro Hin. cbv zeta.
  destruct (run_well_keyed requests) as (_ & Hps & _).
  destruct (run_consistent requests) as (_ & Horphan & _).
  rewrite delete_webhook_file, (Horphan p Hin).
  set (file := run requests) in *.
  set (kept := filter (fun q => negb (payload_of (WebhookPayload.webhook_id p) q))
                 (webhook_payloads file)).
  split.
  - unfold Views.render, Views.download_single_payload, bind, App.db_manager,
      DbManager.get_single_payload, select.
    cbn [App.g_db App.get_db current webhook_payloads]. fold kept.
    rewrite find_no_id; [reflexivity|].
    intros q Hq Heq. unfold kept in Hq. apply filter_In in Hq. destruct Hq as [Hq Hkeep].
    assert (q = p) by exact (sorted_keys_inj _ _ _ _ Hps Hq Hin Heq). subst q.
    unfold payload_of in Hkeep. rewrite String.eqb_refl in Hkeep. discriminate.
  - intros q Hq Hother.
    unfold DbManager.get_single_payload, select.
    cbn [App.get_db current webhook_payloads]. fold kept.
    rewrite (find_by_id kept q); [reflexivity| |].
    + unfold kept. now apply sorted_map_filter.
    + unfold kept. apply filter_In. split; [exact Hq|].
      unfold payload_of. apply negb_true_iff. now apply String.eqb_neq.
Qed.

End Downloads.

(* ================================================================== *)
(** ** The codec law for the indented text *)
(* ================================================================== *)

Section PrettyRoundTrip.

Import Json.

Lemma pretty_array (level : nat) (x : value) (l : list value) :
  Pretty.indent_value level (Array (x :: l)) =
    ("[" ++ Pretty.newline_indent (S level) ++ Pretty.indent_value (S level) x ++
     Pretty.more_elements level l)%string.
Proof. reflexivity. Qed.

Lemma pretty_object (level : nat) (k : string) (x : value) (l : list (string * value)) :
  Pretty.indent_value level (Object ((k, x) :: l)) =
    ("{" ++ Pretty.newline_indent (S level) ++ dumps_string k ++ ": " ++
     Pretty.indent_value (S level) x ++ Pretty.more_members level l)%string.
Proof. reflexivity. Qed.

Lemma more_elements_nil (level : nat) :
  Pretty.more_elements level [] = (Pretty.newline_indent level ++ "]")%string.
Proof. reflexivity. Qed.

Lemma more_elements_cons (level : nat) (x : value) (l : list value) :
  Pretty.more_elements level (x :: l) =
    ("," ++ Pretty.newline_indent (S level) ++ Pretty.indent_value (S level) x ++
     Pretty.more_elements level l)%string.
Proof. reflexivity. Qed.

Lemma more_members_nil (level : nat) :
  Pretty.more_members level [] = (Pretty.newline_indent level ++ "}")%string.
Proof. reflexivity. Qed.

Lemma more_members_cons (level : nat) (k : string) (x : value)
    (l : list (string * value)) :
  Pretty.more_members level ((k, x) :: l) =
    ("," ++ Pretty.newline_indent (S level) ++ dumps_string k ++ ": " ++
     Pretty.indent_value (S level) x ++ Pretty.more_members level l)%string.
Proof. reflexivity. Qed.

Lemma skip_ws_spaces (n : nat) (s : string) :
  skip_ws (Pretty.spaces n ++ s) = skip_ws s.
Proof. induction n as [|n IH]; [reflexivity|exact IH]. Qed.

Lemma skip_ws_newline_indent (level : nat) (s : string) :
  skip_ws (Pretty.newline_indent level ++ s) = skip_ws s.
Proof.
  unfold Pretty.newline_indent. cbn [append skip_ws].
  change (is_ws (chr 10)) with true. cbv iota. apply skip_ws_spaces.
Qed.

Lemma pretty_value_head (level : nat) (v : value) (rest : string) :
  exists c s, (Pretty.indent_value level v ++ rest)%string = String c s /\ opens c.
Proof.
  destruct v as [|[]|n|s|[|x items]|[|[k x] members]];
    try (eexists _, _; split; [reflexivity|]; repeat split; cbn; lia).
  destruct (dumps_int_head n rest) as (c & s & Hs & Hc).
  exists c, s. split; [exact Hs|].
  unfold opens, is_ws. repeat split; lia.
Qed.

Lemma skip_ws_pretty_value (level : nat) (v : value) (rest : string) :
  skip_ws (Pretty.indent_value level v ++ rest) =
    (Pretty.indent_value level v ++ rest)%string.
Proof.
  destruct (pretty_value_head level v rest) as (c & s & -> & Hc). now apply skip_ws_opens.
Qed.

Lemma stops_more_elements (level : nat) (l : list value) (rest : string) :
  stops (Pretty.more_elements level l ++ rest).
Proof. destruct l; reflexivity. Qed.

Lemma stops_more_members (level : nat) (l : list (string * value)) (rest : string) :
  stops (Pretty.more_members level l ++ rest).
Proof. destruct l as [|[k x] l]; reflexivity. Qed.

Lemma pretty_elements_read_back (level : nat) (items : list value) :
  Forall Pretty.indent_reads_back items ->
  fold_right (fun x p => well_formed x /\ p) True items ->
  forall (x : value) (l : list value), items = x :: l ->
  forall (fuel : nat) (s rest : string),
    (size_elements items <= fuel)%nat ->
    skip_ws s = (Pretty.indent_value (S level) x ++ Pretty.more_elements level l ++ rest)%string ->
    parse_elements fuel s = Some (items, rest).
Proof.
  induction 1 as [|x0 items Hx Hitems IH]; intros Hwf x l Heq fuel s rest Hfuel Hs;
    [discriminate|].
  injection Heq as -> ->.
  destruct Hwf as [Hwx Hwf].
  destruct fuel as [|fuel]; [cbn in Hfuel; lia|].
  cbn [size_elements fold_right] in Hfuel. fold (size_elements l) in Hfuel.
  cbn [parse_elements].
  rewrite (Hx Hwx (S level) fuel s (Pretty.more_elements level l ++ rest)%string);
    [|lia|apply stops_more_elements|exact Hs].
  destruct l as [|y l].
  - rewrite more_elements_nil, append_assoc, skip_ws_newline_indent.
    reflexivity.
  - rewrite more_elements_cons, !append_assoc.
    cbn [append skip_ws]. change (is_ws ",") with false. cbv iota.
    change (code "," =? 44) with true. cbv iota.
    rewrite (IH Hwf y l eq_refl fuel _ rest); [reflexivity|lia|].
    rewrite skip_ws_newline_indent. apply skip_ws_pretty_value.
Qed.

Lemma pretty_members_read_back (level : nat) (members : list (string * value)) :
  Forall (fun kx => Pretty.indent_reads_back (snd kx)) members ->
  fold_right (fun kx p => well_formed (snd kx) /\ p) True members ->
  forall (k : string) (x : value) (l : list (string * value)), members = (k, x) :: l ->
  forall (fuel : nat) (s rest : string),
    (size_members members <= fuel)%nat ->
    skip_ws s = (dumps_string k ++ ": " ++ Pretty.indent_value (S level) x ++
                 Pretty.more_members level l ++ rest)%string ->
    parse_members fuel s = Some (members, rest).
Proof.
  induction 1 as [|[k0 x0] members Hx Hmembers IH];
    intros Hwf k x l Heq fuel s rest Hfuel Hs; [discriminate|].
  injection Heq as -> -> ->.
  destruct Hwf as [Hwx Hwf]. cbn [snd] in Hx, Hwx.
  destruct fuel as [|fuel]; [cbn in Hfuel; lia|].
  cbn [size_members fold_right snd] in Hfuel. fold (size_members l) in Hfuel.
  cbn [parse_members]. rewrite Hs. unfold dumps_string at 1.
  cbn [append]. rewrite append_assoc. cbn [append].
  change (code quote =? 34) with true. cbv iota.
  rewrite parse_string_dumps.
  cbn [skip_ws]. change (is_ws ":") with false. cbv iota.
  change (code ":" =? 58) with true. cbv iota.
  rewrite (Hx Hwx (S level) fuel _ (Pretty.more_members level l ++ rest)%string);
    [|lia|apply stops_more_members|].
  - destruct l as [|[k' y] l].
    + rewrite more_members_nil, append_assoc, skip_ws_newline_indent.
      reflexivity.
    + rewrite more_members_cons, !append_assoc.
      cbn [append skip_ws]. change (is_ws ",") with false. cbv iota.
      change (code "," =? 44) with true. cbv iota.
      rewrite (IH Hwf k' y l eq_refl fuel _ rest); [reflexivity|lia|].
      rewrite skip_ws_newline_indent.
      unfold dumps_string at 1 2. reflexivity.
  - change (skip_ws (String " " ?X)) with (skip_ws X). apply skip_ws_pretty_value.
Qed.

(** Every well-formed value that was written with [indent=2] is read
    back. *)
Lemma pretty_value_reads_back (v : value) : Pretty.indent_reads_back v.
Proof.
  induction v as [|b|n|str|items IH|members IH] using value_induction;
    intros Hwf level fuel s rest Hfuel Hrest Hs;
    (destruct fuel as [|fuel]; [pose proof (size_pos (Array [])); cbn in Hfuel; lia|]);
    cbn [parse_value]; rewrite Hs.
  - reflexivity.
  - destruct b; reflexivity.
  - destruct (dumps_int_head n rest) as (c & r & Hhead & Hc).
    change (Pretty.indent_value level (Int n)) with (dumps_int n). rewrite Hhead.
    cbv zeta.
    repeat match goal with
           | |- context [code c =? ?k] => destruct (Z.eqb_spec (code c) k); [lia|]
           end.
    rewrite <- Hhead, parse_number_dumps by exact Hrest. reflexivity.
  - change (Pretty.indent_value level (Str str)) with (dumps_string str).
    unfold dumps_string.
    cbn [append]. rewrite append_assoc. cbn [append].
    change (code quote =? 91) with false. change (code quote =? 123) with false.
    change (code quote =? 34) with true. cbv iota zeta.
    rewrite parse_string_dumps. reflexivity.
  - destruct items as [|x items]; [reflexivity|].
    rewrite pretty_array, !append_assoc. cbn [append].
    change (code "[" =? 91) with true. cbv iota zeta.
    rewrite skip_ws_newline_indent, skip_ws_pretty_value.
    destruct (pretty_value_head (S level) x (Pretty.more_elements level items ++ rest))
      as (c & r & Hhead & Hc).
    rewrite Hhead. destruct Hc as (_ & Hc & _).
    destruct (Z.eqb_spec (code c) 93); [lia|].
    rewrite (pretty_elements_read_back level (x :: items) IH Hwf x items eq_refl fuel _ rest);
      [reflexivity| |].
    + cbn [size] in Hfuel. fold (size_elements (x :: items)) in Hfuel. lia.
    + rewrite <- Hhead, skip_ws_newline_indent. apply skip_ws_pretty_value.
  - destruct Hwf as [Hnodup Hwf].
    destruct members as [|[k x] members]; [reflexivity|].
    rewrite pretty_object, !append_assoc. cbn [append].
    change (code "{" =? 91) with false. change (code "{" =? 123) with true.
    cbv iota zeta.
    rewrite skip_ws_newline_indent. unfold dumps_string at 1.
    cbn [append skip_ws]. change (is_ws quote) with false. cbv iota.
    change (code quote =? 125) with false. cbv iota.
    rewrite (pretty_members_read_back level ((k, x) :: members) IH Hwf k x members eq_refl
               fuel _ rest).
    + now rewrite dict_nodup.
    + cbn [size] in Hfuel. fold (size_members ((k, x) :: members)) in Hfuel. lia.
    + rewrite skip_ws_newline_indent. unfold dumps_string.
      cbn [append skip_ws]. change (is_ws quote) with false. cbv iota.
      reflexivity.
Qed.

Lemma size_more_elements (level : nat) (items : list value) :
  Forall (fun x => forall level, (size x <= String.length (Pretty.indent_value level x))%nat)
    items ->
  (size_elements items <= String.length (Pretty.more_elements level items))%nat.
Proof.
  induction 1 as [|x items Hx _ IH]; [cbn; lia|].
  rewrite more_elements_cons.
  cbn [size_elements fold_right]. fold (size_elements items).
  rewrite !length_append. specialize (Hx (S level)). cbn [String.length]. lia.
Qed.

Lemma size_more_members (level : nat) (members : list (string * value)) :
  Forall (fun kx => forall level,
            (size (snd kx) <= String.length (Pretty.indent_value level (snd kx)))%nat)
    members ->
  (size_members members <= String.length (Pretty.more_members level members))%nat.
Proof.
  induction 1 as [|[k x] members Hx _ IH]; [cbn; lia|].
  rewrite more_members_cons.
  cbn [size_members fold_right snd] in *. fold (size_members members).
  rewrite !length_append. specialize (Hx (S level)). cbn [String.length]. lia.
Qed.

(** An indented value is at least as long as the value has parts. *)
Lemma size_le_pretty_length (v : value) :
  forall level, (size v <= String.length (Pretty.indent_value level v))%nat.
Proof.
  induction v as [|b|n|str|items IH|members IH] using value_induction; intro level.
  - cbn. lia.
  - destruct b; cbn; lia.
  - destruct (dumps_int_head n "") as (c & r & Hhead & _).
    rewrite append_empty_r in Hhead. cbn [Pretty.indent_value size]. rewrite Hhead.
    cbn. lia.
  - cbn. lia.
  - destruct items as [|x items]; [cbn; lia|].
    rewrite pretty_array. cbn [size]. fold (size_elements (x :: items)).
    inversion IH as [|? ? Hx Hitems]; subst.
    pose proof (size_more_elements level items Hitems). specialize (Hx (S level)).
    cbn [size_elements fold_right]. fold (size_elements items).
    rewrite !length_append. unfold Pretty.newline_indent. cbn [String.length]. lia.
  - destruct members as [|[k x] members]; [cbn; lia|].
    rewrite pretty_object. cbn [size]. fold (size_members ((k, x) :: members)).
    inversion IH as [|? ? Hx Hmembers]; subst. cbn [snd] in Hx.
    pose proof (size_more_members level members Hmembers). specialize (Hx (S level)).
    cbn [size_members fold_right snd]. fold (size_members members).
    rewrite !length_append. unfold Pretty.newline_indent. cbn [String.length]. lia.
Qed.

(** The law of [JsonPretty]: what [loads] has returned, it returns again
    from what [dumps] writes with [indent=2]. *)
Lemma loads_dumps_indent_value (text : string) (v : value) :
  Json.loads text = Some v -> Json.loads (Pretty.dumps_indent v) = Some v.
Proof.
  intro Hloads. unfold Json.loads in Hloads.
  destruct (parse_value (2 * String.length text + 2) text) as [[v' r]|] eqn:Hparse;
    [|discriminate].
  assert (v' = v) by (destruct (skip_ws r); congruence). subst v'.
  pose proof (proj1 (parse_well_formed _) _ _ _ Hparse) as Hwf.
  unfold Json.loads, Pretty.dumps_indent.
  rewrite (pretty_value_reads_back v Hwf 0%nat _ (Pretty.indent_value 0 v) "").
  - reflexivity.
  - pose proof (size_le_pretty_length v 0%nat). lia.
  - exact I.
  - pose proof (skip_ws_pretty_value 0 v "") as Hskip.
    rewrite !append_empty_r in *. exact Hskip.
Qed.

End PrettyRoundTrip.

#[export] Instance python_json_pretty : JsonPretty := {
  dumps_indent := Pretty.dumps_indent;
  loads_dumps_indent := loads_dumps_indent_value
}.

(* ================================================================== *)
(** ** The further statements at sample data *)
(* ================================================================== *)

Section MoreSamples.

Import Sql.

Lemma session_runs : run Scenario.session = Scenario.after_session.
Proof. reflexivity. Qed.




Lemma unknown_endpoint_is_404_witness :
  find (is_webhook Sample.second_id) (webhooks Sample.one_endpoint) = None /\
  App.serve (App.webhook Sample.noon Sample.afternoon Sample.second_id "[1, 2]")
    Sample.one_endpoint =
    (App.mk_reply 404
       (App.Aborted ("Webhook ID " ++ Sample.second_id ++ " not found.")),
     [], Sample.one_endpoint) /\
  App.serve (App.delete_webhook Sample.second_id) Sample.one_endpoint =
    (App.mk_reply 404
       (App.Aborted ("Webhook ID " ++ Sample.second_id ++ " not found.")),
     [], Sample.one_endpoint).
Proof.
  split; [reflexivity|].
  destruct (unknown_endpoint_is_404 Sample.one_endpoint Sample.second_id Sample.noon
              Sample.afternoon "[1, 2]" 1 eq_refl) as (Hpost & _ & _ & Hdelete).
  split; assumption.
Defined.

Lemma endpoint_ids_are_unique_witness :
  In Scenario.first_endpoint (webhooks (run Scenario.session)) /\
  NoDup (map Webhook.id (webhooks (run Scenario.session))) /\
  DbManager.get_webhook Sample.first_id (App.get_db (run Scenario.session)) =
    (Ok (Some Scenario.first_endpoint), App.get_db (run Scenario.session)) /\
  Sqlite.count (webhooks (handle (run Scenario.session) (Delete Sample.first_id))) =
    Sqlite.count (webhooks (run Scenario.session)) - 1.
Proof.
  assert (Hin : In Scenario.first_endpoint (webhooks (run Scenario.session)))
    by (left; reflexivity).
  split; [exact Hin|].
  exact (endpoint_ids_are_unique Scenario.session Scenario.first_endpoint Hin).
Defined.

Lemma failure_count_is_failure_rows_witness :
  find (is_webhook Sample.first_id) (webhooks (run Scenario.session)) =
    Some Scenario.first_endpoint /\
  Webhook.failure_count Scenario.first_endpoint =
    Sqlite.count (DbManager.failures_of Sample.first_id (run Scenario.session)) /\
  Webhook.success_count Scenario.first_endpoint +
  Webhook.failure_count Scenario.first_endpoint =
    Sqlite.count (DbManager.payloads_of Sample.first_id (run Scenario.session)) +
    Sqlite.count (DbManager.failures_of Sample.first_id (run Scenario.session)).
Proof.
  assert (Hfind : find (is_webhook Sample.first_id) (webhooks (run Scenario.session)) =
                  Some Scenario.first_endpoint) by reflexivity.
  split; [exact Hfind|].
  exact (failure_count_is_failure_rows Scenario.session Sample.first_id
           Scenario.first_endpoint Hfind).
Defined.

Lemma last_payload_at_is_the_latest_witness :
  In Scenario.second_endpoint (webhooks (run Scenario.session)) /\
  Webhook.last_payload_at Scenario.second_endpoint =
    latest_timestamp Sample.second_id (run Scenario.session) /\
  (Webhook.last_payload_at Scenario.second_endpoint = None <->
   Webhook.success_count Scenario.second_endpoint = 0) /\
  (Webhook.success_count Scenario.second_endpoint = 0 <->
   DbManager.payloads_of Sample.second_id (run Scenario.session) = []).
Proof.
  assert (Hin : In Scenario.second_endpoint (webhooks (run Scenario.session)))
    by (right; left; reflexivity).
  split; [exact Hin|].
  exact (last_payload_at_is_the_latest Scenario.session Scenario.second_endpoint Hin).
Defined.

Lemma emitted_id_fetches_the_payload_witness :
  find (is_webhook Sample.first_id) (webhooks (run Scenario.session)) =
    Some Scenario.first_endpoint /\
  loads "{}" = Some (Json.Object []) /\
  exists (r : App.reply) (payload_id : Z) (timestamp : string) (file' : Database),
    App.serve (App.webhook Sample.evening Sample.evening Sample.first_id "{}")
      (run Scenario.session) =
      (r, [App.mk_emission "new_payload"
             (App.mk_payload_data payload_id timestamp (dumps (Json.Object [])))
             Sample.first_id],
       file') /\
    (forall p, In p (webhook_payloads (run Scenario.session)) ->
       WebhookPayload.id p < payload_id) /\
    DbManager.get_single_payload payload_id (App.get_db file') =
      (Ok (Some (dumps (Json.Object []))), App.get_db file') /\
    Views.render (Views.download_single_payload payload_id) file' =
      (Ok (Views.mk_attachment ("payload_" ++ Views.str_int payload_id ++ ".json")
             "application/json" (dumps_indent (Json.Object []))),
       [], file').
Proof.
  assert (Hfind : find (is_webhook Sample.first_id) (webhooks (run Scenario.session)) =
                  Some Scenario.first_endpoint) by reflexivity.
  assert (Hbody : loads "{}" = Some (Json.Object [])) by reflexivity.
  split; [exact Hfind|]. split; [exact Hbody|].
  exact (emitted_id_fetches_the_payload Scenario.session Sample.evening Sample.evening
           Sample.first_id "{}" Scenario.first_endpoint (Json.Object []) Hfind Hbody).
Defined.

Lemma record_successful_payload_unknown_id_witness :
  foreign_keys (App.get_db Sample.one_endpoint) = true /\
  find (is_webhook Sample.second_id)
    (webhooks (current (App.get_db Sample.one_endpoint))) = None /\
  DbManager.record_successful_payload Sample.noon Sample.second_id Json.Null
    (App.get_db Sample.one_endpoint) =
    (Raise (IntegrityError "FOREIGN KEY constraint failed"),
     App.get_db Sample.one_endpoint) /\
  App.close_db
    (snd (DbManager.record_successful_payload Sample.noon Sample.second_id Json.Null
            (App.get_db Sample.one_endpoint))) =
    App.close_db (App.get_db Sample.one_endpoint).
Proof.
  split; [reflexivity|]. split; [reflexivity|].
  exact (record_successful_payload_unknown_id (App.get_db Sample.one_endpoint) Sample.noon
           Sample.second_id Json.Null eq_refl eq_refl).
Defined.

Lemma generate_adds_one_endpoint_witness :
  find (is_webhook Sample.second_id) (webhooks Sample.one_endpoint) = None /\
  exists (full_url : string) (file' : Database),
    App.serve (App.generate_webhook Sample.second_id Sample.noon Sample.host_url)
      Sample.one_endpoint =
      (App.mk_reply 302
         (App.Redirect "index" (Some (Sample.second_id ++ "|" ++ full_url)%string)),
       [], file') /\
    DbManager.get_total_webhook_count (App.get_db file') = (Ok 2, App.get_db file') /\
    find (is_webhook Sample.second_id) (webhooks file') =
      Some (Webhook.mk Sample.second_id full_url (Clock.isoformat Sample.noon) 0 0 None).
Proof.
  split; [reflexivity|].
  destruct (generate_adds_one_endpoint Sample.one_endpoint Sample.second_id Sample.noon
              Sample.host_url eq_refl) as (full_url & file' & Hserve & Hcount & Hfind & _).
  exists full_url, file'. repeat split; assumption.
Defined.

Lemma one_quiet_stamps :
  column_values (current (App.get_db (run Scenario.one_quiet))) t_webhooks c_last_payload_at =
    Some (map stamp_text [Some Sample.noon; None]).
Proof. vm_compute. reflexivity. Qed.

Lemma daily_counts_skip_nulls_witness :
  Forall valid_stamp [Some Sample.noon; None] /\
  column_values (current (App.get_db (run Scenario.one_quiet))) t_webhooks c_last_payload_at =
    Some (map stamp_text [Some Sample.noon; None]) /\
  exists rows : list (string * Z),
    DbManager.get_daily_counts Sample.evening t_webhooks c_last_payload_at 7
      (App.get_db (run Scenario.one_quiet)) =
      (Ok rows, App.get_db (run Scenario.one_quiet)) /\
    rows = [("2024-01-02", 1)] /\
    StronglySorted text_lt (map fst rows) /\
    sum_counts rows =
      Sqlite.count (filter (stamped_since Sample.evening 7) [Some Sample.noon; None]).
Proof.
  assert (Hvalid : Forall valid_stamp [Some Sample.noon; None]).
  { repeat constructor; cbn; lia. }
  split; [exact Hvalid|]. split; [exact one_quiet_stamps|].
  destruct (daily_counts_skip_nulls (App.get_db (run Scenario.one_quiet)) Sample.evening
              t_webhooks c_last_payload_at 7 [Some Sample.noon; None] Hvalid one_quiet_stamps)
    as (rows & Hrun & Hsorted & _ & Hsum & _).
  exists rows. split; [exact Hrun|]. split; [|split; assumption].
  vm_compute in Hrun. now injection Hrun as <-.
Defined.

Lemma every_stored_payload_downloads_witness :
  In Scenario.first_payload (webhook_payloads (run Scenario.session)) /\
  exists v : json,
    WebhookPayload.payload Scenario.first_payload = dumps v /\
    Views.render (Views.download_single_payload 1) (run Scenario.session) =
      (Ok (Views.mk_attachment ("payload_" ++ Views.str_int 1 ++ ".json")
             "application/json" (dumps_indent v)),
       [], run Scenario.session) /\
    Views.pretty_json_filter (WebhookPayload.payload Scenario.first_payload) =
      dumps_indent v.
Proof.
  assert (Hin : In Scenario.first_payload (webhook_payloads (run Scenario.session)))
    by (left; reflexivity).
  split; [exact Hin|].
  destruct (every_stored_payload_downloads Scenario.session Scenario.first_payload Hin)
    as (v & Hdumps & _ & Hdownload & Hfilter).
  exists v. repeat split; assumption.
Defined.

Lemma deleted_payloads_are_gone_witness :
  In Scenario.first_payload (webhook_payloads (run Scenario.session)) /\
  Views.render (Views.download_single_payload 1)
    (handle (run Scenario.session) (Delete Sample.first_id)) =
    (Raise (NotFound "Payload not found."), [],
     handle (run Scenario.session) (Delete Sample.first_id)).
Proof.
  assert (Hin : In Scenario.first_payload (webhook_payloads (run Scenario.session)))
    by (left; reflexivity).
  split; [exact Hin|].
  exact (proj1 (deleted_payloads_are_gone Scenario.session Scenario.first_payload Hin)).
Defined.



Lemma stats_today_counts_by_day_witness :
  Clock.valid Sample.evening /\
  Forall Clock.valid Sample.readings /\
  column_values (current (App.get_db Sample.three_rows)) t_webhook_payloads c_timestamp =
    Some (map (fun x => Some (Clock.isoformat x)) Sample.readings) /\
  DbManager.get_stats_today Sample.evening t_webhook_payloads
    (App.get_db Sample.three_rows) =
    (Ok (Sqlite.count
           (filter (fun x => negb (before_yesterday Sample.evening x)) Sample.readings)),
     App.get_db Sample.three_rows) /\
  Sqlite.count
    (filter (fun x => negb (before_yesterday Sample.evening x)) Sample.readings) = 3.
Proof.
  assert (Hnow : Clock.valid Sample.evening) by (unfold Clock.valid; cbn; lia).
  split; [exact Hnow|]. split; [exact sample_readings_valid|]. split; [reflexivity|].
  split; [|reflexivity].
  exact (stats_today_counts_by_day (App.get_db Sample.three_rows) Sample.evening
           t_webhook_payloads Sample.readings Hnow sample_readings_valid eq_refl).
Defined.


End MoreSamples.
